(** * Level2ProductView: sweep geometry and colour look-up table

    A shallow embedding of
    [scwx-qt/source/scwx/qt/view/level2_product_view.cpp]
    ([Level2ProductView::ComputeSweep], [Level2ProductView::UpdateColorTable]
    and the accessors around them), followed by the properties of the two
    routines.

    Conventions of the embedding:
    - a fixed-width C++ integer is a [Z] with its wrap-around written out
      ([to_u8], [to_u16], [to_u32], [to_i8], [to_size]);
    - [float] is IEEE-754 binary32, through the parameterised operations of
      [SpecFloat] at precision 24 and exponent bound 128;
    - a [std::vector] is a [list]; [v[i]] is unchecked in C++, so a read or a
      write out of range is undefined behaviour and is reported as a [Fault];
    - a [std::shared_ptr] that may be null is an [option]; a dereference of a
      null pointer is a [Fault];
    - a loop whose termination depends on the input runs on [fuel];
    - log records of warning level and Qt signals are appended to a trace. *)

From Stdlib Require Import ZArith Lia Bool.
From Stdlib Require Import Floats.SpecFloat.
From stdpp Require Import base tactics option list.

Local Open Scope Z_scope.

(** ** Fixed-width integers *)

Module Cxx.

Definition to_u8 (z : Z) : Z := z mod 2 ^ 8.
Definition to_u16 (z : Z) : Z := z mod 2 ^ 16.
Definition to_u32 (z : Z) : Z := z mod 2 ^ 32.
(** [size_t] of an LP64 / LLP64 target. *)
Definition to_size (z : Z) : Z := z mod 2 ^ 64.
Definition to_i8 (z : Z) : Z := (z + 2 ^ 7) mod 2 ^ 8 - 2 ^ 7.

(** [std::clamp(v, lo, hi)]. *)
Definition clamp (v lo hi : Z) : Z :=
  if v <? lo then lo else if hi <? v then hi else v.

(** Ways in which a run leaves defined behaviour. *)
Inductive fault : Type :=
| NullDereference
| OutOfRangeRead
| OutOfRangeWrite.

(** Outcome of a run: a value, undefined behaviour, or a loop that was
    still running when the fuel ran out. *)
Inductive result (A : Type) : Type :=
| Done (a : A)
| Fault (f : fault)
| OutOfFuel.
Arguments Done {A} a.
Arguments Fault {A} f.
Arguments OutOfFuel {A}.

Definition bind {A B : Type} (r : result A) (k : A -> result B) : result B :=
  match r with
  | Done a => k a
  | Fault f => Fault f
  | OutOfFuel => OutOfFuel
  end.

(** [*ptr] on a [shared_ptr]. *)
Definition deref {A : Type} (ptr : option A) : result A :=
  match ptr with
  | Some a => Done a
  | None => Fault NullDereference
  end.

(** [v[i]] as an rvalue. *)
Definition vec_at {A : Type} (v : list A) (i : Z) : result A :=
  if i <? 0 then Fault OutOfRangeRead
  else match v !! Z.to_nat i with
       | Some a => Done a
       | None => Fault OutOfRangeRead
       end.

(** [v[i] = x] with [i] a [size_t]. *)
Definition vec_set {A : Type} (v : list A) (i : nat) (x : A) : result (list A) :=
  if decide (i < length v)%nat then Done (<[i := x]> v)
  else Fault OutOfRangeWrite.

(** [boost::irange<uint16_t>(first, last)]: the half-open range
    [first, last), empty when [last <= first]. *)
Definition irange (first last : Z) : list Z := seqZ first (last - first).

End Cxx.

Import Cxx.

#[global] Instance result_bind : MBind result :=
  fun A B k r => bind r k.
#[global] Instance result_ret : MRet result := @Done.

(** ** Single-precision floating point *)

Module Float32.

Definition prec : Z := 24.
Definition emax : Z := 128.

Definition float : Type := spec_float.

Definition zero : float := S754_zero false.

(** Conversion of an integer to [float] (round to nearest even). *)
Definition of_Z (z : Z) : float := binary_normalize prec emax z 0 false.

Definition add : float -> float -> float := SFadd prec emax.
Definition sub : float -> float -> float := SFsub prec emax.
Definition mul : float -> float -> float := SFmul prec emax.
Definition div : float -> float -> float := SFdiv prec emax.

(** [operator==] on floats: a NaN differs from everything, the two zeros
    are equal. *)
Definition eqb : float -> float -> bool := SFeqb.

(** Whether a float is a NaN. *)
Definition isnan (x : float) : bool :=
  match x with
  | S754_nan => true
  | _ => false
  end.

Definition LONG_MIN : Z := - 2 ^ 63.
Definition LONG_MAX : Z := 2 ^ 63 - 1.

(** The integer nearest to a finite [m * 2 ^ e], halfway cases away from
    zero. *)
Definition round_half_away (s : bool) (m : positive) (e : Z) : Z :=
  let a :=
    if 0 <=? e then Z.pos m * 2 ^ e
    else
      let d := 2 ^ (- e) in
      let q := Z.pos m / d in
      let r := Z.pos m mod d in
      if d <=? 2 * r then q + 1 else q in
  if s then - a else a.

(** [std::lroundf].  The C standard leaves the result unspecified when the
    rounded value does not fit a [long] (also for an infinity or a NaN);
    the value used here is the one an x86-64 conversion yields, [LONG_MIN].
    Every use below converts the result to [uint16_t], under which this
    choice and the exact integer agree (both give 0). *)
Definition lroundf (x : float) : Z :=
  match x with
  | S754_zero _ => 0
  | S754_finite s m e =>
      let z := round_half_away s m e in
      if (LONG_MIN <=? z) && (z <=? LONG_MAX) then z else LONG_MIN
  | S754_infinity _ | S754_nan => LONG_MIN
  end.

End Float32.

Abbreviation float := Float32.float.

(** ** Data model (the parts of [wsr88d::rda] and [common] read by the view) *)

Inductive DataBlockType : Type :=
| MomentRef | MomentVel | MomentSw | MomentZdr | MomentPhi | MomentRho
| MomentCfp | Unknown.

#[global] Instance DataBlockType_eq_dec : EqDecision DataBlockType.
Proof. solve_decision. Defined.

(** [common::Level2Product].  The enumeration is declared outside the
    translation unit; the seven products named in it are the keys of
    [blockTypes_], and [UnknownProduct] stands for any other enumerator (the
    constructor and the [default:] label of [UpdateColorTable] provide for
    one). *)
Inductive Level2Product : Type :=
| Reflectivity | Velocity | SpectrumWidth | DifferentialReflectivity
| DifferentialPhase | CorrelationCoefficient | ClutterFilterPowerRemoved
| UnknownProduct.

Inductive RadialSize : Type := _0_5Degree | _1Degree.

(** [wsr88d::rda::MomentDataBlock], as seen through its accessors.
    [data_moments] is the sample array as the pointer cast chosen from the
    block's own word size reads it. *)
Record MomentDataBlock : Type := {
  number_of_data_moment_gates : Z;
  data_moment_range_raw : Z;
  data_moment_range_sample_interval_raw : Z;
  snr_threshold_raw : Z;
  data_word_size : Z;
  scale : float;
  offset : float;
  data_moments : list Z
}.

Record VolumeDataBlock : Type := {
  latitude : float;
  longitude : float
}.

(** One radial ([wsr88d::rda::DigitalRadarData]). *)
Record DigitalRadarData : Type := {
  modified_julian_date : Z;
  collection_time : Z;
  azimuth_angle : float;
  azimuth_resolution_spacing : Z;
  volume_data_block : option VolumeDataBlock;
  moment_data_block : DataBlockType -> option MomentDataBlock
}.

(** [boost::gil::rgba8_pixel_t]. *)
Definition rgba8_pixel_t : Type := (Z * Z * Z * Z)%type.
Definition rgba8_zero : rgba8_pixel_t := (0, 0, 0, 0).

(** [common::ColorTable], as seen through [IsValid] and [Color]. *)
Record ColorTable : Type := {
  IsValid : bool;
  Color : float -> rgba8_pixel_t
}.

(** [manager::RadarProductManager], as seen through [GetLevel2Data] and
    [coordinates]. *)
Record RadarProductManager : Type := {
  GetLevel2Data : DataBlockType -> Z -> list DigitalRadarData;
  coordinates : RadialSize -> list float
}.

(** Address of a [ColorTable] object: what [shared_ptr::operator==]
    compares. *)
Definition address : Type := positive.

Inductive warning : Type :=
| UnknownProductWarning (product : Level2Product)
| NoMomentData (product : Level2Product)
| DifferentWordSize (radial : Z).

(** What a run leaves behind besides the object state: warnings and
    emitted signals, oldest first. *)
Inductive event : Type :=
| LogWarning (w : warning)
| SweepComputed
| ColorTableUpdated.

(** ** The view *)

(** [Level2ProductViewImpl], with the trace of the runs so far. *)
Record Level2ProductViewImpl : Type := {
  product_ : Level2Product;
  dataBlockType_ : DataBlockType;
  radarProductManager_ : RadarProductManager;
  momentDataBlock0_ : option MomentDataBlock;
  vertices_ : list float;
  dataMoments8_ : list Z;
  dataMoments16_ : list Z;
  latitude_ : float;
  longitude_ : float;
  sweepTime_ : Z;
  colorTable_ : option address;
  colorTableLut_ : list rgba8_pixel_t;
  savedColorTable_ : option address;
  savedScale_ : float;
  savedOffset_ : float;
  trace_ : list event
}.

Definition set_momentDataBlock0 (m : option MomentDataBlock)
    (p : Level2ProductViewImpl) : Level2ProductViewImpl :=
  {| product_ := product_ p; dataBlockType_ := dataBlockType_ p;
     radarProductManager_ := radarProductManager_ p;
     momentDataBlock0_ := m;
     vertices_ := vertices_ p; dataMoments8_ := dataMoments8_ p;
     dataMoments16_ := dataMoments16_ p;
     latitude_ := latitude_ p; longitude_ := longitude_ p;
     sweepTime_ := sweepTime_ p;
     colorTable_ := colorTable_ p; colorTableLut_ := colorTableLut_ p;
     savedColorTable_ := savedColorTable_ p;
     savedScale_ := savedScale_ p; savedOffset_ := savedOffset_ p;
     trace_ := trace_ p |}.

Definition set_origin (lat lon : float) (t : Z)
    (p : Level2ProductViewImpl) : Level2ProductViewImpl :=
  {| product_ := product_ p; dataBlockType_ := dataBlockType_ p;
     radarProductManager_ := radarProductManager_ p;
     momentDataBlock0_ := momentDataBlock0_ p;
     vertices_ := vertices_ p; dataMoments8_ := dataMoments8_ p;
     dataMoments16_ := dataMoments16_ p;
     latitude_ := lat; longitude_ := lon; sweepTime_ := t;
     colorTable_ := colorTable_ p; colorTableLut_ := colorTableLut_ p;
     savedColorTable_ := savedColorTable_ p;
     savedScale_ := savedScale_ p; savedOffset_ := savedOffset_ p;
     trace_ := trace_ p |}.

Definition set_buffers (v : list float) (m8 m16 : list Z)
    (p : Level2ProductViewImpl) : Level2ProductViewImpl :=
  {| product_ := product_ p; dataBlockType_ := dataBlockType_ p;
     radarProductManager_ := radarProductManager_ p;
     momentDataBlock0_ := momentDataBlock0_ p;
     vertices_ := v; dataMoments8_ := m8; dataMoments16_ := m16;
     latitude_ := latitude_ p; longitude_ := longitude_ p;
     sweepTime_ := sweepTime_ p;
     colorTable_ := colorTable_ p; colorTableLut_ := colorTableLut_ p;
     savedColorTable_ := savedColorTable_ p;
     savedScale_ := savedScale_ p; savedOffset_ := savedOffset_ p;
     trace_ := trace_ p |}.

Definition set_colorTable (c : option address)
    (p : Level2ProductViewImpl) : Level2ProductViewImpl :=
  {| product_ := product_ p; dataBlockType_ := dataBlockType_ p;
     radarProductManager_ := radarProductManager_ p;
     momentDataBlock0_ := momentDataBlock0_ p;
     vertices_ := vertices_ p; dataMoments8_ := dataMoments8_ p;
     dataMoments16_ := dataMoments16_ p;
     latitude_ := latitude_ p; longitude_ := longitude_ p;
     sweepTime_ := sweepTime_ p;
     colorTable_ := c; colorTableLut_ := colorTableLut_ p;
     savedColorTable_ := savedColorTable_ p;
     savedScale_ := savedScale_ p; savedOffset_ := savedOffset_ p;
     trace_ := trace_ p |}.

Definition set_lut (lut : list rgba8_pixel_t) (c : option address)
    (sc off : float) (p : Level2ProductViewImpl) : Level2ProductViewImpl :=
  {| product_ := product_ p; dataBlockType_ := dataBlockType_ p;
     radarProductManager_ := radarProductManager_ p;
     momentDataBlock0_ := momentDataBlock0_ p;
     vertices_ := vertices_ p; dataMoments8_ := dataMoments8_ p;
     dataMoments16_ := dataMoments16_ p;
     latitude_ := latitude_ p; longitude_ := longitude_ p;
     sweepTime_ := sweepTime_ p;
     colorTable_ := colorTable_ p; colorTableLut_ := lut;
     savedColorTable_ := c; savedScale_ := sc; savedOffset_ := off;
     trace_ := trace_ p |}.

Definition record_events (es : list event)
    (p : Level2ProductViewImpl) : Level2ProductViewImpl :=
  {| product_ := product_ p; dataBlockType_ := dataBlockType_ p;
     radarProductManager_ := radarProductManager_ p;
     momentDataBlock0_ := momentDataBlock0_ p;
     vertices_ := vertices_ p; dataMoments8_ := dataMoments8_ p;
     dataMoments16_ := dataMoments16_ p;
     latitude_ := latitude_ p; longitude_ := longitude_ p;
     sweepTime_ := sweepTime_ p;
     colorTable_ := colorTable_ p; colorTableLut_ := colorTableLut_ p;
     savedColorTable_ := savedColorTable_ p;
     savedScale_ := savedScale_ p; savedOffset_ := savedOffset_ p;
     trace_ := trace_ p ++ es |}.

Definition VERTICES_PER_BIN : Z := 6.
Definition VALUES_PER_VERTEX : Z := 2.

(** The table [blockTypes_]. *)
Definition blockTypes_ (product : Level2Product) : option DataBlockType :=
  match product with
  | Reflectivity => Some MomentRef
  | Velocity => Some MomentVel
  | SpectrumWidth => Some MomentSw
  | DifferentialReflectivity => Some MomentZdr
  | DifferentialPhase => Some MomentPhi
  | CorrelationCoefficient => Some MomentRho
  | ClutterFilterPowerRemoved => Some MomentCfp
  | UnknownProduct => None
  end.

(** [TimePoint]: milliseconds since the epoch of [system_clock]; the day
    before it is day 0 of the radar's date count. *)
Definition TimePoint (modifiedJulianDate milliseconds : Z) : Z :=
  (-1) * 86400000 + modifiedJulianDate * 24 * 3600000 + milliseconds.

(** The constructor [Level2ProductViewImpl::Level2ProductViewImpl].  The two
    saved floats are not initialised by the constructor; [s] and [o] stand
    for whatever they hold. *)
Definition new_Level2ProductViewImpl (product : Level2Product)
    (radarProductManager : RadarProductManager) (s o : float)
  : Level2ProductViewImpl :=
  {| product_ := product;
     dataBlockType_ :=
       match blockTypes_ product with Some t => t | None => Unknown end;
     radarProductManager_ := radarProductManager;
     momentDataBlock0_ := None;
     vertices_ := []; dataMoments8_ := []; dataMoments16_ := [];
     latitude_ := Float32.zero; longitude_ := Float32.zero;
     sweepTime_ := 0;
     colorTable_ := None; colorTableLut_ := [];
     savedColorTable_ := None; savedScale_ := s; savedOffset_ := o;
     trace_ :=
       match blockTypes_ product with
       | Some _ => []
       | None => [LogWarning (UnknownProductWarning product)]
       end |}.

(** [Level2ProductView::GetMomentData]: the buffer handed to the renderer,
    its size in bytes and the size of one component. *)
Definition GetMomentData (p : Level2ProductViewImpl) : list Z * Z * Z :=
  if decide (0 < length (dataMoments8_ p))%nat
  then (dataMoments8_ p, Z.of_nat (length (dataMoments8_ p)) * 1, 1)
  else (dataMoments16_ p, Z.of_nat (length (dataMoments16_ p)) * 2, 2).

(** [Level2ProductView::vertices]. *)
Definition vertices (p : Level2ProductViewImpl) : list float := vertices_ p.

(** [Level2ProductView::sweep_time]. *)
Definition sweep_time (p : Level2ProductViewImpl) : Z := sweepTime_ p.

(** [Level2ProductView::color_table].  [base] is what
    [RadarProductView::color_table] of the base class returns; the base
    class is outside the translation unit. *)
Definition color_table (base : list rgba8_pixel_t)
    (p : Level2ProductViewImpl) : list rgba8_pixel_t :=
  if decide (length (colorTableLut_ p) = 0%nat) then base
  else colorTableLut_ p.

(** The raw-value range of a product, from the [switch] of
    [UpdateColorTable]. *)
Definition product_range (product : Level2Product) : Z * Z :=
  match product with
  | DifferentialReflectivity => (2, 1058)
  | DifferentialPhase => (2, 1023)
  | ClutterFilterPowerRemoved => (8, 81)
  | _ => (2, 255)
  end.

(** ** Sample inputs

    Small sweeps on which the properties below are exercised. *)

Module Sample.

(** A moment block with scale 1 and threshold field 0, so that its display
    threshold is its offset. *)
Definition block (wordSize offset gateCount range interval : Z)
    (samples : list Z) : MomentDataBlock :=
  {| number_of_data_moment_gates := gateCount;
     data_moment_range_raw := range;
     data_moment_range_sample_interval_raw := interval;
     snr_threshold_raw := 0;
     data_word_size := wordSize;
     scale := Float32.of_Z 1;
     offset := Float32.of_Z offset;
     data_moments := samples |}.

(** A radial of the site at 35 N, 97 W. *)
Definition radial (azimuth spacing : Z) (m : option MomentDataBlock)
  : DigitalRadarData :=
  {| modified_julian_date := 19000;
     collection_time := 1000;
     azimuth_angle := Float32.of_Z azimuth;
     azimuth_resolution_spacing := spacing;
     volume_data_block :=
       Some {| latitude := Float32.of_Z 35; longitude := Float32.of_Z (-97) |};
     moment_data_block := fun _ => m |}.

(** A coordinate table whose entry at offset [k] is [k], of [n] entries. *)
Definition table (n : Z) : list float :=
  (fun k : Z => Float32.of_Z k) <$> seqZ 0 n.

(** A coordinate table of [n] zeros but for the entries at the offsets
    [marks], each of which holds its offset. *)
Definition marked_table (n : Z) (marks : list Z) : list float :=
  foldr (fun k t => <[Z.to_nat k := Float32.of_Z k]> t)
        (replicate (Z.to_nat n) Float32.zero) marks.

Definition manager (table : list float) (radarData : list DigitalRadarData)
  : RadarProductManager :=
  {| GetLevel2Data := fun _ _ => radarData;
     coordinates := fun _ => table |}.

(** Colour tables: a valid one at address 1, redder with the value, and
    an invalid one everywhere else. *)
Definition color_tables (a : address) : ColorTable :=
  {| IsValid := bool_decide (a = 1%positive);
     Color := fun f => (to_u8 (Float32.lroundf f), 0, 0, 255) |}.

(** A freshly constructed view. *)
Definition view (product : Level2Product) (table : list float)
    (radarData : list DigitalRadarData) : Level2ProductViewImpl :=
  new_Level2ProductViewImpl product (manager table radarData)
    Float32.zero Float32.zero.

(** Whether a run ended. *)
Definition ends (r : result Level2ProductViewImpl) : bool :=
  match r with
  | Done _ => true
  | _ => false
  end.

(** The view a run ends in, or [p] when it does not end. *)
Definition completed (r : result Level2ProductViewImpl)
    (p : Level2ProductViewImpl) : Level2ProductViewImpl :=
  match r with
  | Done p' => p'
  | _ => p
  end.

(** A table that covers radial slots 0 to 3 at their first gates (a slot
    is 1840 gates of two entries), with the entries of the first gates of
    each slot marked. *)
Definition slots_table : list float :=
  marked_table 12000
    [1; 2; 3; 3680; 3681; 3682; 3683; 7360; 7361; 11040; 11041].

(** [common::MAX_RADIALS] and [common::MAX_DATA_MOMENT_GATES] as the
    project's [constants.hpp] has them. *)
Definition MAX_RADIALS : Z := 720.
Definition MAX_DATA_MOMENT_GATES : Z := 1840.

(** A one-degree table: 360 radial slots of [MAX_DATA_MOMENT_GATES] pairs,
    with the entries of the first gate of slots 0 to 2 marked. *)
Definition one_degree_table : list float :=
  marked_table (360 * MAX_DATA_MOMENT_GATES * 2) [1; 3680; 3681; 7360; 7361].

(** Two whole-degree radials, at azimuths 0 and 1. *)
Definition whole_degree_from_0 : list DigitalRadarData :=
  [ radial 0 2 (Some (block 8 0 1 125 250 [60]));
    radial 1 2 (Some (block 8 0 1 125 250 [50])) ].

(** Two 8-bit radials of one gate each.  The first has threshold 0 and
    sample 60; the second has threshold 100 and sample 50. *)
Definition two_thresholds : list DigitalRadarData :=
  [ radial 0 1 (Some (block 8 0 1 125 250 [60]));
    radial 0 1 (Some (block 8 100 1 125 250 [50])) ].

(** One 8-bit radial of two gates, the first of them at the origin, with
    samples 50 and 60 and threshold 0. *)
Definition near_block : MomentDataBlock := block 8 0 2 125 250 [50; 60].
Definition one_radial : list DigitalRadarData :=
  [ radial 0 1 (Some near_block) ].

(** Three radials of one gate each, the middle one of 16-bit samples. *)
Definition first_block : MomentDataBlock := block 8 0 1 125 250 [60].
Definition wide_block : MomentDataBlock := block 16 0 1 125 250 [300].
Definition last_block : MomentDataBlock := block 8 0 1 125 250 [70].
Definition mixed_word_sizes : list DigitalRadarData :=
  [ radial 0 1 (Some first_block);
    radial 0 1 (Some wide_block);
    radial 1 1 (Some last_block) ].
Definition without_mismatch : list DigitalRadarData :=
  [ radial 0 1 (Some first_block);
    radial 1 1 (Some last_block) ].

(** Two whole-degree radials, the first at azimuth 359. *)
Definition whole_degree : list DigitalRadarData :=
  [ radial 359 2 (Some (block 8 0 1 125 250 [60]));
    radial 0 2 (Some (block 8 0 1 125 250 [50])) ].

(** One 8-bit radial whose threshold rounds to [offset]. *)
Definition with_offset (offset : Z) : list DigitalRadarData :=
  [ radial 0 1 (Some (block 8 offset 2 125 250 [5; 250])) ].

(** A radial with the moment block followed by one without. *)
Definition block_missing : list DigitalRadarData :=
  [ radial 0 1 (Some first_block); radial 1 1 None ].

(** 65536 radials of one gate each. *)
Definition too_many_radials : list DigitalRadarData :=
  radial 0 1 (Some first_block)
  :: replicate (Z.to_nat 65535) (radial 0 1 (Some first_block)).

(** A radial whose first gate lies 500 m before the origin: range 0 and a
    gate interval of 1000 m. *)
Definition behind_origin_block : MomentDataBlock := block 8 0 2 0 1000 [50; 60].
Definition behind_origin : list DigitalRadarData :=
  [ radial 0 1 (Some behind_origin_block) ].

(** One 8-bit radial whose only sample, 5, is below its threshold 10. *)
Definition all_below_block : MomentDataBlock := block 8 10 1 125 250 [5].
Definition all_below : list DigitalRadarData :=
  [ radial 0 1 (Some all_below_block) ].

(** One radial without the moment block. *)
Definition no_block : list DigitalRadarData := [ radial 0 1 None ].

(** One radial with the moment block and without the volume block. *)
Definition volume_missing : DigitalRadarData :=
  {| modified_julian_date := 19000;
     collection_time := 1000;
     azimuth_angle := Float32.of_Z 0;
     azimuth_resolution_spacing := 1;
     volume_data_block := None;
     moment_data_block := fun _ => Some first_block |}.
Definition no_volume : list DigitalRadarData := [ volume_missing ].

(** A view that holds a reference block and the address of a colour
    table, and no sweep. *)
Definition loaded_view (m : MomentDataBlock) (a : address)
  : Level2ProductViewImpl :=
  set_momentDataBlock0 (Some m)
    (set_colorTable (Some a) (view Reflectivity [] [])).

(** A block whose scale is a NaN. *)
Definition nan_block : MomentDataBlock :=
  {| number_of_data_moment_gates := 1;
     data_moment_range_raw := 125;
     data_moment_range_sample_interval_raw := 250;
     snr_threshold_raw := 0;
     data_word_size := 8;
     scale := S754_nan;
     offset := Float32.of_Z 0;
     data_moments := [60] |}.

End Sample.

(** The buffers and indices the loops of [ComputeSweep] work on. *)
Record sweep_state : Type := {
  vertices_buf : list float;
  vIndex : nat;
  dataMoments8_buf : list Z;
  dataMoments16_buf : list Z;
  mIndex : nat;
  warnings : list event
}.

Section View.

(** [common::MAX_RADIALS] and [common::MAX_DATA_MOMENT_GATES] come from
    [scwx/common/constants.hpp], which is outside the translation unit:
    they are parameters here.  The index arithmetic on them is taken
    without wrap-around. *)
Variable MAX_RADIALS : Z.
Variable MAX_DATA_MOMENT_GATES : Z.

(** The [ColorTable] objects the view's pointers refer to. *)
Variable colorTables : address -> ColorTable.

(** *** [UpdateColorTable] *)

(** One iteration of the [for_each] body: [lut[i - *begin] = Color(f)]. *)
Definition lut_store (ct : ColorTable) (scale offset : float) (rangeMin : Z)
    (lut : list rgba8_pixel_t) (i : Z) : result (list rgba8_pixel_t) :=
  let f := Float32.div (Float32.sub (Float32.of_Z i) offset) scale in
  vec_set lut (Z.to_nat (i - rangeMin)) (Color ct f).

(** The iterations write distinct elements and read none, so the parallel
    [for_each] is the left-to-right one. *)
Fixpoint for_each_lut (ct : ColorTable) (scale offset : float) (rangeMin : Z)
    (dataRange : list Z) (lut : list rgba8_pixel_t)
  : result (list rgba8_pixel_t) :=
  match dataRange with
  | [] => Done lut
  | i :: rest =>
      lut' ← lut_store ct scale offset rangeMin lut i;
      for_each_lut ct scale offset rangeMin rest lut'
  end.

Definition UpdateColorTable (p : Level2ProductViewImpl)
  : result Level2ProductViewImpl :=
  match momentDataBlock0_ p, colorTable_ p with
  | None, _ | _, None => Done p
  | Some momentDataBlock0, Some a =>
      if negb (IsValid (colorTables a)) then Done p
      else
        let offset := offset momentDataBlock0 in
        let scale := scale momentDataBlock0 in
        if bool_decide (savedColorTable_ p = colorTable_ p)
           && Float32.eqb (savedOffset_ p) offset
           && Float32.eqb (savedScale_ p) scale
        then Done p
        else
          let '(rangeMin, rangeMax) := product_range (product_ p) in
          let dataRange := irange rangeMin rangeMax in
          let lut :=
            resize (Z.to_nat (rangeMax - rangeMin + 1)) rgba8_zero
                   (colorTableLut_ p) in
          lut' ← for_each_lut (colorTables a) scale offset rangeMin
                               dataRange lut;
          Done (record_events [ColorTableUpdated]
                  (set_lut lut' (colorTable_ p) scale offset p))
  end.

(** [Level2ProductView::LoadColorTable]. *)
Definition LoadColorTable (colorTable : option address)
    (p : Level2ProductViewImpl) : result Level2ProductViewImpl :=
  UpdateColorTable (set_colorTable colorTable p).

(** *** [ComputeSweep] *)

(** [snrThreshold], from the header of a moment block. *)
Definition snr_threshold (m : MomentDataBlock) : Z :=
  to_u16 (Float32.lroundf
            (Float32.add
               (Float32.div
                  (Float32.mul (Float32.of_Z (snr_threshold_raw m)) (scale m))
                  (Float32.of_Z 10))
               (offset m))).

Definition radial_multiplier (r : DigitalRadarData) : float :=
  Float32.div (Float32.of_Z 2)
    (Float32.of_Z (clamp (to_i8 (azimuth_resolution_spacing r)) 1 2)).

Definition start_radial (r : DigitalRadarData) : Z :=
  to_u16 (Float32.lroundf
            (Float32.mul (azimuth_angle r) (radial_multiplier r))).

(** [vertices[vIndex++] = x]. *)
Definition push_vertex (x : float) (s : sweep_state) : result sweep_state :=
  v ← vec_set (vertices_buf s) (vIndex s) x;
  Done {| vertices_buf := v; vIndex := S (vIndex s);
          dataMoments8_buf := dataMoments8_buf s;
          dataMoments16_buf := dataMoments16_buf s;
          mIndex := mIndex s; warnings := warnings s |}.

(** [dataMoments8[mIndex++] = x]. *)
Definition push_moment8 (x : Z) (s : sweep_state) : result sweep_state :=
  m ← vec_set (dataMoments8_buf s) (mIndex s) x;
  Done {| vertices_buf := vertices_buf s; vIndex := vIndex s;
          dataMoments8_buf := m;
          dataMoments16_buf := dataMoments16_buf s;
          mIndex := S (mIndex s); warnings := warnings s |}.

(** [dataMoments16[mIndex++] = x]. *)
Definition push_moment16 (x : Z) (s : sweep_state) : result sweep_state :=
  m ← vec_set (dataMoments16_buf s) (mIndex s) x;
  Done {| vertices_buf := vertices_buf s; vIndex := vIndex s;
          dataMoments8_buf := dataMoments8_buf s;
          dataMoments16_buf := m;
          mIndex := S (mIndex s); warnings := warnings s |}.

Definition log_warning (w : warning) (s : sweep_state) : sweep_state :=
  {| vertices_buf := vertices_buf s; vIndex := vIndex s;
     dataMoments8_buf := dataMoments8_buf s;
     dataMoments16_buf := dataMoments16_buf s;
     mIndex := mIndex s; warnings := warnings s ++ [LogWarning w] |}.

(** [for (size_t m = 0; m < vertexCount; m++) push(x)]. *)
Fixpoint repeat_push (push : Z -> sweep_state -> result sweep_state)
    (vertexCount : nat) (x : Z) (s : sweep_state) : result sweep_state :=
  match vertexCount with
  | O => Done s
  | S n => s' ← push x s; repeat_push push n x s'
  end.

Section Radial.

(** What the radial loop reads from the first radial and the view. *)
Variable coordinates : list float.
Variable latitude_ longitude_ : float.
Variable snrThreshold startRadial : Z.

(** [vertices[vIndex++] = coordinates[off]]: the right operand of an
    assignment is evaluated first. *)
Definition push_coordinate (off : Z) (s : sweep_state) : result sweep_state :=
  x ← vec_at coordinates off;
  push_vertex x s.

(** The "Store vertices" part of the gate loop's body. *)
Definition store_vertices (radial gate gateSize : Z) (s : sweep_state)
  : result sweep_state :=
  if 0 <? gate then
    let baseCoord := to_u16 (gate - 1) in
    let offset1 :=
      ((startRadial + radial) mod MAX_RADIALS * MAX_DATA_MOMENT_GATES
       + baseCoord) * 2 in
    let offset2 := offset1 + gateSize * 2 in
    let offset3 :=
      ((startRadial + radial + 1) mod MAX_RADIALS * MAX_DATA_MOMENT_GATES
       + baseCoord) * 2 in
    let offset4 := offset3 + gateSize * 2 in
    s ← push_coordinate offset1 s;
    s ← push_coordinate (offset1 + 1) s;
    s ← push_coordinate offset2 s;
    s ← push_coordinate (offset2 + 1) s;
    s ← push_coordinate offset3 s;
    s ← push_coordinate (offset3 + 1) s;
    s ← push_coordinate offset3 s;
    s ← push_coordinate (offset3 + 1) s;
    s ← push_coordinate offset4 s;
    s ← push_coordinate (offset4 + 1) s;
    s ← push_coordinate offset2 s;
    push_coordinate (offset2 + 1) s
  else
    let baseCoord := gate in
    let offset1 :=
      ((startRadial + radial) mod MAX_RADIALS * MAX_DATA_MOMENT_GATES
       + baseCoord) * 2 in
    let offset2 :=
      ((startRadial + radial + 1) mod MAX_RADIALS * MAX_DATA_MOMENT_GATES
       + baseCoord) * 2 in
    s ← push_vertex latitude_ s;
    s ← push_vertex longitude_ s;
    s ← push_coordinate offset1 s;
    s ← push_coordinate (offset1 + 1) s;
    s ← push_coordinate offset2 s;
    push_coordinate (offset2 + 1) s.

(** The body of the gate loop; a bin below the threshold is left by
    [continue]. *)
Definition gate_body (momentData : MomentDataBlock)
    (radial gate i gateSize : Z) (s : sweep_state) : result sweep_state :=
  let vertexCount := if 0 <? gate then 6%nat else 3%nat in
  if data_word_size momentData =? 8 then
    x ← vec_at (data_moments momentData) i;
    let dataValue := to_u8 x in
    if dataValue <? snrThreshold then Done s
    else
      s ← repeat_push push_moment8 vertexCount dataValue s;
      store_vertices radial gate gateSize s
  else
    x ← vec_at (data_moments momentData) i;
    let dataValue := to_u16 x in
    if dataValue <? snrThreshold then Done s
    else
      s ← repeat_push push_moment16 vertexCount dataValue s;
      store_vertices radial gate gateSize s.

(** [for (uint16_t gate = startGate, i = 0; gate + gateSize <= endGate;
         gate += gateSize, ++i)]. *)
Fixpoint gate_loop (fuel : nat) (momentData : MomentDataBlock)
    (radial gateSize endGate gate i : Z) (s : sweep_state)
  : result sweep_state :=
  match fuel with
  | O => OutOfFuel
  | S fuel' =>
      if gate + gateSize <=? endGate then
        s' ← gate_body momentData radial gate i gateSize s;
        gate_loop fuel' momentData radial gateSize endGate
                  (to_u16 (gate + gateSize)) (to_u16 (i + 1)) s'
      else Done s
  end.

End Radial.

(** The body of the radial loop; a radial of another word size is left
    by [continue]. *)
Definition radial_body (coordinates : list float)
    (latitude_ longitude_ : float) (snrThreshold startRadial : Z)
    (dataBlockType : DataBlockType) (momentData0 : MomentDataBlock)
    (gates : Z) (fuel : nat) (radial : Z) (radialData : DigitalRadarData)
    (s : sweep_state) : result sweep_state :=
  momentData ← deref (moment_data_block radialData dataBlockType);
  if negb (data_word_size momentData0 =? data_word_size momentData) then
    Done (log_warning (DifferentWordSize radial) s)
  else
    let dataMomentRange := to_u16 (data_moment_range_raw momentData) in
    let dataMomentInterval :=
      to_u16 (data_moment_range_sample_interval_raw momentData) in
    let dataMomentIntervalH := to_u16 (dataMomentInterval ÷ 2) in
    let gateSize := Z.max (to_u16 1) (to_u16 (dataMomentInterval ÷ 250)) in
    let startGate :=
      to_u16 ((dataMomentRange - dataMomentIntervalH) ÷ 250) in
    let numberOfDataMomentGates :=
      Z.min (to_u16 (number_of_data_moment_gates momentData))
            (to_u16 gates) in
    let endGate :=
      Z.min (to_u16 (startGate + numberOfDataMomentGates * gateSize))
            (to_u16 MAX_DATA_MOMENT_GATES) in
    gate_loop coordinates latitude_ longitude_ snrThreshold startRadial
              fuel momentData radial gateSize endGate startGate 0 s.

(** [for (uint16_t radial = 0; radial < radials; ++radial)]. *)
Fixpoint radial_loop (coordinates : list float)
    (latitude_ longitude_ : float) (snrThreshold startRadial : Z)
    (dataBlockType : DataBlockType) (momentData0 : MomentDataBlock)
    (gates : Z) (radarData : list DigitalRadarData)
    (fuel : nat) (radial : Z) (s : sweep_state) : result sweep_state :=
  match fuel with
  | O => OutOfFuel
  | S fuel' =>
      if radial <? Z.of_nat (length radarData) then
        radialData ← vec_at radarData radial;
        s' ← radial_body coordinates latitude_ longitude_ snrThreshold
                          startRadial dataBlockType momentData0 gates
                          fuel' radial radialData s;
        radial_loop coordinates latitude_ longitude_ snrThreshold
                    startRadial dataBlockType momentData0 gates radarData
                    fuel' (to_u16 (radial + 1)) s'
      else Done s
  end.

Definition ComputeSweep (fuel : nat) (p : Level2ProductViewImpl)
  : result Level2ProductViewImpl :=
  if decide (dataBlockType_ p = Unknown) then Done p
  else
    let radarData :=
      GetLevel2Data (radarProductManager_ p) (dataBlockType_ p) 0 in
    match radarData with
    | [] => Done p
    | radarData0 :: _ =>
        let radialSize :=
          if Z.of_nat (length radarData) =? 720 then _0_5Degree
          else _1Degree in
        let coordinates := coordinates (radarProductManager_ p) radialSize in
        let p :=
          set_momentDataBlock0
            (moment_data_block radarData0 (dataBlockType_ p)) p in
        match momentDataBlock0_ p with
        | None =>
            Done (record_events [LogWarning (NoMomentData (product_ p))] p)
        | Some momentData0 =>
            volumeData0 ← deref (volume_data_block radarData0);
            let p :=
              set_origin (latitude volumeData0) (longitude volumeData0)
                (TimePoint (modified_julian_date radarData0)
                           (collection_time radarData0)) p in
            (* Setup vertex vector *)
            let radials := Z.of_nat (length radarData) in
            let gates := to_u32 (number_of_data_moment_gates momentData0) in
            let vertices :=
              replicate
                (Z.to_nat (to_size (radials * gates * VERTICES_PER_BIN
                                    * VALUES_PER_VERTEX)))
                Float32.zero in
            (* Setup data moment vector *)
            let size := Z.to_nat (to_size (radials * gates * VERTICES_PER_BIN)) in
            let '(dataMoments8, dataMoments16) :=
              if data_word_size momentData0 =? 8
              then (resize size 0 (dataMoments8_ p), [])
              else ([], resize size 0 (dataMoments16_ p)) in
            (* Compute threshold at which to display an individual bin *)
            let snrThreshold := snr_threshold momentData0 in
            let startRadial := start_radial radarData0 in
            s ← radial_loop coordinates (latitude_ p) (longitude_ p)
                  snrThreshold startRadial (dataBlockType_ p) momentData0
                  gates radarData fuel 0
                  {| vertices_buf := vertices; vIndex := 0;
                     dataMoments8_buf := dataMoments8;
                     dataMoments16_buf := dataMoments16;
                     mIndex := 0; warnings := [] |};
            let vertices := resize (vIndex s) Float32.zero (vertices_buf s) in
            let '(dataMoments8, dataMoments16) :=
              if data_word_size momentData0 =? 8
              then (resize (mIndex s) 0 (dataMoments8_buf s),
                    dataMoments16_buf s)
              else (dataMoments8_buf s,
                    resize (mIndex s) 0 (dataMoments16_buf s)) in
            UpdateColorTable
              (record_events (warnings s ++ [SweepComputed])
                 (set_buffers vertices dataMoments8 dataMoments16 p))
        end
    end.

(** *** The sweep, bin by bin

    What a run of [ComputeSweep] writes, stated on the input alone.  These
    definitions restate the loops in closed form; the refinement lemmas
    below connect them to [ComputeSweep]. *)

(** [gateSize], [startGate] and [endGate] of a radial, as [radial_body]
    computes them. *)
Definition gate_size (m : MomentDataBlock) : Z :=
  Z.max (to_u16 1)
    (to_u16 (to_u16 (data_moment_range_sample_interval_raw m) ÷ 250)).

Definition start_gate (m : MomentDataBlock) : Z :=
  to_u16 ((to_u16 (data_moment_range_raw m)
           - to_u16 (to_u16 (data_moment_range_sample_interval_raw m) ÷ 2))
          ÷ 250).

Definition end_gate (gates : Z) (m : MomentDataBlock) : Z :=
  Z.min (to_u16 (start_gate m
                 + Z.min (to_u16 (number_of_data_moment_gates m)) (to_u16 gates)
                   * gate_size m))
        (to_u16 MAX_DATA_MOMENT_GATES).

(** Number of iterations of the gate loop. *)
Definition gate_count (gates : Z) (m : MomentDataBlock) : nat :=
  Z.to_nat ((end_gate gates m - start_gate m) / gate_size m).

(** A rendered bin: where it sits and the sample it shows. *)
Record bin : Type := {
  bin_radial : Z;
  bin_gate : Z;
  bin_gateSize : Z;
  bin_value : Z
}.

(** Sample [i] of a block, read at the block's word size. *)
Definition sample_at (m : MomentDataBlock) (i : Z) : option Z :=
  (if data_word_size m =? 8 then to_u8 else to_u16)
    <$> data_moments m !! Z.to_nat i.

(** The bin the gate loop renders at [gate] from sample [i], if any. *)
Definition bin_at (snrThreshold : Z) (m : MomentDataBlock)
    (radial gate i : Z) : option bin :=
  match sample_at m i with
  | Some x =>
      if x <? snrThreshold then None
      else Some {| bin_radial := radial; bin_gate := gate;
                   bin_gateSize := gate_size m; bin_value := x |}
  | None => None
  end.

(** The bins of [n] iterations of the gate loop from [gate] and sample [i]. *)
Fixpoint bins_from (snrThreshold : Z) (m : MomentDataBlock) (radial : Z)
    (n : nat) (gate i : Z) : list bin :=
  match n with
  | O => []
  | S n' =>
      option_list (bin_at snrThreshold m radial gate i)
      ++ bins_from snrThreshold m radial n' (gate + gate_size m) (i + 1)
  end.

(** The bins of one radial. *)
Definition radial_bins (snrThreshold : Z) (dataBlockType : DataBlockType)
    (momentData0 : MomentDataBlock) (gates : Z) (radial : Z)
    (radialData : DigitalRadarData) : list bin :=
  match moment_data_block radialData dataBlockType with
  | Some m =>
      if data_word_size momentData0 =? data_word_size m
      then bins_from snrThreshold m radial (gate_count gates m) (start_gate m) 0
      else []
  | None => []
  end.

(** The bins of the radials [radarData], the first of them at position
    [radial]. *)
Fixpoint sweep_bins_from (snrThreshold : Z) (dataBlockType : DataBlockType)
    (momentData0 : MomentDataBlock) (gates : Z) (radial : Z)
    (radarData : list DigitalRadarData) : list bin :=
  match radarData with
  | [] => []
  | radialData :: rest =>
      radial_bins snrThreshold dataBlockType momentData0 gates radial radialData
      ++ sweep_bins_from snrThreshold dataBlockType momentData0 gates
           (radial + 1) rest
  end.

(** The bins of a sweep whose first radial carries [momentData0]. *)
Definition sweep_bins (dataBlockType : DataBlockType)
    (momentData0 : MomentDataBlock) (radarData : list DigitalRadarData)
  : list bin :=
  sweep_bins_from (snr_threshold momentData0) dataBlockType momentData0
    (to_u32 (number_of_data_moment_gates momentData0)) 0 radarData.

(** The warning a radial leaves in the log. *)
Definition radial_warnings (dataBlockType : DataBlockType)
    (momentData0 : MomentDataBlock) (radial : Z)
    (radialData : DigitalRadarData) : list event :=
  match moment_data_block radialData dataBlockType with
  | Some m =>
      if data_word_size momentData0 =? data_word_size m then []
      else [LogWarning (DifferentWordSize radial)]
  | None => []
  end.

Fixpoint sweep_warnings_from (dataBlockType : DataBlockType)
    (momentData0 : MomentDataBlock) (radial : Z)
    (radarData : list DigitalRadarData) : list event :=
  match radarData with
  | [] => []
  | radialData :: rest =>
      radial_warnings dataBlockType momentData0 radial radialData
      ++ sweep_warnings_from dataBlockType momentData0 (radial + 1) rest
  end.

(** Number of vertices of a bin. *)
Definition vertex_count (gate : Z) : nat := if 0 <? gate then 6%nat else 3%nat.

(** The raw values a bin contributes: its sample, once per vertex. *)
Definition bin_values (b : bin) : list Z :=
  replicate (vertex_count (bin_gate b)) (bin_value b).

(** Offset in the coordinate table of the pair for radial slot [slot] and
    gate column [column]. *)
Definition coordinate_offset (slot column : Z) : Z :=
  (slot * MAX_DATA_MOMENT_GATES + column) * 2.

(** Radial slots and gate columns of the table entries a bin looks up, in
    the order of the emitted vertices. *)
Definition bin_lookups (startRadial : Z) (b : bin) : list (Z * Z) :=
  let this := (startRadial + bin_radial b) mod MAX_RADIALS in
  let next := (startRadial + bin_radial b + 1) mod MAX_RADIALS in
  if 0 <? bin_gate b then
    let baseCoord := to_u16 (bin_gate b - 1) in
    [ (this, baseCoord); (this, baseCoord + bin_gateSize b);
      (next, baseCoord); (next, baseCoord);
      (next, baseCoord + bin_gateSize b); (this, baseCoord + bin_gateSize b) ]
  else
    [ (this, bin_gate b); (next, bin_gate b) ].

Definition coordinate_at (coordinates : list float) (off : Z) : float :=
  default Float32.zero (coordinates !! Z.to_nat off).

(** The coordinate pair at a slot and column. *)
Definition coordinate_pair (coordinates : list float) (sc : Z * Z)
  : list float :=
  [ coordinate_at coordinates (coordinate_offset sc.1 sc.2);
    coordinate_at coordinates (coordinate_offset sc.1 sc.2 + 1) ].

(** The vertices a bin contributes, flattened. *)
Definition bin_vertices (coordinates : list float) (lat lon : float)
    (startRadial : Z) (b : bin) : list float :=
  (if 0 <? bin_gate b then [] else [lat; lon])
  ++ flat_map (coordinate_pair coordinates) (bin_lookups startRadial b).

(** [buf'] and [idx'] are [buf] and [idx] after [xs] was stored element by
    element from index [idx] on. *)
Definition filled {A : Type} (buf : list A) (idx : nat) (buf' : list A)
    (idx' : nat) (xs : list A) : Prop :=
  idx' = (idx + length xs)%nat
  /\ length buf' = length buf
  /\ take idx' buf' = take idx buf ++ xs.

(** The step from [s] to [s'] stored the vertices [vs] and the raw values
    [ms] (into the buffer of the sweep's word size, leaving the other
    alone) and logged [ws]. *)
Definition emits (w8 : bool) (s s' : sweep_state) (vs : list float)
    (ms : list Z) (ws : list event) : Prop :=
  filled (vertices_buf s) (vIndex s) (vertices_buf s') (vIndex s') vs
  /\ (if w8
      then filled (dataMoments8_buf s) (mIndex s)
                  (dataMoments8_buf s') (mIndex s') ms
           /\ dataMoments16_buf s' = dataMoments16_buf s
      else filled (dataMoments16_buf s) (mIndex s)
                  (dataMoments16_buf s') (mIndex s') ms
           /\ dataMoments8_buf s' = dataMoments8_buf s)
  /\ warnings s' = warnings s ++ ws.

(** The three early returns of [UpdateColorTable]: no reference block, no
    colour table, or a colour table that is not valid. *)
Definition lut_inputs_ready (p : Level2ProductViewImpl) : bool :=
  match momentDataBlock0_ p, colorTable_ p with
  | Some _, Some a => IsValid (colorTables a)
  | _, _ => false
  end.

(** The comparison of [UpdateColorTable] with the saved key. *)
Definition lut_key_saved (p : Level2ProductViewImpl) : bool :=
  match momentDataBlock0_ p with
  | Some m =>
      bool_decide (savedColorTable_ p = colorTable_ p)
      && Float32.eqb (savedOffset_ p) (offset m)
      && Float32.eqb (savedScale_ p) (scale m)
  | None => false
  end.

(** The radials a run of [ComputeSweep] works on, and the coordinate table
    it selects for them. *)
Definition radar_data (p : Level2ProductViewImpl) : list DigitalRadarData :=
  GetLevel2Data (radarProductManager_ p) (dataBlockType_ p) 0.

Definition sweep_coordinates (p : Level2ProductViewImpl) : list float :=
  coordinates (radarProductManager_ p)
    (if Z.of_nat (length (radar_data p)) =? 720 then _0_5Degree else _1Degree).

(** The buffer [GetMomentData] hands out. *)
Definition raw_values (p : Level2ProductViewImpl) : list Z :=
  (GetMomentData p).1.1.

(** Shapes of the geometry of a bin, as flattened (x, y) pairs: a triangle
    whose first vertex is the radar origin, and a quad cut into two
    triangles that share the vertices of one diagonal. *)
Definition origin_triangle (lat lon : float) (vs : list float) : Prop :=
  exists x1 y1 x2 y2, vs = [lat; lon; x1; y1; x2; y2].

Definition split_quad (vs : list float) : Prop :=
  exists x1 y1 x2 y2 x3 y3 x4 y4,
    vs = [x1; y1; x2; y2; x3; y3; x3; y3; x4; y4; x2; y2].

(** Every table entry a bin looks up exists. *)
Definition bin_in_table (coordinates : list float) (startRadial : Z)
    (b : bin) : bool :=
  forallb
    (fun sc : Z * Z =>
       (0 <=? coordinate_offset sc.1 sc.2)
       && (coordinate_offset sc.1 sc.2 + 1 <? Z.of_nat (length coordinates)))
    (bin_lookups startRadial b).

(** A radial carries the moment block and, unless its word size sets it
    aside, the gate loop finds every sample and every table entry it
    reads. *)
Definition radial_readable (coordinates : list float)
    (snrThreshold startRadial : Z) (dataBlockType : DataBlockType)
    (momentData0 : MomentDataBlock) (gates : Z) (radial : Z)
    (radialData : DigitalRadarData) : bool :=
  match moment_data_block radialData dataBlockType with
  | Some m =>
      if data_word_size momentData0 =? data_word_size m then
        (Z.of_nat (gate_count gates m)
         <=? Z.of_nat (length (data_moments m)))
        && forallb (bin_in_table coordinates startRadial)
             (bins_from snrThreshold m radial (gate_count gates m)
                        (start_gate m) 0)
      else true
  | None => false
  end.

Fixpoint sweep_readable_from (coordinates : list float)
    (snrThreshold startRadial : Z) (dataBlockType : DataBlockType)
    (momentData0 : MomentDataBlock) (gates : Z) (radial : Z)
    (radarData : list DigitalRadarData) : bool :=
  match radarData with
  | [] => true
  | radialData :: rest =>
      radial_readable coordinates snrThreshold startRadial dataBlockType
                      momentData0 gates radial radialData
      && sweep_readable_from coordinates snrThreshold startRadial
           dataBlockType momentData0 gates (radial + 1) rest
  end.

(** The radials [radarData], at positions 0 and up of the sweep [p] works
    on, are readable. *)
Definition sweep_readable (p : Level2ProductViewImpl)
    (radarData0 : DigitalRadarData) (momentData0 : MomentDataBlock)
    (radarData : list DigitalRadarData) : bool :=
  sweep_readable_from (sweep_coordinates p) (snr_threshold momentData0)
    (start_radial radarData0) (dataBlockType_ p) momentData0
    (to_u32 (number_of_data_moment_gates momentData0)) 0 radarData.

(** The raw-value buffer a sweep of the given word size fills. *)
Definition moments_buf (w8 : bool) (s : sweep_state) : list Z :=
  if w8 then dataMoments8_buf s else dataMoments16_buf s.

(** [s'] has the buffers of [s] in size, with [nv] more floats and [nm]
    more raw values stored at most. *)
Definition advanced (w8 : bool) (s s' : sweep_state) (nv nm : nat) : Prop :=
  length (vertices_buf s') = length (vertices_buf s)
  /\ length (moments_buf w8 s') = length (moments_buf w8 s)
  /\ (vIndex s' <= vIndex s + nv)%nat
  /\ (mIndex s' <= mIndex s + nm)%nat.

(** The display threshold before its conversion to [uint16_t]. *)
Definition snr_threshold_rounded (m : MomentDataBlock) : Z :=
  Float32.lroundf
    (Float32.add
       (Float32.div
          (Float32.mul (Float32.of_Z (snr_threshold_raw m)) (scale m))
          (Float32.of_Z 10))
       (offset m)).

(** The first gate of the block lies 250 m or more short of half a gate
    interval: the quotient [ComputeSweep] stores in [startGate] is negative
    before its conversion to [uint16_t]. *)
Definition starts_behind_origin (m : MomentDataBlock) : bool :=
  to_u16 (data_moment_range_raw m) + 250
  <=? to_u16 (to_u16 (data_moment_range_sample_interval_raw m) ÷ 2).

(** The table [ComputeSweep] selects: the half-degree one for a sweep of
    720 radials, the one-degree one for any other number. *)
Definition radial_size (p : Level2ProductViewImpl) : RadialSize :=
  if Z.of_nat (length (radar_data p)) =? 720 then _0_5Degree else _1Degree.

(** Modelled from the spec: the number of radial slots of the coordinate
    table of each radial size, "720 slots for half-degree sweeps and 360
    slots for whole-degree sweeps".  The tables are built by
    [manager::RadarProductManager], which is outside the translation
    unit. *)
Definition radial_slots (size : RadialSize) : Z :=
  match size with
  | _0_5Degree => 720
  | _1Degree => 360
  end.

(** A coordinate table of [slots] radial slots: [MAX_DATA_MOMENT_GATES]
    pairs for each slot, as [coordinate_offset] addresses them. *)
Definition table_of_slots (slots : Z) (coordinates : list float) : Prop :=
  Z.of_nat (length coordinates) = slots * MAX_DATA_MOMENT_GATES * 2.

(** ** Properties *)

(** *** The result monad *)

Lemma bind_Done_inv {A B : Type} (r : result A) (k : A -> result B) (b : B) :
  r ≫= k = Done b -> exists a, r = Done a /\ k a = Done b.
Proof.
  destruct r as [a| |]; cbn; intros H; try discriminate.
  exists a. split; [reflexivity | exact H].
Qed.

Lemma vec_at_Done {A : Type} (v : list A) (i : Z) (a : A) :
  vec_at v i = Done a <-> 0 <= i /\ v !! Z.to_nat i = Some a.
Proof.
  unfold vec_at. destruct (Z.ltb_spec i 0).
  - split; [discriminate | lia].
  - destruct (v !! Z.to_nat i) as [x|].
    + split; [intros [= ->]; auto | intros [_ [= ->]]; reflexivity].
    + split; [discriminate | intros [_ ?]; discriminate].
Qed.

Lemma vec_set_Done {A : Type} (v : list A) (i : nat) (x : A) (v' : list A) :
  vec_set v i x = Done v' <-> (i < length v)%nat /\ v' = <[i := x]> v.
Proof.
  unfold vec_set. destruct (decide (i < length v)%nat).
  - split; [intros [= <-]; auto | intros [_ ->]; reflexivity].
  - split; [discriminate | intros [? _]; contradiction].
Qed.

(** *** Buffers filled through an index *)

Lemma filled_refl {A : Type} (buf : list A) (idx : nat) :
  filled buf idx buf idx [].
Proof.
  unfold filled. rewrite app_nil_r. cbn. repeat split. lia.
Qed.

Lemma filled_trans {A : Type} (b1 b2 b3 : list A) (i1 i2 i3 : nat)
    (xs ys : list A) :
  filled b1 i1 b2 i2 xs -> filled b2 i2 b3 i3 ys ->
  filled b1 i1 b3 i3 (xs ++ ys).
Proof.
  intros (-> & Hl1 & Ht1) (-> & Hl2 & Ht2). unfold filled.
  rewrite length_app, Ht2, Ht1, <- app_assoc.
  repeat split; [lia | congruence].
Qed.

Lemma filled_store {A : Type} (buf : list A) (idx : nat) (x : A) :
  (idx < length buf)%nat -> filled buf idx (<[idx := x]> buf) (S idx) [x].
Proof.
  intros Hlt. unfold filled. cbn. repeat split.
  - lia.
  - apply length_insert.
  - rewrite (take_S_r _ _ x) by (apply list_lookup_insert_eq; exact Hlt).
    rewrite take_insert_ge by lia. reflexivity.
Qed.

(** A buffer filled from index 0 holds what was stored, and the index is
    within it. *)
Lemma filled_from_0 {A : Type} (buf buf' : list A) (idx' : nat) (xs : list A)
    (d : A) :
  filled buf 0 buf' idx' xs ->
  resize idx' d buf' = xs /\ (idx' <= length buf)%nat /\ idx' = length xs.
Proof.
  intros (-> & Hl & Ht). rewrite take_0 in Ht. cbn [app Nat.add] in *.
  assert (Hle : (length xs <= length buf')%nat).
  { apply (f_equal length) in Ht. rewrite length_take in Ht. lia. }
  rewrite resize_le by exact Hle. repeat split; [exact Ht | lia].
Qed.

(** *** Steps of the sweep *)

Lemma emits_refl (w8 : bool) (s : sweep_state) : emits w8 s s [] [] [].
Proof.
  unfold emits. rewrite app_nil_r.
  split; [apply filled_refl |]. split; [| reflexivity].
  destruct w8; (split; [apply filled_refl | reflexivity]).
Qed.

Lemma emits_trans (w8 : bool) (s1 s2 s3 : sweep_state)
    (vs1 vs2 : list float) (ms1 ms2 : list Z) (ws1 ws2 : list event) :
  emits w8 s1 s2 vs1 ms1 ws1 -> emits w8 s2 s3 vs2 ms2 ws2 ->
  emits w8 s1 s3 (vs1 ++ vs2) (ms1 ++ ms2) (ws1 ++ ws2).
Proof.
  intros (Hv1 & Hm1 & Hw1) (Hv2 & Hm2 & Hw2). unfold emits.
  split; [eapply filled_trans; eassumption |].
  split; [| rewrite Hw2, Hw1, app_assoc; reflexivity].
  destruct w8.
  - destruct Hm1 as [Hm1 He1], Hm2 as [Hm2 He2].
    split; [eapply filled_trans; eassumption | congruence].
  - destruct Hm1 as [Hm1 He1], Hm2 as [Hm2 He2].
    split; [eapply filled_trans; eassumption | congruence].
Qed.

Lemma emits_cons_vertex (w8 : bool) (s1 s2 s3 : sweep_state) (x : float)
    (vs : list float) :
  emits w8 s1 s2 [x] [] [] -> emits w8 s2 s3 vs [] [] ->
  emits w8 s1 s3 (x :: vs) [] [].
Proof. intros H1 H2. exact (emits_trans _ _ _ _ _ _ _ _ _ _ H1 H2). Qed.

Lemma push_vertex_Done (w8 : bool) (x : float) (s s' : sweep_state) :
  push_vertex x s = Done s' -> emits w8 s s' [x] [] [].
Proof.
  unfold push_vertex. intros H.
  apply bind_Done_inv in H as (v & Hv & [= <-]).
  apply vec_set_Done in Hv as [Hlt ->].
  unfold emits; cbn. rewrite app_nil_r.
  split; [apply filled_store; exact Hlt |]. split; [| reflexivity].
  destruct w8; (split; [apply filled_refl | reflexivity]).
Qed.

Lemma push_coordinate_Done (w8 : bool) (coordinates : list float) (off : Z)
    (s s' : sweep_state) :
  push_coordinate coordinates off s = Done s' ->
  emits w8 s s' [coordinate_at coordinates off] [] [].
Proof.
  unfold push_coordinate. intros H.
  apply bind_Done_inv in H as (x & Hx & H).
  apply vec_at_Done in Hx as [_ Hx].
  unfold coordinate_at. rewrite Hx. cbn.
  eapply push_vertex_Done; exact H.
Qed.

Lemma push_moment8_Done (x : Z) (s s' : sweep_state) :
  push_moment8 x s = Done s' -> emits true s s' [] [x] [].
Proof.
  unfold push_moment8. intros H.
  apply bind_Done_inv in H as (v & Hv & [= <-]).
  apply vec_set_Done in Hv as [Hlt ->].
  unfold emits; cbn. rewrite app_nil_r.
  split; [apply filled_refl |]. split; [| reflexivity].
  split; [apply filled_store; exact Hlt | reflexivity].
Qed.

Lemma push_moment16_Done (x : Z) (s s' : sweep_state) :
  push_moment16 x s = Done s' -> emits false s s' [] [x] [].
Proof.
  unfold push_moment16. intros H.
  apply bind_Done_inv in H as (v & Hv & [= <-]).
  apply vec_set_Done in Hv as [Hlt ->].
  unfold emits; cbn. rewrite app_nil_r.
  split; [apply filled_refl |]. split; [| reflexivity].
  split; [apply filled_store; exact Hlt | reflexivity].
Qed.

Lemma repeat_push_Done (w8 : bool)
    (push : Z -> sweep_state -> result sweep_state) :
  (forall x s s', push x s = Done s' -> emits w8 s s' [] [x] []) ->
  forall (n : nat) (x : Z) (s s' : sweep_state),
    repeat_push push n x s = Done s' -> emits w8 s s' [] (replicate n x) [].
Proof.
  intros Hpush n x. induction n as [|n IH]; intros s s' H; cbn in H.
  - injection H as <-. apply emits_refl.
  - apply bind_Done_inv in H as (s1 & H1 & H2).
    apply Hpush in H1. apply IH in H2.
    exact (emits_trans _ _ _ _ _ _ _ _ _ _ H1 H2).
Qed.

Lemma coordinate_offset_add (slot column k : Z) :
  coordinate_offset slot (column + k) = coordinate_offset slot column + k * 2.
Proof. unfold coordinate_offset. lia. Qed.

Lemma store_vertices_Done (w8 : bool) (coordinates : list float)
    (lat lon : float) (startRadial radial gate gateSize x : Z)
    (s s' : sweep_state) :
  store_vertices coordinates lat lon startRadial radial gate gateSize s
    = Done s' ->
  emits w8 s s'
    (bin_vertices coordinates lat lon startRadial
       {| bin_radial := radial; bin_gate := gate; bin_gateSize := gateSize;
          bin_value := x |}) [] [].
Proof.
  unfold store_vertices, bin_vertices, bin_lookups. cbn [bin_gate bin_radial bin_gateSize].
  destruct (0 <? gate); intros H;
    cbn [flat_map coordinate_pair app fst snd];
    rewrite ?coordinate_offset_add; unfold coordinate_offset;
    repeat (apply bind_Done_inv in H as (? & ?%(push_coordinate_Done w8) & H));
    repeat (apply bind_Done_inv in H as (? & ?%(push_vertex_Done w8) & H));
    repeat (apply bind_Done_inv in H as (? & ?%(push_coordinate_Done w8) & H));
    apply (push_coordinate_Done w8) in H;
    repeat (first [eassumption | eapply emits_cons_vertex; [eassumption |]]).
Qed.

(** *** The gate loop *)

Lemma to_u16_small (z : Z) : 0 <= z <= 65535 -> to_u16 z = z.
Proof. intros H. unfold to_u16. apply Z.mod_small. lia. Qed.

Lemma to_u16_range (z : Z) : 0 <= to_u16 z <= 65535.
Proof. unfold to_u16. pose proof (Z.mod_pos_bound z (2 ^ 16)). lia. Qed.

Lemma to_u16_le (z : Z) : 0 <= z -> to_u16 z <= z.
Proof. intros H. unfold to_u16. apply Z.mod_le; lia. Qed.

Lemma gate_size_pos (m : MomentDataBlock) : 1 <= gate_size m.
Proof. unfold gate_size. change (to_u16 1) with 1. lia. Qed.

Lemma start_gate_range (m : MomentDataBlock) : 0 <= start_gate m <= 65535.
Proof. apply to_u16_range. Qed.

Lemma end_gate_range (gates : Z) (m : MomentDataBlock) :
  0 <= end_gate gates m <= 65535.
Proof.
  unfold end_gate.
  pose proof (to_u16_range MAX_DATA_MOMENT_GATES).
  pose proof (to_u16_range
    (start_gate m
     + Z.min (to_u16 (number_of_data_moment_gates m)) (to_u16 gates)
       * gate_size m)).
  lia.
Qed.

Lemma gate_count_step (d g e : Z) :
  0 < d -> g + d <= e ->
  Z.to_nat ((e - g) / d) = S (Z.to_nat ((e - (g + d)) / d)).
Proof.
  intros Hd Hle.
  replace (e - g) with ((e - (g + d)) + 1 * d) by lia.
  rewrite Z.div_add by lia.
  assert (0 <= (e - (g + d)) / d) by (apply Z.div_pos; lia).
  lia.
Qed.

Lemma gate_count_stop (d g e : Z) :
  0 < d -> e < g + d -> Z.to_nat ((e - g) / d) = 0%nat.
Proof.
  intros Hd Hlt.
  assert ((e - g) / d < 1) by (apply Z.div_lt_upper_bound; lia).
  lia.
Qed.

Lemma flat_map_singleton {A B : Type} (f : A -> list B) (x : A) :
  flat_map f [x] = f x.
Proof. cbn. apply app_nil_r. Qed.

Lemma gate_body_Done (coordinates : list float) (lat lon : float)
    (snrThreshold startRadial : Z) (m : MomentDataBlock)
    (radial gate i : Z) (s s' : sweep_state) :
  gate_body coordinates lat lon snrThreshold startRadial m radial gate i
            (gate_size m) s = Done s' ->
  emits (data_word_size m =? 8) s s'
    (flat_map (bin_vertices coordinates lat lon startRadial)
       (option_list (bin_at snrThreshold m radial gate i)))
    (flat_map bin_values (option_list (bin_at snrThreshold m radial gate i)))
    [].
Proof.
  unfold gate_body, bin_at, sample_at. intros H.
  destruct (data_word_size m =? 8);
    apply bind_Done_inv in H as (x & Hx & H);
    apply vec_at_Done in Hx as [_ Hx]; rewrite Hx; cbn [fmap option_fmap option_map];
    (destruct (_ <? snrThreshold);
     [ injection H as <-; apply emits_refl
     | apply bind_Done_inv in H as (s1 & H1 & H2);
       cbn [option_list option_rect]; rewrite !flat_map_singleton ]).
  - apply (repeat_push_Done true _ push_moment8_Done) in H1.
    apply (store_vertices_Done true) with (x := to_u8 x) in H2.
    pose proof (emits_trans _ _ _ _ _ _ _ _ _ _ H1 H2) as H3.
    rewrite !app_nil_r in H3. exact H3.
  - apply (repeat_push_Done false _ push_moment16_Done) in H1.
    apply (store_vertices_Done false) with (x := to_u16 x) in H2.
    pose proof (emits_trans _ _ _ _ _ _ _ _ _ _ H1 H2) as H3.
    rewrite !app_nil_r in H3. exact H3.
Qed.

Lemma gate_loop_Done (coordinates : list float) (lat lon : float)
    (snrThreshold startRadial : Z) (m : MomentDataBlock)
    (radial endGate : Z) :
  endGate <= 65535 ->
  forall (fuel : nat) (gate i : Z) (s s' : sweep_state),
    0 <= i <= gate ->
    gate_loop coordinates lat lon snrThreshold startRadial fuel m radial
              (gate_size m) endGate gate i s = Done s' ->
    let bins :=
      bins_from snrThreshold m radial
                (Z.to_nat ((endGate - gate) / gate_size m)) gate i in
    emits (data_word_size m =? 8) s s'
      (flat_map (bin_vertices coordinates lat lon startRadial) bins)
      (flat_map bin_values bins) [].
Proof.
  intros Hend. pose proof (gate_size_pos m) as Hsz.
  induction fuel as [|fuel IH]; intros gate i s s' Hi H; cbn in H;
    [discriminate |].
  destruct (Z.leb_spec (gate + gate_size m) endGate) as [Hle|Hgt].
  - apply bind_Done_inv in H as (s1 & H1 & H2).
    rewrite (to_u16_small (gate + gate_size m)) in H2 by lia.
    rewrite (to_u16_small (i + 1)) in H2 by lia.
    apply gate_body_Done in H1. apply IH in H2; [| lia].
    cbn zeta in *. rewrite (gate_count_step (gate_size m) gate endGate) by lia.
    cbn [bins_from]. rewrite !flat_map_app.
    exact (emits_trans _ _ _ _ _ _ _ _ _ _ H1 H2).
  - injection H as <-. cbn zeta.
    rewrite (gate_count_stop (gate_size m) gate endGate) by lia. apply emits_refl.
Qed.

(** *** The radial loop *)

Lemma log_warning_emits (w8 : bool) (w : warning) (s : sweep_state) :
  emits w8 s (log_warning w s) [] [] [LogWarning w].
Proof.
  unfold emits, log_warning; cbn.
  split; [apply filled_refl |]. split; [| reflexivity].
  destruct w8; (split; [apply filled_refl | reflexivity]).
Qed.

Lemma radial_body_Done (coordinates : list float) (lat lon : float)
    (snrThreshold startRadial : Z) (dataBlockType : DataBlockType)
    (momentData0 : MomentDataBlock) (gates : Z) (fuel : nat) (radial : Z)
    (radialData : DigitalRadarData) (s s' : sweep_state) :
  radial_body coordinates lat lon snrThreshold startRadial dataBlockType
              momentData0 gates fuel radial radialData s = Done s' ->
  let bins :=
    radial_bins snrThreshold dataBlockType momentData0 gates radial
                radialData in
  is_Some (moment_data_block radialData dataBlockType)
  /\ emits (data_word_size momentData0 =? 8) s s'
       (flat_map (bin_vertices coordinates lat lon startRadial) bins)
       (flat_map bin_values bins)
       (radial_warnings dataBlockType momentData0 radial radialData).
Proof.
  unfold radial_body, radial_bins, radial_warnings. intros H.
  apply bind_Done_inv in H as (m & Hm & H).
  destruct (moment_data_block radialData dataBlockType) as [m'|];
    [injection Hm as -> | discriminate].
  cbn zeta. split; [eauto |].
  destruct (Z.eqb_spec (data_word_size momentData0) (data_word_size m))
    as [Heq|Hne]; cbn [negb] in H.
  - rewrite Heq.
    apply (gate_loop_Done coordinates lat lon snrThreshold startRadial m
             radial (end_gate gates m)) in H.
    + exact H.
    + apply end_gate_range.
    + pose proof (start_gate_range m). unfold start_gate in *. lia.
  - injection H as <-. apply log_warning_emits.
Qed.

(** With 65536 radials or more the 16-bit counter never reaches their
    number: the loop does not end. *)
Lemma radial_loop_endless (coordinates : list float) (lat lon : float)
    (snrThreshold startRadial : Z) (dataBlockType : DataBlockType)
    (momentData0 : MomentDataBlock) (gates : Z)
    (radarData : list DigitalRadarData) :
  65536 <= Z.of_nat (length radarData) ->
  forall (fuel : nat) (radial : Z) (s s' : sweep_state),
    0 <= radial <= 65535 ->
    radial_loop coordinates lat lon snrThreshold startRadial dataBlockType
                momentData0 gates radarData fuel radial s <> Done s'.
Proof.
  intros Hlen. induction fuel as [|fuel IH]; intros radial s s' Hr H; cbn in H;
    [discriminate |].
  destruct (Z.ltb_spec radial (Z.of_nat (length radarData))); [| lia].
  apply bind_Done_inv in H as (rd & _ & H).
  apply bind_Done_inv in H as (s1 & _ & H).
  apply IH in H; [exact H | apply to_u16_range].
Qed.

Lemma radial_loop_Done (coordinates : list float) (lat lon : float)
    (snrThreshold startRadial : Z) (dataBlockType : DataBlockType)
    (momentData0 : MomentDataBlock) (gates : Z)
    (radarData : list DigitalRadarData) :
  Z.of_nat (length radarData) <= 65535 ->
  forall (fuel : nat) (radial : nat) (s s' : sweep_state),
    radial_loop coordinates lat lon snrThreshold startRadial dataBlockType
                momentData0 gates radarData fuel (Z.of_nat radial) s
      = Done s' ->
    let rest := drop radial radarData in
    let bins :=
      sweep_bins_from snrThreshold dataBlockType momentData0 gates
                      (Z.of_nat radial) rest in
    Forall (fun r => is_Some (moment_data_block r dataBlockType)) rest
    /\ emits (data_word_size momentData0 =? 8) s s'
         (flat_map (bin_vertices coordinates lat lon startRadial) bins)
         (flat_map bin_values bins)
         (sweep_warnings_from dataBlockType momentData0 (Z.of_nat radial)
                              rest).
Proof.
  intros Hlen. induction fuel as [|fuel IH]; intros radial s s' H; cbn in H;
    [discriminate |].
  destruct (Z.ltb_spec (Z.of_nat radial) (Z.of_nat (length radarData)))
    as [Hlt|Hge].
  - apply bind_Done_inv in H as (rd & Hrd & H).
    apply bind_Done_inv in H as (s1 & H1 & H2).
    apply vec_at_Done in Hrd as [_ Hrd]. rewrite Nat2Z.id in Hrd.
    rewrite to_u16_small in H2 by lia.
    replace (Z.of_nat radial + 1) with (Z.of_nat (S radial)) in H2 by lia.
    apply radial_body_Done in H1 as [Hsome H1]. apply IH in H2 as [Hall H2].
    cbn zeta in *. rewrite (drop_S _ _ _ Hrd).
    cbn [sweep_bins_from sweep_warnings_from]. rewrite !flat_map_app.
    replace (Z.of_nat radial + 1) with (Z.of_nat (S radial)) by lia.
    split; [constructor; assumption |].
    exact (emits_trans _ _ _ _ _ _ _ _ _ _ H1 H2).
  - injection H as <-. cbn zeta.
    rewrite drop_ge by lia. split; [constructor | apply emits_refl].
Qed.

(** *** The colour look-up table *)

Lemma elem_of_irange (first last i : Z) :
  i ∈ irange first last <-> first <= i < last.
Proof. unfold irange. rewrite elem_of_seqZ. lia. Qed.

(** The value [UpdateColorTable] stores for raw index [i]. *)
Lemma for_each_lut_Done (ct : ColorTable) (scale offset : float)
    (rangeMin : Z) (dataRange : list Z) :
  forall lut : list rgba8_pixel_t,
    (forall i, i ∈ dataRange ->
       rangeMin <= i /\ (Z.to_nat (i - rangeMin) < length lut)%nat) ->
    exists lut',
      for_each_lut ct scale offset rangeMin dataRange lut = Done lut'
      /\ length lut' = length lut
      /\ (forall i, i ∈ dataRange ->
            lut' !! Z.to_nat (i - rangeMin)
            = Some (Color ct (Float32.div
                                (Float32.sub (Float32.of_Z i) offset) scale)))
      /\ (forall k : nat,
            (forall i, i ∈ dataRange -> Z.to_nat (i - rangeMin) <> k) ->
            lut' !! k = lut !! k).
Proof.
  induction dataRange as [|i0 rest IH]; intros lut Hin.
  - exists lut. cbn. split; [reflexivity |]. split; [reflexivity |].
    split; [| auto].
    intros i Hi. apply elem_of_nil in Hi. contradiction.
  - destruct (Hin i0) as [Hmin Hlt]; [left |].
    destruct (IH (<[Z.to_nat (i0 - rangeMin) :=
                     Color ct (Float32.div
                                 (Float32.sub (Float32.of_Z i0) offset) scale)]>
                  lut)) as (lut' & Hrun & Hlen & Hset & Hkeep).
    { intros i Hi. rewrite length_insert. apply Hin. right. exact Hi. }
    exists lut'. cbn. unfold lut_store, vec_set.
    destruct (decide (Z.to_nat (i0 - rangeMin) < length lut)%nat);
      [| contradiction].
    cbn. split; [exact Hrun |].
    split; [rewrite Hlen; apply length_insert |].
    split.
    + intros i Hi. destruct (decide (i ∈ rest)) as [Hr|Hr];
        [apply Hset; exact Hr |].
      apply elem_of_cons in Hi as [-> | Hi]; [| contradiction].
      rewrite Hkeep.
      * apply list_lookup_insert_eq. exact Hlt.
      * intros j Hj Heq. destruct (Hin j) as [Hjmin _]; [right; exact Hj |].
        assert (j = i0) by lia. subst j. contradiction.
    + intros k Hk. rewrite Hkeep.
      * apply list_lookup_insert_ne. apply Hk. left.
      * intros i Hi. apply Hk. right. exact Hi.
Qed.

Lemma product_range_ordered (product : Level2Product) :
  0 <= (product_range product).1 <= (product_range product).2.
Proof. destruct product; cbn; lia. Qed.

Lemma UpdateColorTable_not_ready (p : Level2ProductViewImpl) :
  lut_inputs_ready p = false -> UpdateColorTable p = Done p.
Proof.
  unfold lut_inputs_ready, UpdateColorTable.
  destruct (momentDataBlock0_ p), (colorTable_ p); try reflexivity.
  intros ->. reflexivity.
Qed.

Lemma UpdateColorTable_hit (p : Level2ProductViewImpl) :
  lut_inputs_ready p = true -> lut_key_saved p = true ->
  UpdateColorTable p = Done p.
Proof.
  unfold lut_inputs_ready, lut_key_saved, UpdateColorTable.
  destruct (momentDataBlock0_ p), (colorTable_ p); try discriminate.
  intros -> ->. reflexivity.
Qed.

Lemma UpdateColorTable_miss (p : Level2ProductViewImpl) :
  lut_inputs_ready p = true -> lut_key_saved p = false ->
  exists (m : MomentDataBlock) (a : address) (lut' : list rgba8_pixel_t),
    let rangeMin := (product_range (product_ p)).1 in
    let rangeMax := (product_range (product_ p)).2 in
    momentDataBlock0_ p = Some m /\ colorTable_ p = Some a
    /\ UpdateColorTable p
       = Done (record_events [ColorTableUpdated]
                 (set_lut lut' (Some a) (scale m) (offset m) p))
    /\ Z.of_nat (length lut') = rangeMax - rangeMin + 1
    /\ (forall i, rangeMin <= i < rangeMax ->
          lut' !! Z.to_nat (i - rangeMin)
          = Some (Color (colorTables a)
                    (Float32.div (Float32.sub (Float32.of_Z i) (offset m))
                                 (scale m))))
    /\ lut' !! Z.to_nat (rangeMax - rangeMin)
       = resize (Z.to_nat (rangeMax - rangeMin + 1)) rgba8_zero
                (colorTableLut_ p) !! Z.to_nat (rangeMax - rangeMin).
Proof.
  unfold lut_inputs_ready, lut_key_saved, UpdateColorTable.
  destruct (momentDataBlock0_ p) as [m|]; [| discriminate].
  destruct (colorTable_ p) as [a|] eqn:Ha; [| discriminate].
  intros -> ->. cbn [negb].
  pose proof (product_range_ordered (product_ p)) as Hord.
  destruct (product_range (product_ p)) as [rangeMin rangeMax].
  cbn [fst snd] in *.
  destruct (for_each_lut_Done (colorTables a) (scale m) (offset m) rangeMin
              (irange rangeMin rangeMax)
              (resize (Z.to_nat (rangeMax - rangeMin + 1)) rgba8_zero
                      (colorTableLut_ p)))
    as (lut' & Hrun & Hlen & Hset & Hkeep).
  { intros i Hi%elem_of_irange. rewrite length_resize. lia. }
  exists m, a, lut'. rewrite Hrun. cbn.
  repeat split.
  - rewrite Hlen, length_resize. lia.
  - intros i Hi. apply Hset, elem_of_irange. exact Hi.
  - apply Hkeep. intros i Hi%elem_of_irange. lia.
Qed.

(** [UpdateColorTable] always returns, and touches nothing but the table,
    its key and the trace. *)
Lemma UpdateColorTable_frame (p : Level2ProductViewImpl) :
  exists p',
    UpdateColorTable p = Done p'
    /\ vertices_ p' = vertices_ p
    /\ dataMoments8_ p' = dataMoments8_ p
    /\ dataMoments16_ p' = dataMoments16_ p
    /\ momentDataBlock0_ p' = momentDataBlock0_ p
    /\ latitude_ p' = latitude_ p /\ longitude_ p' = longitude_ p
    /\ sweepTime_ p' = sweepTime_ p
    /\ (trace_ p' = trace_ p \/ trace_ p' = trace_ p ++ [ColorTableUpdated]).
Proof.
  destruct (lut_inputs_ready p) eqn:Hready.
  - destruct (lut_key_saved p) eqn:Hkey.
    + exists p. rewrite UpdateColorTable_hit by assumption. tauto.
    + destruct (UpdateColorTable_miss p Hready Hkey)
        as (m & a & lut' & _ & _ & Hrun & _).
      eexists. split; [exact Hrun |]. cbn. tauto.
  - exists p. rewrite UpdateColorTable_not_ready by assumption. tauto.
Qed.

(** *** The whole of [ComputeSweep] *)

Lemma to_size_le (z : Z) : 0 <= z -> to_size z <= z.
Proof. intros H. unfold to_size. apply Z.mod_le; lia. Qed.

Lemma to_u32_nonneg (z : Z) : 0 <= to_u32 z.
Proof. unfold to_u32. pose proof (Z.mod_pos_bound z (2 ^ 32)). lia. Qed.

(** A run that gets past the three early returns and ends: what it leaves
    in the view. *)
Lemma ComputeSweep_Done (fuel : nat) (p p' : Level2ProductViewImpl)
    (radarData0 : DigitalRadarData) (rest : list DigitalRadarData)
    (momentData0 : MomentDataBlock) :
  dataBlockType_ p <> Unknown ->
  radar_data p = radarData0 :: rest ->
  moment_data_block radarData0 (dataBlockType_ p) = Some momentData0 ->
  ComputeSweep fuel p = Done p' ->
  exists volumeData0 : VolumeDataBlock,
    let bins := sweep_bins (dataBlockType_ p) momentData0 (radarData0 :: rest) in
    let vs :=
      flat_map (bin_vertices (sweep_coordinates p) (latitude volumeData0)
                             (longitude volumeData0) (start_radial radarData0))
               bins in
    let ms := flat_map bin_values bins in
    let radials := Z.of_nat (length (radarData0 :: rest)) in
    let gates := to_u32 (number_of_data_moment_gates momentData0) in
    volume_data_block radarData0 = Some volumeData0
    /\ radials <= 65535
    /\ Forall (fun r => is_Some (moment_data_block r (dataBlockType_ p)))
              (radarData0 :: rest)
    /\ vertices_ p' = vs
    /\ (if data_word_size momentData0 =? 8
        then dataMoments8_ p' = ms /\ dataMoments16_ p' = []
        else dataMoments16_ p' = ms /\ dataMoments8_ p' = [])
    /\ Z.of_nat (length vs)
       <= radials * gates * VERTICES_PER_BIN * VALUES_PER_VERTEX
    /\ Z.of_nat (length ms) <= radials * gates * VERTICES_PER_BIN
    /\ momentDataBlock0_ p' = Some momentData0
    /\ latitude_ p' = latitude volumeData0
    /\ longitude_ p' = longitude volumeData0
    /\ exists es,
         trace_ p'
         = trace_ p
           ++ sweep_warnings_from (dataBlockType_ p) momentData0 0
                                  (radarData0 :: rest)
           ++ [SweepComputed] ++ es
         /\ (es = [] \/ es = [ColorTableUpdated]).
Proof.
  intros Hknown Hdata Hblock H. unfold ComputeSweep in H.
  fold (radar_data p) in H.
  destruct (decide (dataBlockType_ p = Unknown)); [contradiction |].
  fold (sweep_coordinates p) in H. rewrite Hdata in H.
  cbn [momentDataBlock0_ set_momentDataBlock0 dataBlockType_ product_
       radarProductManager_] in H.
  rewrite Hblock in H.
  apply bind_Done_inv in H as (volumeData0 & Hvol & H).
  destruct (volume_data_block radarData0) as [v|]; [| discriminate].
  injection Hvol as ->. exists volumeData0. cbn zeta.
  split; [reflexivity |].
  set (radials := Z.of_nat (length (radarData0 :: rest))) in *.
  set (gates := to_u32 (number_of_data_moment_gates momentData0)) in *.
  assert (Hnn : 0 <= radials * gates)
    by (pose proof (to_u32_nonneg (number_of_data_moment_gates momentData0));
        unfold radials, gates; nia).
  cbn [latitude_ longitude_ set_origin dataBlockType_ dataMoments8_
       dataMoments16_] in H.
  destruct (data_word_size momentData0 =? 8) eqn:Hw8;
    apply bind_Done_inv in H as (s & Hloop & H);
    (destruct (Z.le_gt_cases radials 65535) as [Hlen|Hlen];
     [| exfalso; apply radial_loop_endless in Hloop; [exact Hloop | | ]; lia]);
    apply (radial_loop_Done _ _ _ _ _ _ _ _ _ Hlen _ 0%nat) in Hloop;
    cbn zeta in Hloop; rewrite drop_0, Hw8 in Hloop;
    destruct Hloop as (Hall & Hv & [Hm Hother] & Hws);
    cbn [vertices_buf vIndex dataMoments8_buf dataMoments16_buf mIndex
         warnings] in Hv, Hm, Hother, Hws;
    apply (filled_from_0 _ _ _ _ Float32.zero) in Hv as (Hv & Hvlen & Hvidx);
    apply (filled_from_0 _ _ _ _ 0) in Hm as (Hm & Hmlen & Hmidx);
    rewrite length_replicate in Hvlen;
    rewrite ?length_resize in Hmlen;
    match type of H with
    | UpdateColorTable ?q = _ =>
        destruct (UpdateColorTable_frame q)
          as (q' & Hrun & Hfv & Hf8 & Hf16 & Hfm & Hflat & Hflon & _ & Htr);
        rewrite Hrun in H; injection H as <-
    end;
    cbn in Hfv, Hf8, Hf16, Hfm, Hflat, Hflon, Htr;
    cbn [dataBlockType_ set_momentDataBlock0] in *;
    change (Z.of_nat 0) with 0 in *;
    unfold sweep_bins; fold gates;
    (split; [exact Hlen |]); (split; [exact Hall |]);
    (split; [rewrite Hfv; exact Hv |]);
    (split; [split; congruence |]);
    (split; [pose proof (to_size_le (radials * gates * VERTICES_PER_BIN
                                     * VALUES_PER_VERTEX));
             unfold VERTICES_PER_BIN, VALUES_PER_VERTEX in *; lia |]);
    (split; [pose proof (to_size_le (radials * gates * VERTICES_PER_BIN));
             unfold VERTICES_PER_BIN in *; lia |]);
    (split; [exact Hfm |]); (split; [exact Hflat |]); (split; [exact Hflon |]);
    (destruct Htr as [Htr|Htr];
     [ exists []; split; [| left; reflexivity]
     | exists [ColorTableUpdated]; split; [| right; reflexivity] ]);
    rewrite Htr, Hws; cbn [app]; rewrite <- ?app_assoc; reflexivity.
Qed.

(** *** Where a rendered bin comes from *)

Lemma elem_of_bins_from (snrThreshold : Z) (m : MomentDataBlock) (radial : Z)
    (b : bin) :
  forall (n : nat) (gate i : Z),
    b ∈ bins_from snrThreshold m radial n gate i ->
    exists j : nat,
      (j < n)%nat
      /\ bin_radial b = radial
      /\ bin_gate b = gate + Z.of_nat j * gate_size m
      /\ bin_gateSize b = gate_size m
      /\ sample_at m (i + Z.of_nat j) = Some (bin_value b)
      /\ snrThreshold <= bin_value b.
Proof.
  induction n as [|n IH]; intros gate i Hb; cbn in Hb.
  - apply elem_of_nil in Hb. contradiction.
  - apply elem_of_app in Hb as [Hb|Hb].
    + exists 0%nat. unfold bin_at in Hb.
      destruct (sample_at m i) as [x|] eqn:Hx; cbn in Hb;
        [| apply elem_of_nil in Hb; contradiction].
      destruct (Z.ltb_spec x snrThreshold); cbn in Hb;
        [apply elem_of_nil in Hb; contradiction |].
      apply list_elem_of_singleton in Hb as ->. cbn.
      rewrite ?Z.add_0_r. repeat split; try lia; assumption.
    + apply IH in Hb as (j & Hj & Hr & Hg & Hs & Hx & Ht).
      exists (S j). repeat split; try assumption; try lia.
      rewrite <- Hx. f_equal. lia.
Qed.

Lemma elem_of_radial_bins (snrThreshold : Z) (dataBlockType : DataBlockType)
    (momentData0 : MomentDataBlock) (gates radial : Z)
    (radialData : DigitalRadarData) (b : bin) :
  b ∈ radial_bins snrThreshold dataBlockType momentData0 gates radial
        radialData ->
  exists (m : MomentDataBlock) (j : nat),
    moment_data_block radialData dataBlockType = Some m
    /\ data_word_size momentData0 = data_word_size m
    /\ (j < gate_count gates m)%nat
    /\ bin_radial b = radial
    /\ bin_gate b = start_gate m + Z.of_nat j * gate_size m
    /\ bin_gateSize b = gate_size m
    /\ sample_at m (Z.of_nat j) = Some (bin_value b)
    /\ snrThreshold <= bin_value b.
Proof.
  unfold radial_bins. intros Hb.
  destruct (moment_data_block radialData dataBlockType) as [m|];
    [| apply elem_of_nil in Hb; contradiction].
  destruct (Z.eqb_spec (data_word_size momentData0) (data_word_size m));
    [| apply elem_of_nil in Hb; contradiction].
  apply elem_of_bins_from in Hb as (j & Hj & Hr & Hg & Hs & Hx & Ht).
  exists m, j. repeat split; assumption.
Qed.

Lemma elem_of_sweep_bins_from (snrThreshold : Z)
    (dataBlockType : DataBlockType) (momentData0 : MomentDataBlock)
    (gates : Z) (b : bin) :
  forall (radarData : list DigitalRadarData) (radial : Z),
    b ∈ sweep_bins_from snrThreshold dataBlockType momentData0 gates radial
          radarData ->
    exists (r : nat) (radialData : DigitalRadarData),
      radarData !! r = Some radialData
      /\ b ∈ radial_bins snrThreshold dataBlockType momentData0 gates
               (radial + Z.of_nat r) radialData.
Proof.
  induction radarData as [|rd rest IH]; intros radial Hb; cbn in Hb.
  - apply elem_of_nil in Hb. contradiction.
  - apply elem_of_app in Hb as [Hb|Hb].
    + exists 0%nat, rd. rewrite Z.add_0_r. split; [reflexivity | exact Hb].
    + apply IH in Hb as (r & rd' & Hr & Hb).
      exists (S r), rd'. split; [exact Hr |].
      replace (radial + Z.of_nat (S r)) with (radial + 1 + Z.of_nat r) by lia.
      exact Hb.
Qed.

Lemma length_bin_values (b : bin) :
  length (bin_values b) = vertex_count (bin_gate b).
Proof. unfold bin_values. apply length_replicate. Qed.

Lemma length_bin_vertices (coordinates : list float) (lat lon : float)
    (startRadial : Z) (b : bin) :
  length (bin_vertices coordinates lat lon startRadial b)
  = (2 * vertex_count (bin_gate b))%nat.
Proof.
  unfold bin_vertices, bin_lookups, vertex_count.
  destruct (0 <? bin_gate b); reflexivity.
Qed.

(** Two floats per raw value, bin by bin. *)
Lemma length_vertices_values (coordinates : list float) (lat lon : float)
    (startRadial : Z) (bins : list bin) :
  length (flat_map (bin_vertices coordinates lat lon startRadial) bins)
  = (2 * length (flat_map bin_values bins))%nat.
Proof.
  induction bins as [|b bins IH]; [reflexivity |].
  cbn [flat_map]. rewrite !length_app, IH, length_bin_values,
    length_bin_vertices. lia.
Qed.

(** After a sweep one of the two raw-value buffers is empty and
    [GetMomentData] hands out the other. *)
Lemma raw_values_after_sweep (p : Level2ProductViewImpl) (w8 : bool)
    (ms : list Z) :
  (if w8 then dataMoments8_ p = ms /\ dataMoments16_ p = []
   else dataMoments16_ p = ms /\ dataMoments8_ p = []) ->
  raw_values p = ms.
Proof.
  unfold raw_values, GetMomentData.
  destruct w8; intros [H1 H2]; rewrite H1, H2.
  - destruct ms; reflexivity.
  - reflexivity.
Qed.

(** *** Threshold *)

Lemma sweep_bins_above_threshold (dataBlockType : DataBlockType)
    (momentData0 : MomentDataBlock) (radarData : list DigitalRadarData) :
  Forall (fun b => snr_threshold momentData0 <= bin_value b)
         (sweep_bins dataBlockType momentData0 radarData).
Proof.
  apply Forall_forall. intros b Hb. unfold sweep_bins in Hb.
  apply elem_of_sweep_bins_from in Hb as (r & rd & _ & Hb).
  apply elem_of_radial_bins in Hb as (m & j & H). tauto.
Qed.

Lemma Forall_flat_map_bin_values (P : Z -> Prop) (bins : list bin) :
  Forall (fun b => P (bin_value b)) bins ->
  Forall P (flat_map bin_values bins).
Proof.
  induction 1 as [|b bins Hb _ IH]; cbn [flat_map]; [constructor |].
  apply Forall_app. split; [| exact IH].
  unfold bin_values. apply Forall_replicate. exact Hb.
Qed.

(** C1, as amended: every raw value a sweep emits, from whichever radial,
    is at least the display threshold of the FIRST radial's moment block,
    [round(snrThresholdRaw * scale / 10 + offset)] reduced to 16 bits; the
    raw values are those of the rendered bins, and no bin whose sample is
    below that threshold is rendered. *)
Theorem C1_threshold_of_first_radial (fuel : nat)
    (p p' : Level2ProductViewImpl) (radarData0 : DigitalRadarData)
    (rest : list DigitalRadarData) (momentData0 : MomentDataBlock) :
  dataBlockType_ p <> Unknown ->
  radar_data p = radarData0 :: rest ->
  moment_data_block radarData0 (dataBlockType_ p) = Some momentData0 ->
  ComputeSweep fuel p = Done p' ->
  let bins := sweep_bins (dataBlockType_ p) momentData0 (radarData0 :: rest) in
  raw_values p' = flat_map bin_values bins
  /\ Forall (fun b => snr_threshold momentData0 <= bin_value b) bins
  /\ Forall (fun v => snr_threshold momentData0 <= v) (raw_values p').
Proof.
  intros Hknown Hdata Hblock Hrun. cbn zeta.
  destruct (ComputeSweep_Done _ _ _ _ _ _ Hknown Hdata Hblock Hrun)
    as (v0 & _ & _ & _ & _ & Hms & _).
  cbn zeta in Hms. apply raw_values_after_sweep in Hms.
  pose proof (sweep_bins_above_threshold (dataBlockType_ p) momentData0
                (radarData0 :: rest)) as Habove.
  split; [exact Hms |]. split; [exact Habove |].
  rewrite Hms. apply Forall_flat_map_bin_values. exact Habove.
Qed.

(** *** Buffer sizes *)

(** C3: after a run of [ComputeSweep] that gets past the early returns,
    the vertex buffer holds an even number of floats, at most
    [radials * gates * 6 * 2], and the raw-value buffer handed to the
    renderer holds exactly half as many entries: one per (x, y) pair. *)
Theorem C3_buffer_lengths (fuel : nat)
    (p p' : Level2ProductViewImpl) (radarData0 : DigitalRadarData)
    (rest : list DigitalRadarData) (momentData0 : MomentDataBlock) :
  dataBlockType_ p <> Unknown ->
  radar_data p = radarData0 :: rest ->
  moment_data_block radarData0 (dataBlockType_ p) = Some momentData0 ->
  ComputeSweep fuel p = Done p' ->
  let radials := Z.of_nat (length (radar_data p)) in
  let gates := to_u32 (number_of_data_moment_gates momentData0) in
  Z.of_nat (length (vertices p')) mod 2 = 0
  /\ Z.of_nat (length (vertices p'))
     <= radials * gates * VERTICES_PER_BIN * VALUES_PER_VERTEX
  /\ Z.of_nat (length (raw_values p')) = Z.of_nat (length (vertices p')) / 2.
Proof.
  intros Hknown Hdata Hblock Hrun. cbn zeta. rewrite Hdata.
  destruct (ComputeSweep_Done _ _ _ _ _ _ Hknown Hdata Hblock Hrun)
    as (v0 & _ & _ & _ & Hvs & Hms & Hbound & _).
  cbn zeta in *. apply raw_values_after_sweep in Hms.
  unfold vertices. rewrite Hms, Hvs in *.
  rewrite length_vertices_values in *.
  split; [| split; [exact Hbound |]].
  - rewrite Nat2Z.inj_mul, Z.mul_comm. apply Z.mod_mul. discriminate.
  - rewrite Nat2Z.inj_mul, Z.mul_comm, Z.div_mul by discriminate. reflexivity.
Qed.

(** *** Shape of a bin *)

Lemma bin_vertices_gate_0 (coordinates : list float) (lat lon : float)
    (startRadial : Z) (b : bin) :
  bin_gate b <= 0 ->
  origin_triangle lat lon (bin_vertices coordinates lat lon startRadial b)
  /\ bin_values b = [bin_value b; bin_value b; bin_value b].
Proof.
  intros Hg. unfold bin_vertices, bin_lookups, bin_values, vertex_count.
  destruct (Z.ltb_spec 0 (bin_gate b)); [lia |].
  split; [| reflexivity]. unfold origin_triangle. cbn. eauto 8.
Qed.

Lemma bin_vertices_gate_pos (coordinates : list float) (lat lon : float)
    (startRadial : Z) (b : bin) :
  0 < bin_gate b ->
  split_quad (bin_vertices coordinates lat lon startRadial b)
  /\ bin_values b = replicate 6 (bin_value b).
Proof.
  intros Hg. unfold bin_vertices, bin_lookups, bin_values, vertex_count.
  destruct (Z.ltb_spec 0 (bin_gate b)); [| lia].
  split; [| reflexivity]. unfold split_quad. cbn. eauto 12.
Qed.

(** C4: the vertex buffer and the raw-value buffer are the concatenation,
    bin by bin, of what the rendered bins contribute.  A bin at gate 0
    contributes a triangle of 3 vertices, the first of them the radar
    origin (latitude and longitude of the first radial's volume block), and
    3 raw values; a bin at a gate above 0 contributes a quad as two
    triangles, 6 vertices of which two pairs coincide, and 6 raw values.
    The raw values of a bin all equal its sample, a sample of the radial
    the bin belongs to. *)
Theorem C4_bin_shape (fuel : nat)
    (p p' : Level2ProductViewImpl) (radarData0 : DigitalRadarData)
    (rest : list DigitalRadarData) (momentData0 : MomentDataBlock) :
  dataBlockType_ p <> Unknown ->
  radar_data p = radarData0 :: rest ->
  moment_data_block radarData0 (dataBlockType_ p) = Some momentData0 ->
  ComputeSweep fuel p = Done p' ->
  let bins := sweep_bins (dataBlockType_ p) momentData0 (radar_data p) in
  let geometry :=
    bin_vertices (sweep_coordinates p) (latitude_ p') (longitude_ p')
                 (start_radial radarData0) in
  volume_data_block radarData0
  = Some {| latitude := latitude_ p'; longitude := longitude_ p' |}
  /\ vertices p' = flat_map geometry bins
  /\ raw_values p' = flat_map bin_values bins
  /\ Forall
       (fun b =>
          0 <= bin_gate b
          /\ (bin_gate b = 0 ->
              origin_triangle (latitude_ p') (longitude_ p') (geometry b)
              /\ bin_values b = [bin_value b; bin_value b; bin_value b])
          /\ (0 < bin_gate b ->
              split_quad (geometry b)
              /\ bin_values b = replicate 6 (bin_value b))
          /\ exists (r : nat) (radialData : DigitalRadarData)
                    (m : MomentDataBlock) (i : nat),
               radar_data p !! r = Some radialData
               /\ bin_radial b = Z.of_nat r
               /\ moment_data_block radialData (dataBlockType_ p) = Some m
               /\ sample_at m (Z.of_nat i) = Some (bin_value b))
       bins.
Proof.
  intros Hknown Hdata Hblock Hrun. cbn zeta. rewrite Hdata.
  destruct (ComputeSweep_Done _ _ _ _ _ _ Hknown Hdata Hblock Hrun)
    as (v0 & Hv0 & _ & _ & Hvs & Hms & _ & _ & _ & Hlat & Hlon & _).
  cbn zeta in *. apply raw_values_after_sweep in Hms.
  rewrite Hlat, Hlon. destruct v0 as [lat lon]; cbn [latitude longitude] in *.
  split; [exact Hv0 |]. split; [exact Hvs |]. split; [exact Hms |].
  apply Forall_forall. intros b Hb. unfold sweep_bins in Hb.
  apply elem_of_sweep_bins_from in Hb as (r & rd & Hr & Hb).
  apply elem_of_radial_bins in Hb
    as (m & j & Hm & _ & _ & Hrad & Hgate & _ & Hx & _).
  pose proof (start_gate_range m). pose proof (gate_size_pos m).
  split; [nia |].
  split; [intros Hg; apply bin_vertices_gate_0; lia |].
  split; [apply bin_vertices_gate_pos |].
  exists r, rd, m, j. rewrite Hrad. repeat split; try assumption; lia.
Qed.

(** *** Early returns *)

(** C6: when the product has no moment block type (the constructor then
    stores [Unknown]), when there are no radials, or when the first radial
    lacks the moment block, [ComputeSweep] returns, whatever the fuel, with
    the vertex buffer and both raw-value buffers as they were and without
    the "sweep computed" signal. *)
Theorem C6_early_return_keeps_sweep :
  (forall (product : Level2Product) (mgr : RadarProductManager) (s o : float),
     blockTypes_ product = None ->
     dataBlockType_ (new_Level2ProductViewImpl product mgr s o) = Unknown)
  /\ forall (fuel : nat) (p : Level2ProductViewImpl),
       dataBlockType_ p = Unknown
       \/ radar_data p = []
       \/ (exists radarData0 rest,
             radar_data p = radarData0 :: rest
             /\ moment_data_block radarData0 (dataBlockType_ p) = None) ->
       exists p',
         ComputeSweep fuel p = Done p'
         /\ vertices_ p' = vertices_ p
         /\ dataMoments8_ p' = dataMoments8_ p
         /\ dataMoments16_ p' = dataMoments16_ p
         /\ raw_values p' = raw_values p
         /\ (trace_ p' = trace_ p
             \/ trace_ p'
                = trace_ p ++ [LogWarning (NoMomentData (product_ p))]).
Proof.
  split.
  - intros product mgr s o Hnone. cbn. rewrite Hnone. reflexivity.
  - intros fuel p H. unfold ComputeSweep. fold (radar_data p).
    destruct (decide (dataBlockType_ p = Unknown)) as [|Hknown].
    { exists p. tauto. }
    destruct H as [H | [H | (radarData0 & rest & H & Hnone)]].
    + contradiction.
    + rewrite H. exists p. tauto.
    + rewrite H.
      cbn [momentDataBlock0_ set_momentDataBlock0 dataBlockType_ product_].
      rewrite Hnone. eexists. split; [reflexivity |].
      cbn. unfold raw_values, GetMomentData. cbn. tauto.
Qed.

(** *** Runs that end

    The lemmas above describe a run that ended.  The ones below show that
    a run does end: the writes always find room in the buffers, so that
    only a read out of range or a missing block can stop a sweep. *)

Lemma emits_advanced (w8 : bool) (s s' : sweep_state) (vs : list float)
    (ms : list Z) (ws : list event) :
  emits w8 s s' vs ms ws -> advanced w8 s s' (length vs) (length ms).
Proof.
  unfold emits, advanced, moments_buf, filled.
  intros ((Hv & Hvl & _) & Hm & _).
  destruct w8; destruct Hm as ((Hm & Hml & _) & _); repeat split; lia.
Qed.

Lemma advanced_trans (w8 : bool) (s1 s2 s3 : sweep_state)
    (nv1 nv2 nm1 nm2 : nat) :
  advanced w8 s1 s2 nv1 nm1 -> advanced w8 s2 s3 nv2 nm2 ->
  advanced w8 s1 s3 (nv1 + nv2) (nm1 + nm2).
Proof. unfold advanced. intros (? & ? & ? & ?) (? & ? & ? & ?). lia. Qed.

Lemma advanced_weaken (w8 : bool) (s s' : sweep_state) (nv nm nv' nm' : nat) :
  advanced w8 s s' nv nm -> (nv <= nv')%nat -> (nm <= nm')%nat ->
  advanced w8 s s' nv' nm'.
Proof. unfold advanced. intros (? & ? & ? & ?) ? ?. lia. Qed.

Lemma vec_at_in_range {A : Type} (v : list A) (i : Z) :
  0 <= i < Z.of_nat (length v) -> exists a, vec_at v i = Done a.
Proof.
  intros Hi. destruct (lookup_lt_is_Some_2 v (Z.to_nat i)) as [a Ha]; [lia |].
  exists a. apply vec_at_Done. split; [lia | exact Ha].
Qed.

Lemma push_vertex_ends (w8 : bool) (x : float) (s : sweep_state) :
  (vIndex s < length (vertices_buf s))%nat ->
  exists s', push_vertex x s = Done s' /\ advanced w8 s s' 1 0.
Proof.
  intros Hlt. unfold push_vertex, vec_set.
  destruct (decide (vIndex s < length (vertices_buf s))%nat); [| lia].
  eexists. split; [reflexivity |].
  unfold advanced, moments_buf; cbn. rewrite length_insert.
  destruct w8; lia.
Qed.

Lemma push_coordinate_ends (w8 : bool) (coordinates : list float) (off : Z)
    (s : sweep_state) :
  0 <= off < Z.of_nat (length coordinates) ->
  (vIndex s < length (vertices_buf s))%nat ->
  exists s', push_coordinate coordinates off s = Done s'
             /\ advanced w8 s s' 1 0.
Proof.
  intros Hoff Hlt. unfold push_coordinate.
  destruct (vec_at_in_range coordinates off Hoff) as [x ->].
  apply push_vertex_ends. exact Hlt.
Qed.

Lemma push_moment8_ends (x : Z) (s : sweep_state) :
  (mIndex s < length (dataMoments8_buf s))%nat ->
  exists s', push_moment8 x s = Done s' /\ advanced true s s' 0 1.
Proof.
  intros Hlt. unfold push_moment8, vec_set.
  destruct (decide (mIndex s < length (dataMoments8_buf s))%nat); [| lia].
  eexists. split; [reflexivity |].
  unfold advanced, moments_buf; cbn. rewrite length_insert. lia.
Qed.

Lemma push_moment16_ends (x : Z) (s : sweep_state) :
  (mIndex s < length (dataMoments16_buf s))%nat ->
  exists s', push_moment16 x s = Done s' /\ advanced false s s' 0 1.
Proof.
  intros Hlt. unfold push_moment16, vec_set.
  destruct (decide (mIndex s < length (dataMoments16_buf s))%nat); [| lia].
  eexists. split; [reflexivity |].
  unfold advanced, moments_buf; cbn. rewrite length_insert. lia.
Qed.

Lemma repeat_push_ends (w8 : bool)
    (push : Z -> sweep_state -> result sweep_state) :
  (forall x s, (mIndex s < length (moments_buf w8 s))%nat ->
     exists s', push x s = Done s' /\ advanced w8 s s' 0 1) ->
  forall (n : nat) (x : Z) (s : sweep_state),
    (mIndex s + n <= length (moments_buf w8 s))%nat ->
    exists s', repeat_push push n x s = Done s' /\ advanced w8 s s' 0 n.
Proof.
  intros Hpush n x. induction n as [|n IH]; intros s Hroom; cbn.
  - exists s. split; [reflexivity |]. unfold advanced. lia.
  - destruct (Hpush x s) as (s1 & -> & Ha1); [lia |]. cbn.
    destruct (IH s1) as (s2 & -> & Ha2); [unfold advanced in Ha1; lia |].
    exists s2. split; [reflexivity |].
    exact (advanced_trans _ _ _ _ 0 0 1 n Ha1 Ha2).
Qed.

Ltac push_step w8 :=
  lazymatch goal with
  | |- exists s', push_coordinate ?c ?o ?s ≫= _ = Done s' =>
      let s1 := fresh "s" in
      let Heq := fresh "Heq" in
      let Ha := fresh "Ha" in
      destruct (push_coordinate_ends w8 c o s) as (s1 & Heq & Ha);
      [ lia | lia
      | rewrite Heq; unfold advanced in Ha; cbn [mbind result_bind bind] ]
  | |- exists s', push_vertex ?x ?s ≫= _ = Done s' =>
      let s1 := fresh "s" in
      let Heq := fresh "Heq" in
      let Ha := fresh "Ha" in
      destruct (push_vertex_ends w8 x s) as (s1 & Heq & Ha);
      [ lia
      | rewrite Heq; unfold advanced in Ha; cbn [mbind result_bind bind] ]
  | |- exists s', push_coordinate ?c ?o ?s = Done s' =>
      let s1 := fresh "s" in
      let Heq := fresh "Heq" in
      destruct (push_coordinate_ends w8 c o s) as (s1 & Heq & _);
      [ lia | lia | exists s1; exact Heq ]
  end.

Lemma store_vertices_ends (w8 : bool) (coordinates : list float)
    (lat lon : float) (startRadial radial gate gateSize x : Z)
    (s : sweep_state) :
  bin_in_table coordinates startRadial
    {| bin_radial := radial; bin_gate := gate; bin_gateSize := gateSize;
       bin_value := x |} = true ->
  (vIndex s + 2 * vertex_count gate <= length (vertices_buf s))%nat ->
  exists s',
    store_vertices coordinates lat lon startRadial radial gate gateSize s
    = Done s'.
Proof.
  unfold bin_in_table, bin_lookups, store_vertices, vertex_count.
  cbn [bin_gate bin_radial bin_gateSize].
  destruct (0 <? gate); cbn [forallb fst snd]; intros Htable Hroom;
    repeat (apply andb_prop in Htable as [?%andb_prop Htable]);
    repeat match goal with
           | H : _ /\ _ |- _ => destruct H
           | H : (_ <=? _) = true |- _ => apply Z.leb_le in H
           | H : (_ <? _) = true |- _ => apply Z.ltb_lt in H
           end;
    unfold coordinate_offset in *;
    repeat push_step w8.
Qed.

Lemma vertex_count_le (gate : Z) : (vertex_count gate <= 6)%nat.
Proof. unfold vertex_count. destruct (0 <? gate); lia. Qed.

Lemma length_flat_map_bin_values (bins : list bin) :
  (length (flat_map bin_values bins) <= 6 * length bins)%nat.
Proof.
  induction bins as [|b bins IH]; cbn [flat_map length]; [lia |].
  rewrite length_app, length_bin_values.
  pose proof (vertex_count_le (bin_gate b)). lia.
Qed.

Lemma bins_advanced (w8 : bool) (s s' : sweep_state)
    (coordinates : list float) (lat lon : float) (startRadial : Z)
    (bins : list bin) (ws : list event) (n : nat) :
  emits w8 s s'
    (flat_map (bin_vertices coordinates lat lon startRadial) bins)
    (flat_map bin_values bins) ws ->
  (length bins <= n)%nat ->
  advanced w8 s s' (12 * n) (6 * n).
Proof.
  intros He Hn. apply emits_advanced in He.
  rewrite length_vertices_values in He.
  pose proof (length_flat_map_bin_values bins).
  eapply advanced_weaken; [exact He | lia | lia].
Qed.

Lemma length_bins_from (snrThreshold : Z) (m : MomentDataBlock) (radial : Z) :
  forall (n : nat) (gate i : Z),
    (length (bins_from snrThreshold m radial n gate i) <= n)%nat.
Proof.
  induction n as [|n IH]; intros gate i; cbn [bins_from length]; [lia |].
  rewrite length_app. specialize (IH (gate + gate_size m) (i + 1)).
  destruct (bin_at snrThreshold m radial gate i); cbn; lia.
Qed.

Lemma gate_body_ends (coordinates : list float) (lat lon : float)
    (snrThreshold startRadial : Z) (m : MomentDataBlock)
    (radial gate i : Z) (s : sweep_state) :
  0 <= i < Z.of_nat (length (data_moments m)) ->
  forallb (bin_in_table coordinates startRadial)
          (option_list (bin_at snrThreshold m radial gate i)) = true ->
  (vIndex s + 12 <= length (vertices_buf s))%nat ->
  (mIndex s + 6 <= length (moments_buf (data_word_size m =? 8)%Z s))%nat ->
  exists s',
    gate_body coordinates lat lon snrThreshold startRadial m radial gate i
              (gate_size m) s = Done s'.
Proof.
  intros Hi Htable Hv Hm.
  destruct (vec_at_in_range (data_moments m) i Hi) as [x Hx].
  pose proof (vertex_count_le gate) as Hcount. unfold vertex_count in Hcount.
  unfold gate_body. rewrite Hx. cbn [mbind result_bind bind].
  apply vec_at_Done in Hx as [_ Hx].
  unfold bin_at, sample_at in Htable. rewrite Hx in Htable.
  cbn [fmap option_fmap option_map] in Htable.
  destruct (data_word_size m =? 8).
  - destruct (to_u8 x <? snrThreshold); [eauto |].
    cbn [option_list option_rect forallb] in Htable.
    apply andb_prop in Htable as [Htable _].
    destruct (repeat_push_ends true push_moment8 push_moment8_ends
                (if 0 <? gate then 6%nat else 3%nat) (to_u8 x) s)
      as (s1 & -> & Ha); [cbn [moments_buf] in *; lia |].
    cbn [mbind result_bind bind].
    apply (store_vertices_ends true) with (1 := Htable).
    unfold advanced, vertex_count in *. lia.
  - destruct (to_u16 x <? snrThreshold); [eauto |].
    cbn [option_list option_rect forallb] in Htable.
    apply andb_prop in Htable as [Htable _].
    destruct (repeat_push_ends false push_moment16 push_moment16_ends
                (if 0 <? gate then 6%nat else 3%nat) (to_u16 x) s)
      as (s1 & -> & Ha); [cbn [moments_buf] in *; lia |].
    cbn [mbind result_bind bind].
    apply (store_vertices_ends false) with (1 := Htable).
    unfold advanced, vertex_count in *. lia.
Qed.

Lemma gate_loop_ends (coordinates : list float) (lat lon : float)
    (snrThreshold startRadial : Z) (m : MomentDataBlock)
    (radial endGate : Z) :
  endGate <= 65535 ->
  forall (fuel : nat) (gate i : Z) (s : sweep_state),
    let n := Z.to_nat ((endGate - gate) / gate_size m) in
    0 <= i <= gate ->
    (n < fuel)%nat ->
    i + Z.of_nat n <= Z.of_nat (length (data_moments m)) ->
    forallb (bin_in_table coordinates startRadial)
            (bins_from snrThreshold m radial n gate i) = true ->
    (vIndex s + 12 * n <= length (vertices_buf s))%nat ->
    (mIndex s + 6 * n
     <= length (moments_buf (data_word_size m =? 8)%Z s))%nat ->
    exists s',
      gate_loop coordinates lat lon snrThreshold startRadial fuel m radial
                (gate_size m) endGate gate i s = Done s'.
Proof.
  intros Hend. pose proof (gate_size_pos m) as Hsz.
  induction fuel as [|fuel IH]; intros gate i s n Hi Hfuel Hdata Htable Hv Hm;
    [lia |].
  cbn [gate_loop]. subst n.
  destruct (Z.leb_spec (gate + gate_size m) endGate) as [Hle|Hgt];
    [| eauto].
  rewrite (gate_count_step (gate_size m) gate endGate) in * by lia.
  cbn [bins_from] in Htable. rewrite forallb_app in Htable.
  apply andb_prop in Htable as [Htable1 Htable2].
  destruct (gate_body_ends coordinates lat lon snrThreshold startRadial m
              radial gate i s) as (s1 & Hbody); [lia | exact Htable1 | lia | lia |].
  rewrite Hbody. cbn [mbind result_bind bind].
  apply gate_body_Done in Hbody.
  apply bins_advanced with (n := 1%nat) in Hbody;
    [| destruct (bin_at snrThreshold m radial gate i); cbn; lia].
  unfold advanced in Hbody.
  rewrite (to_u16_small (gate + gate_size m)) by lia.
  rewrite (to_u16_small (i + 1)) by lia.
  apply IH; [lia | lia | lia | exact Htable2 | lia | lia].
Qed.

Lemma gate_count_le_max (gates : Z) (m : MomentDataBlock) :
  Z.of_nat (gate_count gates m) <= to_u16 MAX_DATA_MOMENT_GATES.
Proof.
  unfold gate_count.
  pose proof (gate_size_pos m). pose proof (start_gate_range m).
  pose proof (to_u16_range MAX_DATA_MOMENT_GATES).
  assert (end_gate gates m <= to_u16 MAX_DATA_MOMENT_GATES)
    by (unfold end_gate; lia).
  assert ((end_gate gates m - start_gate m) / gate_size m
          <= to_u16 MAX_DATA_MOMENT_GATES)
    by (apply Z.div_le_upper_bound; nia).
  lia.
Qed.

Lemma gate_count_le_gates (gates : Z) (m : MomentDataBlock) :
  0 <= gates -> Z.of_nat (gate_count gates m) <= gates.
Proof.
  intros Hg. unfold gate_count.
  pose proof (gate_size_pos m). pose proof (start_gate_range m).
  set (n := Z.min (to_u16 (number_of_data_moment_gates m)) (to_u16 gates)).
  assert (0 <= n <= gates).
  { pose proof (to_u16_range (number_of_data_moment_gates m)).
    pose proof (to_u16_range gates). pose proof (to_u16_le gates Hg).
    unfold n. lia. }
  assert (end_gate gates m <= start_gate m + n * gate_size m).
  { unfold end_gate. fold n.
    pose proof (to_u16_le (start_gate m + n * gate_size m)). nia. }
  assert ((end_gate gates m - start_gate m) / gate_size m <= n)
    by (apply Z.div_le_upper_bound; nia).
  lia.
Qed.

Lemma length_radial_bins (snrThreshold : Z) (dataBlockType : DataBlockType)
    (momentData0 : MomentDataBlock) (gates radial : Z)
    (radialData : DigitalRadarData) :
  0 <= gates ->
  (length (radial_bins snrThreshold dataBlockType momentData0 gates radial
                       radialData) <= Z.to_nat gates)%nat.
Proof.
  intros Hg. unfold radial_bins.
  destruct (moment_data_block radialData dataBlockType) as [m|]; [| cbn; lia].
  destruct (data_word_size momentData0 =? data_word_size m); [| cbn; lia].
  pose proof (length_bins_from snrThreshold m radial (gate_count gates m)
                (start_gate m) 0).
  pose proof (gate_count_le_gates gates m Hg). lia.
Qed.

Lemma radial_body_ends (coordinates : list float) (lat lon : float)
    (snrThreshold startRadial : Z) (dataBlockType : DataBlockType)
    (momentData0 : MomentDataBlock) (gates : Z) (fuel : nat) (radial : Z)
    (radialData : DigitalRadarData) (s : sweep_state) :
  0 <= gates ->
  radial_readable coordinates snrThreshold startRadial dataBlockType
                  momentData0 gates radial radialData = true ->
  (Z.to_nat (to_u16 MAX_DATA_MOMENT_GATES) < fuel)%nat ->
  (vIndex s + 12 * Z.to_nat gates <= length (vertices_buf s))%nat ->
  (mIndex s + 6 * Z.to_nat gates
   <= length (moments_buf (data_word_size momentData0 =? 8)%Z s))%nat ->
  exists s',
    radial_body coordinates lat lon snrThreshold startRadial dataBlockType
                momentData0 gates fuel radial radialData s = Done s'
    /\ advanced (data_word_size momentData0 =? 8) s s'
                (12 * Z.to_nat gates) (6 * Z.to_nat gates).
Proof.
  intros Hg Hread Hfuel Hv Hm.
  assert (Hends : exists s',
            radial_body coordinates lat lon snrThreshold startRadial
              dataBlockType momentData0 gates fuel radial radialData s
            = Done s').
  { unfold radial_readable in Hread. unfold radial_body.
    destruct (moment_data_block radialData dataBlockType) as [m|];
      [| discriminate].
    cbn [deref mbind result_bind bind].
    destruct (Z.eqb_spec (data_word_size momentData0) (data_word_size m))
      as [Heq|Hne]; cbn [negb]; [| eauto].
    apply andb_prop in Hread as [Hdata%Z.leb_le Htable].
    pose proof (gate_count_le_max gates m).
    pose proof (gate_count_le_gates gates m Hg).
    rewrite Heq in Hm.
    apply (gate_loop_ends coordinates lat lon snrThreshold startRadial m
             radial (end_gate gates m)).
    - apply end_gate_range.
    - pose proof (start_gate_range m). unfold start_gate in *. lia.
    - fold (start_gate m) (gate_count gates m). lia.
    - fold (start_gate m) (gate_count gates m). lia.
    - exact Htable.
    - fold (start_gate m) (gate_count gates m). lia.
    - fold (start_gate m) (gate_count gates m). lia. }
  destruct Hends as [s' Hrun]. exists s'. split; [exact Hrun |].
  apply radial_body_Done in Hrun as [_ Hrun]. cbn zeta in Hrun.
  eapply bins_advanced; [exact Hrun |].
  apply length_radial_bins. exact Hg.
Qed.

(** The radial loop over readable radials [good], unrolled. *)
Lemma radial_loop_run (coordinates : list float) (lat lon : float)
    (snrThreshold startRadial : Z) (dataBlockType : DataBlockType)
    (momentData0 : MomentDataBlock) (gates : Z)
    (radarData : list DigitalRadarData) :
  0 <= gates ->
  Z.of_nat (length radarData) <= 65535 ->
  forall (good : list DigitalRadarData) (k : nat) (s : sweep_state)
         (fuel : nat) (tail : list DigitalRadarData),
    drop k radarData = good ++ tail ->
    sweep_readable_from coordinates snrThreshold startRadial dataBlockType
                        momentData0 gates (Z.of_nat k) good = true ->
    (length good + Z.to_nat (to_u16 MAX_DATA_MOMENT_GATES) + 1 < fuel)%nat ->
    (vIndex s + 12 * Z.to_nat gates * length good
     <= length (vertices_buf s))%nat ->
    (mIndex s + 6 * Z.to_nat gates * length good
     <= length (moments_buf (data_word_size momentData0 =? 8)%Z s))%nat ->
    exists s',
      radial_loop coordinates lat lon snrThreshold startRadial dataBlockType
                  momentData0 gates radarData fuel (Z.of_nat k) s
      = radial_loop coordinates lat lon snrThreshold startRadial
                    dataBlockType momentData0 gates radarData
                    (fuel - length good) (Z.of_nat (k + length good)) s'.
Proof.
  intros Hg Hlen.
  induction good as [|rd good IH]; intros k s fuel tail Hdrop Hread Hfuel Hv Hm.
  - exists s. cbn [length]. rewrite Nat.sub_0_r, Nat.add_0_r. reflexivity.
  - destruct fuel as [|fuel]; [cbn in Hfuel; lia |].
    cbn [length] in *. cbn [sweep_readable_from] in Hread.
    apply andb_prop in Hread as [Hrd Hread].
    assert (Hk : radarData !! k = Some rd).
    { rewrite <- (Nat.add_0_r k), <- lookup_drop, Hdrop. reflexivity. }
    pose proof (lookup_lt_Some _ _ _ Hk) as Hklt.
    cbn [radial_loop].
    destruct (Z.ltb_spec (Z.of_nat k) (Z.of_nat (length radarData)));
      [| lia].
    assert (Hat : vec_at radarData (Z.of_nat k) = Done rd)
      by (apply vec_at_Done; rewrite Nat2Z.id; split; [lia | exact Hk]).
    rewrite Hat. cbn [mbind result_bind bind].
    destruct (radial_body_ends coordinates lat lon snrThreshold startRadial
                dataBlockType momentData0 gates fuel (Z.of_nat k) rd s)
      as (s1 & -> & Ha); [exact Hg | exact Hrd | lia | nia | nia |].
    cbn [mbind result_bind bind].
    rewrite to_u16_small by lia.
    replace (Z.of_nat k + 1) with (Z.of_nat (S k)) in * by lia.
    unfold advanced in Ha.
    destruct (IH (S k) s1 fuel tail) as (s' & ->).
    + rewrite (drop_S _ _ _ Hk) in Hdrop. injection Hdrop as Hdrop.
      exact Hdrop.
    + exact Hread.
    + lia.
    + nia.
    + nia.
    + exists s'. cbn [Nat.sub].
      replace (k + S (length good))%nat with (S k + length good)%nat by lia.
      reflexivity.
Qed.

Lemma radial_loop_at_end (coordinates : list float) (lat lon : float)
    (snrThreshold startRadial : Z) (dataBlockType : DataBlockType)
    (momentData0 : MomentDataBlock) (gates : Z)
    (radarData : list DigitalRadarData) (fuel : nat) (s : sweep_state) :
  (0 < fuel)%nat ->
  radial_loop coordinates lat lon snrThreshold startRadial dataBlockType
              momentData0 gates radarData fuel
              (Z.of_nat (length radarData)) s = Done s.
Proof.
  intros Hfuel. destruct fuel as [|fuel]; [lia |]. cbn [radial_loop].
  rewrite Z.ltb_irrefl. reflexivity.
Qed.

Lemma radial_loop_at_null (coordinates : list float) (lat lon : float)
    (snrThreshold startRadial : Z) (dataBlockType : DataBlockType)
    (momentData0 : MomentDataBlock) (gates : Z)
    (radarData : list DigitalRadarData) (fuel : nat) (k : nat)
    (radialData : DigitalRadarData) (s : sweep_state) :
  (0 < fuel)%nat ->
  radarData !! k = Some radialData ->
  moment_data_block radialData dataBlockType = None ->
  radial_loop coordinates lat lon snrThreshold startRadial dataBlockType
              momentData0 gates radarData fuel (Z.of_nat k) s
  = Fault NullDereference.
Proof.
  intros Hfuel Hk Hnone. destruct fuel as [|fuel]; [lia |]. cbn [radial_loop].
  pose proof (lookup_lt_Some _ _ _ Hk).
  destruct (Z.ltb_spec (Z.of_nat k) (Z.of_nat (length radarData))); [| lia].
  assert (Hat : vec_at radarData (Z.of_nat k) = Done radialData)
    by (apply vec_at_Done; rewrite Nat2Z.id; split; [lia | exact Hk]).
  rewrite Hat. cbn [mbind result_bind bind].
  unfold radial_body. rewrite Hnone. reflexivity.
Qed.

Lemma to_u32_lt (z : Z) : to_u32 z < 2 ^ 32.
Proof. unfold to_u32. pose proof (Z.mod_pos_bound z (2 ^ 32)). lia. Qed.

(** The buffers [ComputeSweep] allocates hold a full sweep: the sizes do
    not wrap around. *)
Lemma sweep_buffer_sizes (radials gates : Z) :
  0 <= radials <= 65535 -> 0 <= gates < 2 ^ 32 ->
  Z.to_nat (to_size (radials * gates * VERTICES_PER_BIN * VALUES_PER_VERTEX))
  = (12 * Z.to_nat gates * Z.to_nat radials)%nat
  /\ Z.to_nat (to_size (radials * gates * VERTICES_PER_BIN))
     = (6 * Z.to_nat gates * Z.to_nat radials)%nat.
Proof.
  intros Hr Hg. unfold to_size, VERTICES_PER_BIN, VALUES_PER_VERTEX.
  assert (0 <= radials * gates <= 65535 * 4294967295) by nia.
  rewrite !Z.mod_small by lia. nia.
Qed.

(** A sweep whose radials are all readable is synthesized: with fuel for
    the radials and for the gates of one radial, [ComputeSweep] ends. *)
Lemma ComputeSweep_ends (fuel : nat) (p : Level2ProductViewImpl)
    (radarData0 : DigitalRadarData) (rest : list DigitalRadarData)
    (momentData0 : MomentDataBlock) :
  dataBlockType_ p <> Unknown ->
  radar_data p = radarData0 :: rest ->
  moment_data_block radarData0 (dataBlockType_ p) = Some momentData0 ->
  is_Some (volume_data_block radarData0) ->
  Z.of_nat (length (radar_data p)) <= 65535 ->
  sweep_readable p radarData0 momentData0 (radar_data p) = true ->
  (length (radar_data p) + Z.to_nat (to_u16 MAX_DATA_MOMENT_GATES) + 1
   < fuel)%nat ->
  exists p', ComputeSweep fuel p = Done p'.
Proof.
  intros Hknown Hdata Hblock [v0 Hvol] Hlen Hread Hfuel.
  unfold sweep_readable in Hread. unfold ComputeSweep.
  fold (radar_data p).
  destruct (decide (dataBlockType_ p = Unknown)); [contradiction |].
  fold (sweep_coordinates p). rewrite Hdata in *.
  cbn [momentDataBlock0_ set_momentDataBlock0 dataBlockType_ product_
       radarProductManager_].
  rewrite Hblock, Hvol. cbn [deref mbind result_bind bind].
  cbn [latitude_ longitude_ set_origin dataBlockType_ dataMoments8_
       dataMoments16_ set_momentDataBlock0].
  set (radials := Z.of_nat (length (radarData0 :: rest))) in *.
  set (gates := to_u32 (number_of_data_moment_gates momentData0)) in *.
  pose proof (to_u32_nonneg (number_of_data_moment_gates momentData0)) as Hg0.
  pose proof (to_u32_lt (number_of_data_moment_gates momentData0)) as Hg1.
  fold gates in Hg0, Hg1.
  destruct (sweep_buffer_sizes radials gates) as [Hsv Hsm];
    [unfold radials; lia | lia |].
  destruct (data_word_size momentData0 =? 8) eqn:Hw8;
    match goal with
    | |- exists p', radial_loop ?c ?la ?lo ?t ?sr ?dbt ?m0 ?g ?rd ?f _ ?s0
                    ≫= _ = Done p' =>
        destruct (radial_loop_run c la lo t sr dbt m0 g rd Hg0 Hlen
                    rd 0%nat s0 f [])
          as (s' & Heq);
          [ rewrite app_nil_r; apply drop_0
          | exact Hread
          | exact Hfuel
          | cbn [vertices_buf vIndex]; rewrite length_replicate, Hsv;
            unfold radials; lia
          | rewrite Hw8; cbn [moments_buf dataMoments8_buf dataMoments16_buf
                              mIndex];
            rewrite length_resize, Hsm; unfold radials; lia
          | change (Z.of_nat 0) with 0 in Heq; rewrite Heq ]
    end;
    cbn [Nat.add]; rewrite radial_loop_at_end by lia;
    cbn [mbind result_bind bind];
    match goal with
    | |- exists p', UpdateColorTable ?q = Done p' =>
        destruct (UpdateColorTable_frame q) as (q' & Hq & _);
        exists q'; exact Hq
    end.
Qed.

(** A sweep with a radial that lacks the moment block, after readable
    radials: the run reaches that radial and dereferences the null block. *)
Lemma ComputeSweep_null_block (fuel : nat) (p : Level2ProductViewImpl)
    (radarData0 : DigitalRadarData) (good : list DigitalRadarData)
    (bad : DigitalRadarData) (post : list DigitalRadarData)
    (momentData0 : MomentDataBlock) :
  dataBlockType_ p <> Unknown ->
  radar_data p = (radarData0 :: good) ++ bad :: post ->
  moment_data_block radarData0 (dataBlockType_ p) = Some momentData0 ->
  is_Some (volume_data_block radarData0) ->
  Z.of_nat (length (radar_data p)) <= 65535 ->
  moment_data_block bad (dataBlockType_ p) = None ->
  sweep_readable p radarData0 momentData0 (radarData0 :: good) = true ->
  (length (radarData0 :: good) + Z.to_nat (to_u16 MAX_DATA_MOMENT_GATES) + 1
   < fuel)%nat ->
  ComputeSweep fuel p = Fault NullDereference.
Proof.
  intros Hknown Hdata Hblock [v0 Hvol] Hlen Hnone Hread Hfuel.
  unfold sweep_readable in Hread. unfold ComputeSweep.
  fold (radar_data p).
  destruct (decide (dataBlockType_ p = Unknown)); [contradiction |].
  fold (sweep_coordinates p). rewrite Hdata in *.
  cbn [app momentDataBlock0_ set_momentDataBlock0 dataBlockType_ product_
       radarProductManager_].
  rewrite Hblock, Hvol. cbn [deref mbind result_bind bind].
  cbn [latitude_ longitude_ set_origin dataBlockType_ dataMoments8_
       dataMoments16_ set_momentDataBlock0].
  change (radarData0 :: good ++ bad :: post)
    with ((radarData0 :: good) ++ bad :: post).
  set (radarData := (radarData0 :: good) ++ bad :: post) in *.
  set (radials := Z.of_nat (length radarData)) in *.
  set (gates := to_u32 (number_of_data_moment_gates momentData0)) in *.
  pose proof (to_u32_nonneg (number_of_data_moment_gates momentData0)) as Hg0.
  pose proof (to_u32_lt (number_of_data_moment_gates momentData0)) as Hg1.
  fold gates in Hg0, Hg1.
  destruct (sweep_buffer_sizes radials gates) as [Hsv Hsm];
    [unfold radials; lia | lia |].
  assert (Hgood : (length (radarData0 :: good) < length radarData)%nat)
    by (unfold radarData; rewrite length_app; cbn; lia).
  assert (Hbad : radarData !! (0 + length (radarData0 :: good))%nat = Some bad)
    by (unfold radarData; apply list_lookup_middle; reflexivity).
  destruct (data_word_size momentData0 =? 8) eqn:Hw8;
    match goal with
    | |- radial_loop ?c ?la ?lo ?t ?sr ?dbt ?m0 ?g ?rd ?f _ ?s0 ≫= _ = _ =>
        destruct (radial_loop_run c la lo t sr dbt m0 g rd Hg0 Hlen
                    (radarData0 :: good) 0%nat s0 f (bad :: post))
          as (s' & Heq);
          [ apply drop_0
          | exact Hread
          | exact Hfuel
          | cbn [vertices_buf vIndex]; rewrite length_replicate, Hsv;
            unfold radials; nia
          | rewrite Hw8; cbn [moments_buf dataMoments8_buf dataMoments16_buf
                              mIndex];
            rewrite length_resize, Hsm; unfold radials; nia
          | change (Z.of_nat 0) with 0 in Heq; rewrite Heq ]
    end;
    rewrite (radial_loop_at_null _ _ _ _ _ _ _ _ _ _ _ bad) by
      (first [lia | exact Hbad | exact Hnone]);
    reflexivity.
Qed.

(** *** A radial without the moment block *)

(** C10: only the first radial's moment block is checked.  A run that ends
    has found the block on every radial; and when a later radial lacks it,
    the radials before it being readable, the run dereferences the null
    block: it ends neither with a sweep nor with the early return that
    keeps the previous one. *)
Theorem C10_later_radial_without_block (fuel : nat)
    (p : Level2ProductViewImpl) (radarData0 : DigitalRadarData)
    (rest : list DigitalRadarData) (momentData0 : MomentDataBlock) :
  dataBlockType_ p <> Unknown ->
  radar_data p = radarData0 :: rest ->
  moment_data_block radarData0 (dataBlockType_ p) = Some momentData0 ->
  (forall p',
     ComputeSweep fuel p = Done p' ->
     Forall (fun r => is_Some (moment_data_block r (dataBlockType_ p)))
            (radar_data p))
  /\ (forall (good : list DigitalRadarData) (bad : DigitalRadarData)
             (post : list DigitalRadarData),
        rest = good ++ bad :: post ->
        moment_data_block bad (dataBlockType_ p) = None ->
        is_Some (volume_data_block radarData0) ->
        Z.of_nat (length (radar_data p)) <= 65535 ->
        sweep_readable p radarData0 momentData0 (radarData0 :: good) = true ->
        (length (radarData0 :: good)
         + Z.to_nat (to_u16 MAX_DATA_MOMENT_GATES) + 1 < fuel)%nat ->
        ComputeSweep fuel p = Fault NullDereference).
Proof.
  intros Hknown Hdata Hblock. split.
  - intros p' Hrun. rewrite Hdata.
    destruct (ComputeSweep_Done _ _ _ _ _ _ Hknown Hdata Hblock Hrun)
      as (v0 & _ & _ & Hall & _). exact Hall.
  - intros good bad post Hrest Hnone Hvol Hlen Hread Hfuel.
    apply (ComputeSweep_null_block fuel p radarData0 good bad post
             momentData0); try assumption.
    rewrite Hdata, Hrest. reflexivity.
Qed.

(** *** A radial of another word size *)

Lemma sweep_bins_from_app (snrThreshold : Z) (dataBlockType : DataBlockType)
    (momentData0 : MomentDataBlock) (gates : Z) :
  forall (l1 l2 : list DigitalRadarData) (radial : Z),
    sweep_bins_from snrThreshold dataBlockType momentData0 gates radial
                    (l1 ++ l2)
    = sweep_bins_from snrThreshold dataBlockType momentData0 gates radial l1
      ++ sweep_bins_from snrThreshold dataBlockType momentData0 gates
           (radial + Z.of_nat (length l1)) l2.
Proof.
  induction l1 as [|rd l1 IH]; intros l2 radial; cbn [app sweep_bins_from length].
  - rewrite Z.add_0_r. reflexivity.
  - rewrite IH, <- app_assoc. do 3 f_equal. lia.
Qed.

Lemma sweep_warnings_from_app (dataBlockType : DataBlockType)
    (momentData0 : MomentDataBlock) :
  forall (l1 l2 : list DigitalRadarData) (radial : Z),
    sweep_warnings_from dataBlockType momentData0 radial (l1 ++ l2)
    = sweep_warnings_from dataBlockType momentData0 radial l1
      ++ sweep_warnings_from dataBlockType momentData0
           (radial + Z.of_nat (length l1)) l2.
Proof.
  induction l1 as [|rd l1 IH]; intros l2 radial;
    cbn [app sweep_warnings_from length].
  - rewrite Z.add_0_r. reflexivity.
  - rewrite IH, <- app_assoc. do 3 f_equal. lia.
Qed.

Lemma sweep_readable_from_app (coordinates : list float)
    (snrThreshold startRadial : Z) (dataBlockType : DataBlockType)
    (momentData0 : MomentDataBlock) (gates : Z) :
  forall (l1 l2 : list DigitalRadarData) (radial : Z),
    sweep_readable_from coordinates snrThreshold startRadial dataBlockType
                        momentData0 gates radial (l1 ++ l2)
    = sweep_readable_from coordinates snrThreshold startRadial dataBlockType
                          momentData0 gates radial l1
      && sweep_readable_from coordinates snrThreshold startRadial
           dataBlockType momentData0 gates
           (radial + Z.of_nat (length l1)) l2.
Proof.
  induction l1 as [|rd l1 IH]; intros l2 radial;
    cbn [app sweep_readable_from length].
  - rewrite Z.add_0_r. reflexivity.
  - rewrite IH, <- andb_assoc. do 3 f_equal. lia.
Qed.

(** The raw values of a radial do not depend on its position. *)
Lemma bin_values_bins_from (snrThreshold : Z) (m : MomentDataBlock)
    (radial radial' : Z) :
  forall (n : nat) (gate i : Z),
    flat_map bin_values (bins_from snrThreshold m radial n gate i)
    = flat_map bin_values (bins_from snrThreshold m radial' n gate i).
Proof.
  induction n as [|n IH]; intros gate i; cbn [bins_from]; [reflexivity |].
  rewrite !flat_map_app, IH. f_equal.
  unfold bin_at. destruct (sample_at m i) as [x|]; [| reflexivity].
  destruct (x <? snrThreshold); reflexivity.
Qed.

Lemma bin_values_sweep_bins_from (snrThreshold : Z)
    (dataBlockType : DataBlockType) (momentData0 : MomentDataBlock)
    (gates : Z) :
  forall (l : list DigitalRadarData) (radial radial' : Z),
    flat_map bin_values
      (sweep_bins_from snrThreshold dataBlockType momentData0 gates radial l)
    = flat_map bin_values
        (sweep_bins_from snrThreshold dataBlockType momentData0 gates
                         radial' l).
Proof.
  induction l as [|rd l IH]; intros radial radial'; cbn [sweep_bins_from];
    [reflexivity |].
  rewrite !flat_map_app, (IH (radial + 1) (radial' + 1)). f_equal.
  unfold radial_bins.
  destruct (moment_data_block rd dataBlockType) as [m|]; [| reflexivity].
  destruct (data_word_size momentData0 =? data_word_size m); [| reflexivity].
  apply bin_values_bins_from.
Qed.

(** What the radial loop does with a radial of another word size. *)
Lemma mismatched_radial (coordinates : list float) (lat lon : float)
    (snrThreshold startRadial : Z) (dataBlockType : DataBlockType)
    (momentData0 : MomentDataBlock) (gates : Z) (fuel : nat) (radial : Z)
    (radialData : DigitalRadarData) (m : MomentDataBlock) (s : sweep_state) :
  moment_data_block radialData dataBlockType = Some m ->
  data_word_size m <> data_word_size momentData0 ->
  radial_body coordinates lat lon snrThreshold startRadial dataBlockType
              momentData0 gates fuel radial radialData s
  = Done (log_warning (DifferentWordSize radial) s)
  /\ radial_bins snrThreshold dataBlockType momentData0 gates radial
                 radialData = []
  /\ radial_warnings dataBlockType momentData0 radial radialData
     = [LogWarning (DifferentWordSize radial)]
  /\ radial_readable coordinates snrThreshold startRadial dataBlockType
                     momentData0 gates radial radialData = true.
Proof.
  intros Hm Hne.
  unfold radial_body, radial_bins, radial_warnings, radial_readable.
  rewrite Hm. cbn [deref mbind result_bind bind].
  destruct (Z.eqb_spec (data_word_size momentData0) (data_word_size m));
    [congruence |].
  repeat split.
Qed.

(** C5, as amended: a radial whose word size differs from the first
    radial's contributes no bin, so no vertex and no raw value, and a
    warning; the sweep is synthesized all the same when the other radials
    are readable.  The output is that of the other radials, each at its own
    position in the input: the raw values are those of the input without
    the mismatched radial, while the vertices of the radials after it are
    looked up one radial slot further than they would be without it. *)
Theorem C5_word_size_mismatch (fuel : nat) (p : Level2ProductViewImpl)
    (radarData0 : DigitalRadarData) (pre : list DigitalRadarData)
    (bad : DigitalRadarData) (post : list DigitalRadarData)
    (momentData0 mb : MomentDataBlock) :
  dataBlockType_ p <> Unknown ->
  radar_data p = (radarData0 :: pre) ++ bad :: post ->
  moment_data_block radarData0 (dataBlockType_ p) = Some momentData0 ->
  moment_data_block bad (dataBlockType_ p) = Some mb ->
  data_word_size mb <> data_word_size momentData0 ->
  let k := Z.of_nat (length (radarData0 :: pre)) in
  let snrThreshold := snr_threshold momentData0 in
  let gates := to_u32 (number_of_data_moment_gates momentData0) in
  let before :=
    sweep_bins_from snrThreshold (dataBlockType_ p) momentData0 gates 0
                    (radarData0 :: pre) in
  let after :=
    sweep_bins_from snrThreshold (dataBlockType_ p) momentData0 gates (k + 1)
                    post in
  radial_bins snrThreshold (dataBlockType_ p) momentData0 gates k bad = []
  /\ (is_Some (volume_data_block radarData0) ->
      Z.of_nat (length (radar_data p)) <= 65535 ->
      sweep_readable p radarData0 momentData0 (radarData0 :: pre) = true ->
      sweep_readable_from (sweep_coordinates p) snrThreshold
        (start_radial radarData0) (dataBlockType_ p) momentData0 gates
        (k + 1) post = true ->
      (length (radar_data p) + Z.to_nat (to_u16 MAX_DATA_MOMENT_GATES) + 1
       < fuel)%nat ->
      exists p', ComputeSweep fuel p = Done p')
  /\ forall p',
       ComputeSweep fuel p = Done p' ->
       vertices p'
       = flat_map (bin_vertices (sweep_coordinates p) (latitude_ p')
                                (longitude_ p') (start_radial radarData0))
                  (before ++ after)
       /\ raw_values p' = flat_map bin_values (before ++ after)
       /\ LogWarning (DifferentWordSize k) ∈ trace_ p'
       /\ SweepComputed ∈ trace_ p'
       /\ forall (fuel2 : nat) (q q' : Level2ProductViewImpl),
            dataBlockType_ q = dataBlockType_ p ->
            radar_data q = (radarData0 :: pre) ++ post ->
            ComputeSweep fuel2 q = Done q' ->
            raw_values q' = raw_values p'.
Proof.
  intros Hknown Hdata Hblock Hmb Hne k snrThreshold gates before after.
  destruct (mismatched_radial (sweep_coordinates p) Float32.zero Float32.zero
              snrThreshold (start_radial radarData0) (dataBlockType_ p)
              momentData0 gates fuel k bad mb
              {| vertices_buf := []; vIndex := 0; dataMoments8_buf := [];
                 dataMoments16_buf := []; mIndex := 0; warnings := [] |}
              Hmb Hne) as (_ & Hbins & Hwarn & Hreadable).
  assert (Hall :
    sweep_bins (dataBlockType_ p) momentData0
               ((radarData0 :: pre) ++ bad :: post) = before ++ after).
  { unfold sweep_bins. fold snrThreshold gates.
    rewrite sweep_bins_from_app. fold before. f_equal.
    cbn [sweep_bins_from]. rewrite Z.add_0_l. fold k.
    rewrite Hbins. reflexivity. }
  split; [exact Hbins |]. split.
  - intros Hvol Hlen Hpre Hpost Hfuel.
    apply (ComputeSweep_ends fuel p radarData0 (pre ++ bad :: post)
             momentData0); try assumption.
    unfold sweep_readable in *. fold snrThreshold gates in Hpre |- *.
    rewrite Hdata, sweep_readable_from_app, Hpre.
    cbn [sweep_readable_from andb]. rewrite Z.add_0_l. fold k.
    rewrite Hreadable, Hpost. reflexivity.
  - intros p' Hrun.
    destruct (ComputeSweep_Done fuel p p' radarData0 (pre ++ bad :: post)
                momentData0 Hknown Hdata Hblock Hrun)
      as (v0 & _ & _ & _ & Hvs & Hms & _ & _ & _ & Hlat & Hlon & es & Htr & _).
    cbn zeta in *. apply raw_values_after_sweep in Hms.
    change (radarData0 :: pre ++ bad :: post)
      with ((radarData0 :: pre) ++ bad :: post) in *.
    rewrite Hall in *. rewrite Hlat, Hlon.
    split; [exact Hvs |]. split; [exact Hms |].
    rewrite Htr, sweep_warnings_from_app, Z.add_0_l. fold k.
    change (sweep_warnings_from (dataBlockType_ p) momentData0 k
              (bad :: post))
      with (radial_warnings (dataBlockType_ p) momentData0 k bad
            ++ sweep_warnings_from (dataBlockType_ p) momentData0 (k + 1)
                 post).
    rewrite Hwarn.
    split; [| split].
    + apply elem_of_app. right. apply elem_of_app. left.
      apply elem_of_app. right. apply elem_of_app. left.
      apply list_elem_of_singleton. reflexivity.
    + apply elem_of_app. right. apply elem_of_app. right.
      apply elem_of_app. left. apply list_elem_of_singleton. reflexivity.
    + intros fuel2 q q' Hdbt Hq Hrunq.
      destruct (ComputeSweep_Done fuel2 q q' radarData0 (pre ++ post)
                  momentData0)
        as (w0 & _ & _ & _ & _ & Hmq & _);
        [congruence | exact Hq | congruence | exact Hrunq |].
      cbn zeta in Hmq. apply raw_values_after_sweep in Hmq.
      rewrite Hmq, Hms. unfold sweep_bins. rewrite Hdbt.
      fold snrThreshold gates.
      change (radarData0 :: pre ++ post) with ((radarData0 :: pre) ++ post).
      rewrite sweep_bins_from_app. fold before.
      rewrite !flat_map_app. f_equal.
      apply bin_values_sweep_bins_from.
Qed.

(** *** Radial slots of the coordinate table *)

Lemma rendered_gate_within (gates : Z) (m : MomentDataBlock) (j : nat) :
  (j < gate_count gates m)%nat ->
  start_gate m + Z.of_nat j * gate_size m + gate_size m
  <= end_gate gates m.
Proof.
  unfold gate_count. intros Hj. pose proof (gate_size_pos m) as Hsz.
  pose proof (Z.mul_div_le (end_gate gates m - start_gate m) (gate_size m)
                ltac:(lia)).
  nia.
Qed.

(** The slots as the code computes them: every coordinate-table lookup of
    a bin of the radial at position [r] addresses, at a gate column below
    the gate limit, radial slot [(base + r) mod MAX_RADIALS] (the near and
    far corner on this radial) or radial slot
    [(base + r + 1) mod MAX_RADIALS] (the two corners on the next
    radial). *)
Lemma lookup_slots_of_sweep (fuel : nat)
    (p p' : Level2ProductViewImpl) (radarData0 : DigitalRadarData)
    (rest : list DigitalRadarData) (momentData0 : MomentDataBlock) :
  dataBlockType_ p <> Unknown ->
  radar_data p = radarData0 :: rest ->
  moment_data_block radarData0 (dataBlockType_ p) = Some momentData0 ->
  ComputeSweep fuel p = Done p' ->
  let startRadial := start_radial radarData0 in
  let bins := sweep_bins (dataBlockType_ p) momentData0 (radar_data p) in
  startRadial
  = to_u16 (Float32.lroundf
              (Float32.mul (azimuth_angle radarData0)
                 (Float32.div (Float32.of_Z 2)
                    (Float32.of_Z
                       (clamp (to_i8 (azimuth_resolution_spacing radarData0))
                              1 2)))))
  /\ vertices p'
     = flat_map (bin_vertices (sweep_coordinates p) (latitude_ p')
                              (longitude_ p') startRadial) bins
  /\ Forall
       (fun b =>
          exists r : nat,
            (r < length (radar_data p))%nat
            /\ bin_radial b = Z.of_nat r
            /\ Forall
                 (fun sc : Z * Z =>
                    (sc.1 = (startRadial + Z.of_nat r) mod MAX_RADIALS
                     \/ sc.1
                        = (startRadial + Z.of_nat r + 1) mod MAX_RADIALS)
                    /\ 0 <= sc.2 < to_u16 MAX_DATA_MOMENT_GATES)
                 (bin_lookups startRadial b))
       bins.
Proof.
  intros Hknown Hdata Hblock Hrun. cbn zeta. rewrite Hdata.
  destruct (ComputeSweep_Done _ _ _ _ _ _ Hknown Hdata Hblock Hrun)
    as (v0 & _ & _ & _ & Hvs & _ & _ & _ & _ & Hlat & Hlon & _).
  cbn zeta in *. rewrite Hlat, Hlon.
  split; [reflexivity |]. split; [exact Hvs |].
  apply Forall_forall. intros b Hb. unfold sweep_bins in Hb.
  apply elem_of_sweep_bins_from in Hb as (r & rd & Hr & Hb).
  apply elem_of_radial_bins in Hb
    as (m & j & _ & _ & Hj & Hrad & Hgate & Hsize & _ & _).
  exists r. split; [exact (lookup_lt_Some _ _ _ Hr) |].
  split; [lia |].
  pose proof (rendered_gate_within _ _ _ Hj) as Hin.
  pose proof (start_gate_range m). pose proof (gate_size_pos m).
  pose proof (end_gate_range (to_u32 (number_of_data_moment_gates momentData0)) m).
  assert (end_gate (to_u32 (number_of_data_moment_gates momentData0)) m
          <= to_u16 MAX_DATA_MOMENT_GATES) by (unfold end_gate; lia).
  assert (0 <= bin_gate b) by nia.
  unfold bin_lookups. rewrite Hrad, Hsize, Z.add_0_l.
  destruct (Z.ltb_spec 0 (bin_gate b)).
  - rewrite (to_u16_small (bin_gate b - 1)) by lia.
    repeat constructor; cbn [fst snd]; auto; lia.
  - repeat constructor; cbn [fst snd]; auto; lia.
Qed.

(** *** A negative threshold *)

Lemma sample_at_8bit (m : MomentDataBlock) (i x : Z) :
  data_word_size m = 8 -> sample_at m i = Some x -> 0 <= x < 256.
Proof.
  unfold sample_at. intros ->. cbn.
  destruct (data_moments m !! Z.to_nat i) as [y|]; [| discriminate].
  cbn. intros [= <-]. unfold to_u8. apply Z.mod_pos_bound. lia.
Qed.

(** C9, as amended: the display threshold is the rounded value [T] reduced
    modulo 2^16; for [-65536 < T < 0] it is [65536 + T].  No bin with a
    sample below the reduced threshold is rendered; and for
    [-65280 <= T < 0] an 8-bit sweep renders nothing at all. *)
Theorem C9_negative_threshold_wraps (fuel : nat)
    (p p' : Level2ProductViewImpl) (radarData0 : DigitalRadarData)
    (rest : list DigitalRadarData) (momentData0 : MomentDataBlock) :
  dataBlockType_ p <> Unknown ->
  radar_data p = radarData0 :: rest ->
  moment_data_block radarData0 (dataBlockType_ p) = Some momentData0 ->
  ComputeSweep fuel p = Done p' ->
  let T := snr_threshold_rounded momentData0 in
  let bins := sweep_bins (dataBlockType_ p) momentData0 (radar_data p) in
  snr_threshold momentData0 = T mod 2 ^ 16
  /\ (-65536 < T < 0 -> snr_threshold momentData0 = 65536 + T)
  /\ raw_values p' = flat_map bin_values bins
  /\ Forall (fun b => snr_threshold momentData0 <= bin_value b) bins
  /\ (-65280 <= T < 0 -> data_word_size momentData0 = 8 ->
      bins = [] /\ vertices p' = [] /\ raw_values p' = []).
Proof.
  intros Hknown Hdata Hblock Hrun. cbn zeta. rewrite Hdata.
  destruct (ComputeSweep_Done _ _ _ _ _ _ Hknown Hdata Hblock Hrun)
    as (v0 & _ & _ & _ & Hvs & Hms & _).
  cbn zeta in *. apply raw_values_after_sweep in Hms.
  assert (Hwrap : -65536 < snr_threshold_rounded momentData0 < 0 ->
                  snr_threshold momentData0
                  = 65536 + snr_threshold_rounded momentData0).
  { intros HT. unfold snr_threshold. fold (snr_threshold_rounded momentData0).
    unfold to_u16.
    replace (snr_threshold_rounded momentData0)
      with (65536 + snr_threshold_rounded momentData0 + (-1) * 2 ^ 16)
      at 1 by lia.
    rewrite Z.mod_add by lia. apply Z.mod_small. lia. }
  split; [reflexivity |]. split; [exact Hwrap |]. split; [exact Hms |].
  split; [apply sweep_bins_above_threshold |].
  intros HT Hw8.
  assert (Hnil : sweep_bins (dataBlockType_ p) momentData0
                            (radarData0 :: rest) = []).
  { apply elem_of_nil_inv. intros b Hb. unfold sweep_bins in Hb.
    apply elem_of_sweep_bins_from in Hb as (r & rd & _ & Hb).
    apply elem_of_radial_bins in Hb
      as (m & j & _ & Hws & _ & _ & _ & _ & Hx & Hthr).
    apply sample_at_8bit in Hx; [| congruence].
    rewrite Hwrap in Hthr; lia. }
  rewrite Hms. unfold vertices. rewrite Hvs, Hnil. auto.
Qed.

(** *** The look-up table and its key *)

(** C8, as amended: without a reference block, without a colour table or
    with a colour table that is not valid, [UpdateColorTable] changes
    nothing.  Otherwise, when the colour table pointer, the offset and the
    scale compare equal (with [==]) to the saved ones, it changes nothing
    and signals nothing; when one of them does not, the table gets the
    size of the product's raw range, its entry for every raw value from
    [rangeMin] up to but without [rangeMax] is set from the colour table,
    the key is saved, and the "colour table updated" signal is raised after
    that. *)
Theorem C8_lut_rebuilt_on_key_change (p : Level2ProductViewImpl) :
  let rangeMin := (product_range (product_ p)).1 in
  let rangeMax := (product_range (product_ p)).2 in
  (lut_inputs_ready p = false -> UpdateColorTable p = Done p)
  /\ (lut_inputs_ready p = true -> lut_key_saved p = true ->
      UpdateColorTable p = Done p)
  /\ (lut_inputs_ready p = true -> lut_key_saved p = false ->
      exists (m : MomentDataBlock) (a : address) (p' : Level2ProductViewImpl),
        momentDataBlock0_ p = Some m /\ colorTable_ p = Some a
        /\ UpdateColorTable p = Done p'
        /\ Z.of_nat (length (colorTableLut_ p')) = rangeMax - rangeMin + 1
        /\ (forall i, rangeMin <= i < rangeMax ->
              colorTableLut_ p' !! Z.to_nat (i - rangeMin)
              = Some (Color (colorTables a)
                        (Float32.div
                           (Float32.sub (Float32.of_Z i) (offset m))
                           (scale m))))
        /\ savedColorTable_ p' = Some a
        /\ savedOffset_ p' = offset m /\ savedScale_ p' = scale m
        /\ trace_ p' = trace_ p ++ [ColorTableUpdated]
        /\ vertices_ p' = vertices_ p
        /\ dataMoments8_ p' = dataMoments8_ p
        /\ dataMoments16_ p' = dataMoments16_ p).
Proof.
  cbn zeta. split; [apply UpdateColorTable_not_ready |].
  split; [apply UpdateColorTable_hit |].
  intros Hready Hkey.
  destruct (UpdateColorTable_miss p Hready Hkey)
    as (m & a & lut' & Hm & Ha & Hrun & Hlen & Hset & _).
  exists m, a. eexists. split; [exact Hm |]. split; [exact Ha |].
  split; [exact Hrun |]. cbn. repeat split; assumption.
Qed.

(** *** Writes stay inside the buffers

    Whatever the input, a sweep of at most 65535 radials never stores a
    vertex or a raw value outside the buffers sized before the loops. *)

Lemma bind_writes_in_range {A B : Type} (r : result A) (k : A -> result B) :
  r <> Fault OutOfRangeWrite ->
  (forall a, r = Done a -> k a <> Fault OutOfRangeWrite) ->
  r ≫= k <> Fault OutOfRangeWrite.
Proof.
  destruct r as [a|f|]; cbn; intros Hr Hk.
  - apply Hk. reflexivity.
  - intros [= ->]. apply Hr. reflexivity.
  - discriminate.
Qed.

Lemma vec_at_reads {A : Type} (v : list A) (i : Z) :
  vec_at v i <> Fault OutOfRangeWrite.
Proof.
  unfold vec_at. destruct (i <? 0); [discriminate |].
  destruct (v !! Z.to_nat i); discriminate.
Qed.

Lemma push_vertex_in_range (x : float) (s : sweep_state) :
  (vIndex s < length (vertices_buf s))%nat ->
  push_vertex x s <> Fault OutOfRangeWrite.
Proof.
  intros Hlt. destruct (push_vertex_ends true x s Hlt) as (s' & -> & _).
  discriminate.
Qed.

Lemma push_coordinate_in_range (coordinates : list float) (off : Z)
    (s : sweep_state) :
  (vIndex s < length (vertices_buf s))%nat ->
  push_coordinate coordinates off s <> Fault OutOfRangeWrite.
Proof.
  intros Hlt. unfold push_coordinate. apply bind_writes_in_range.
  - apply vec_at_reads.
  - intros x _. apply push_vertex_in_range. exact Hlt.
Qed.

Ltac write_step :=
  lazymatch goal with
  | |- push_coordinate ?c ?o ?s ≫= _ <> _ =>
      apply bind_writes_in_range;
      [ apply push_coordinate_in_range; lia
      | let s1 := fresh "s" in
        let H := fresh "H" in
        intros s1 H; apply (push_coordinate_Done true) in H;
        apply emits_advanced in H; unfold advanced in H; cbn [length] in H ]
  | |- push_vertex ?x ?s ≫= _ <> _ =>
      apply bind_writes_in_range;
      [ apply push_vertex_in_range; lia
      | let s1 := fresh "s" in
        let H := fresh "H" in
        intros s1 H; apply (push_vertex_Done true) in H;
        apply emits_advanced in H; unfold advanced in H; cbn [length] in H ]
  | |- push_coordinate ?c ?o ?s <> _ =>
      apply push_coordinate_in_range; lia
  end.

Lemma store_vertices_in_range (coordinates : list float) (lat lon : float)
    (startRadial radial gate gateSize : Z) (s : sweep_state) :
  (vIndex s + 2 * vertex_count gate <= length (vertices_buf s))%nat ->
  store_vertices coordinates lat lon startRadial radial gate gateSize s
  <> Fault OutOfRangeWrite.
Proof.
  unfold store_vertices, vertex_count.
  destruct (0 <? gate); intros Hroom; repeat write_step.
Qed.

Lemma repeat_push_in_range (w8 : bool)
    (push : Z -> sweep_state -> result sweep_state) :
  (forall x s, (mIndex s < length (moments_buf w8 s))%nat ->
     exists s', push x s = Done s' /\ advanced w8 s s' 0 1) ->
  forall (n : nat) (x : Z) (s : sweep_state),
    (mIndex s + n <= length (moments_buf w8 s))%nat ->
    repeat_push push n x s <> Fault OutOfRangeWrite.
Proof.
  intros Hpush n x s Hroom.
  destruct (repeat_push_ends w8 push Hpush n x s Hroom) as (s' & -> & _).
  discriminate.
Qed.

Lemma gate_body_in_range (coordinates : list float) (lat lon : float)
    (snrThreshold startRadial : Z) (m : MomentDataBlock)
    (radial gate i : Z) (s : sweep_state) :
  (vIndex s + 12 <= length (vertices_buf s))%nat ->
  (mIndex s + 6 <= length (moments_buf (data_word_size m =? 8)%Z s))%nat ->
  gate_body coordinates lat lon snrThreshold startRadial m radial gate i
            (gate_size m) s <> Fault OutOfRangeWrite.
Proof.
  intros Hv Hm.
  pose proof (vertex_count_le gate) as Hcount. unfold vertex_count in Hcount.
  unfold gate_body. destruct (data_word_size m =? 8).
  - apply bind_writes_in_range; [apply vec_at_reads |]. intros x _.
    destruct (to_u8 x <? snrThreshold); [discriminate |].
    destruct (repeat_push_ends true push_moment8 push_moment8_ends
                (if 0 <? gate then 6%nat else 3%nat) (to_u8 x) s)
      as (s1 & -> & Ha); [cbn [moments_buf] in *; lia |].
    cbn [mbind result_bind bind]. apply store_vertices_in_range.
    unfold advanced, vertex_count in *. lia.
  - apply bind_writes_in_range; [apply vec_at_reads |]. intros x _.
    destruct (to_u16 x <? snrThreshold); [discriminate |].
    destruct (repeat_push_ends false push_moment16 push_moment16_ends
                (if 0 <? gate then 6%nat else 3%nat) (to_u16 x) s)
      as (s1 & -> & Ha); [cbn [moments_buf] in *; lia |].
    cbn [mbind result_bind bind]. apply store_vertices_in_range.
    unfold advanced, vertex_count in *. lia.
Qed.

Lemma gate_loop_in_range (coordinates : list float) (lat lon : float)
    (snrThreshold startRadial : Z) (m : MomentDataBlock)
    (radial endGate : Z) :
  endGate <= 65535 ->
  forall (fuel : nat) (gate i : Z) (s : sweep_state),
    let n := Z.to_nat ((endGate - gate) / gate_size m) in
    0 <= i <= gate ->
    (vIndex s + 12 * n <= length (vertices_buf s))%nat ->
    (mIndex s + 6 * n
     <= length (moments_buf (data_word_size m =? 8)%Z s))%nat ->
    gate_loop coordinates lat lon snrThreshold startRadial fuel m radial
              (gate_size m) endGate gate i s <> Fault OutOfRangeWrite.
Proof.
  intros Hend. pose proof (gate_size_pos m) as Hsz.
  induction fuel as [|fuel IH]; intros gate i s n Hi Hv Hm;
    [discriminate |].
  cbn [gate_loop]. subst n.
  destruct (Z.leb_spec (gate + gate_size m) endGate) as [Hle|Hgt];
    [| discriminate].
  rewrite (gate_count_step (gate_size m) gate endGate) in * by lia.
  apply bind_writes_in_range; [apply gate_body_in_range; lia |].
  intros s1 Hbody. apply gate_body_Done in Hbody.
  apply bins_advanced with (n := 1%nat) in Hbody;
    [| destruct (bin_at snrThreshold m radial gate i); cbn; lia].
  unfold advanced in Hbody.
  rewrite (to_u16_small (gate + gate_size m)) by lia.
  rewrite (to_u16_small (i + 1)) by lia.
  apply IH; lia.
Qed.

Lemma radial_body_in_range (coordinates : list float) (lat lon : float)
    (snrThreshold startRadial : Z) (dataBlockType : DataBlockType)
    (momentData0 : MomentDataBlock) (gates : Z) (fuel : nat) (radial : Z)
    (radialData : DigitalRadarData) (s : sweep_state) :
  0 <= gates ->
  (vIndex s + 12 * Z.to_nat gates <= length (vertices_buf s))%nat ->
  (mIndex s + 6 * Z.to_nat gates
   <= length (moments_buf (data_word_size momentData0 =? 8)%Z s))%nat ->
  radial_body coordinates lat lon snrThreshold startRadial dataBlockType
              momentData0 gates fuel radial radialData s
  <> Fault OutOfRangeWrite.
Proof.
  intros Hg Hv Hm. unfold radial_body.
  destruct (moment_data_block radialData dataBlockType) as [m|];
    [| discriminate].
  cbn [deref mbind result_bind bind].
  destruct (Z.eqb_spec (data_word_size momentData0) (data_word_size m))
    as [Heq|Hne]; cbn [negb]; [| discriminate].
  pose proof (gate_count_le_gates gates m Hg). rewrite Heq in Hm.
  apply (gate_loop_in_range coordinates lat lon snrThreshold startRadial m
           radial (end_gate gates m)).
  - apply end_gate_range.
  - pose proof (start_gate_range m). unfold start_gate in *. lia.
  - fold (start_gate m) (gate_count gates m). lia.
  - fold (start_gate m) (gate_count gates m). lia.
Qed.

Lemma radial_loop_in_range (coordinates : list float) (lat lon : float)
    (snrThreshold startRadial : Z) (dataBlockType : DataBlockType)
    (momentData0 : MomentDataBlock) (gates : Z)
    (radarData : list DigitalRadarData) :
  0 <= gates ->
  Z.of_nat (length radarData) <= 65535 ->
  forall (fuel : nat) (k : nat) (s : sweep_state),
    (vIndex s + 12 * Z.to_nat gates * (length radarData - k)
     <= length (vertices_buf s))%nat ->
    (mIndex s + 6 * Z.to_nat gates * (length radarData - k)
     <= length (moments_buf (data_word_size momentData0 =? 8)%Z s))%nat ->
    radial_loop coordinates lat lon snrThreshold startRadial dataBlockType
                momentData0 gates radarData fuel (Z.of_nat k) s
    <> Fault OutOfRangeWrite.
Proof.
  intros Hg Hlen. induction fuel as [|fuel IH]; intros k s Hv Hm;
    [discriminate |].
  cbn [radial_loop].
  destruct (Z.ltb_spec (Z.of_nat k) (Z.of_nat (length radarData)));
    [| discriminate].
  apply bind_writes_in_range; [apply vec_at_reads |]. intros rd _.
  apply bind_writes_in_range; [apply radial_body_in_range; [exact Hg | nia | nia] |].
  intros s1 Hbody. apply radial_body_Done in Hbody as [_ Hbody].
  cbn zeta in Hbody.
  apply bins_advanced with (n := Z.to_nat gates) in Hbody;
    [| apply length_radial_bins; exact Hg].
  unfold advanced in Hbody.
  rewrite to_u16_small by lia.
  replace (Z.of_nat k + 1) with (Z.of_nat (S k)) by lia.
  apply IH; nia.
Qed.

(** *** The loops come to an end

    The gate loop makes at most [MAX_DATA_MOMENT_GATES] (as 16 bits)
    rounds, the radial loop one round per radial: with that much fuel no
    run is cut short, whether it ends with a sweep or with a fault. *)

Lemma bind_settled {A B : Type} (r : result A) (k : A -> result B) :
  r <> OutOfFuel ->
  (forall a, r = Done a -> k a <> OutOfFuel) ->
  r ≫= k <> OutOfFuel.
Proof.
  destruct r as [a|f|]; cbn; intros Hr Hk.
  - apply Hk. reflexivity.
  - discriminate.
  - contradiction Hr. reflexivity.
Qed.

Lemma vec_at_settled {A : Type} (v : list A) (i : Z) :
  vec_at v i <> OutOfFuel.
Proof.
  unfold vec_at. destruct (i <? 0); [discriminate |].
  destruct (v !! Z.to_nat i); discriminate.
Qed.

Lemma vec_set_settled {A : Type} (v : list A) (i : nat) (x : A) :
  vec_set v i x <> OutOfFuel.
Proof. unfold vec_set. destruct (decide (i < length v)%nat); discriminate. Qed.

Lemma push_vertex_settled (x : float) (s : sweep_state) :
  push_vertex x s <> OutOfFuel.
Proof.
  unfold push_vertex. apply bind_settled; [apply vec_set_settled |].
  discriminate.
Qed.

Lemma push_moment8_settled (x : Z) (s : sweep_state) :
  push_moment8 x s <> OutOfFuel.
Proof.
  unfold push_moment8. apply bind_settled; [apply vec_set_settled |].
  discriminate.
Qed.

Lemma push_moment16_settled (x : Z) (s : sweep_state) :
  push_moment16 x s <> OutOfFuel.
Proof.
  unfold push_moment16. apply bind_settled; [apply vec_set_settled |].
  discriminate.
Qed.

Lemma push_coordinate_settled (coordinates : list float) (off : Z)
    (s : sweep_state) :
  push_coordinate coordinates off s <> OutOfFuel.
Proof.
  unfold push_coordinate. apply bind_settled; [apply vec_at_settled |].
  intros x _. apply push_vertex_settled.
Qed.

Lemma repeat_push_settled
    (push : Z -> sweep_state -> result sweep_state) :
  (forall x s, push x s <> OutOfFuel) ->
  forall (n : nat) (x : Z) (s : sweep_state),
    repeat_push push n x s <> OutOfFuel.
Proof.
  intros Hpush. induction n as [|n IH]; intros x s; cbn [repeat_push];
    [discriminate |].
  apply bind_settled; [apply Hpush |]. intros s' _. apply IH.
Qed.

Lemma store_vertices_settled (coordinates : list float) (lat lon : float)
    (startRadial radial gate gateSize : Z) (s : sweep_state) :
  store_vertices coordinates lat lon startRadial radial gate gateSize s
  <> OutOfFuel.
Proof.
  unfold store_vertices.
  destruct (0 <? gate);
    repeat first
      [ apply push_coordinate_settled
      | apply bind_settled;
        [ first [apply push_coordinate_settled | apply push_vertex_settled]
        | intros ? _ ] ].
Qed.

Lemma gate_body_settled (coordinates : list float) (lat lon : float)
    (snrThreshold startRadial : Z) (m : MomentDataBlock)
    (radial gate i gateSize : Z) (s : sweep_state) :
  gate_body coordinates lat lon snrThreshold startRadial m radial gate i
            gateSize s <> OutOfFuel.
Proof.
  unfold gate_body.
  destruct (data_word_size m =? 8);
    (apply bind_settled; [apply vec_at_settled |]; intros x _;
     match goal with
     | |- (if ?c then _ else _) <> _ => destruct c; [discriminate |]
     end;
     apply bind_settled;
     [ apply repeat_push_settled;
       first [apply push_moment8_settled | apply push_moment16_settled]
     | intros ? _; apply store_vertices_settled ]).
Qed.

Lemma gate_loop_settled (coordinates : list float) (lat lon : float)
    (snrThreshold startRadial : Z) (m : MomentDataBlock)
    (radial endGate : Z) :
  endGate <= 65535 ->
  forall (fuel : nat) (gate i : Z) (s : sweep_state),
    0 <= gate ->
    (Z.to_nat ((endGate - gate) / gate_size m) < fuel)%nat ->
    gate_loop coordinates lat lon snrThreshold startRadial fuel m radial
              (gate_size m) endGate gate i s <> OutOfFuel.
Proof.
  intros Hend. pose proof (gate_size_pos m) as Hsz.
  induction fuel as [|fuel IH]; intros gate i s Hgate Hfuel; [lia |].
  cbn [gate_loop].
  destruct (Z.leb_spec (gate + gate_size m) endGate) as [Hle|Hgt];
    [| discriminate].
  rewrite (gate_count_step (gate_size m) gate endGate) in Hfuel by lia.
  apply bind_settled; [apply gate_body_settled |]. intros s1 _.
  rewrite (to_u16_small (gate + gate_size m)) by lia.
  apply IH; lia.
Qed.

Lemma radial_body_settled (coordinates : list float) (lat lon : float)
    (snrThreshold startRadial : Z) (dataBlockType : DataBlockType)
    (momentData0 : MomentDataBlock) (gates : Z) (fuel : nat) (radial : Z)
    (radialData : DigitalRadarData) (s : sweep_state) :
  (Z.to_nat (to_u16 MAX_DATA_MOMENT_GATES) < fuel)%nat ->
  radial_body coordinates lat lon snrThreshold startRadial dataBlockType
              momentData0 gates fuel radial radialData s <> OutOfFuel.
Proof.
  intros Hfuel. unfold radial_body.
  destruct (moment_data_block radialData dataBlockType) as [m|];
    [| discriminate].
  cbn [deref mbind result_bind bind].
  destruct (negb (data_word_size momentData0 =? data_word_size m));
    [discriminate |].
  pose proof (gate_count_le_max gates m) as Hmax.
  apply (gate_loop_settled coordinates lat lon snrThreshold startRadial m
           radial (end_gate gates m)).
  - apply end_gate_range.
  - pose proof (start_gate_range m). unfold start_gate in *. lia.
  - fold (start_gate m) (gate_count gates m). lia.
Qed.

Lemma radial_loop_settled (coordinates : list float) (lat lon : float)
    (snrThreshold startRadial : Z) (dataBlockType : DataBlockType)
    (momentData0 : MomentDataBlock) (gates : Z)
    (radarData : list DigitalRadarData) :
  Z.of_nat (length radarData) <= 65535 ->
  forall (fuel : nat) (k : nat) (s : sweep_state),
    (length radarData - k + Z.to_nat (to_u16 MAX_DATA_MOMENT_GATES) + 1
     < fuel)%nat ->
    radial_loop coordinates lat lon snrThreshold startRadial dataBlockType
                momentData0 gates radarData fuel (Z.of_nat k) s
    <> OutOfFuel.
Proof.
  intros Hlen. induction fuel as [|fuel IH]; intros k s Hfuel; [lia |].
  cbn [radial_loop].
  destruct (Z.ltb_spec (Z.of_nat k) (Z.of_nat (length radarData)));
    [| discriminate].
  apply bind_settled; [apply vec_at_settled |]. intros rd _.
  apply bind_settled; [apply radial_body_settled; lia |]. intros s1 _.
  rewrite to_u16_small by lia.
  replace (Z.of_nat k + 1) with (Z.of_nat (S k)) by lia.
  apply IH. lia.
Qed.

(** *** A run that ends has read only what exists *)

Lemma push_coordinate_read (coordinates : list float) (off : Z)
    (s s' : sweep_state) :
  push_coordinate coordinates off s = Done s' ->
  0 <= off < Z.of_nat (length coordinates).
Proof.
  unfold push_coordinate. intros H.
  apply bind_Done_inv in H as (x & Hx & _).
  apply vec_at_Done in Hx as [H0 Hx]. apply lookup_lt_Some in Hx. lia.
Qed.

Lemma store_vertices_reads (coordinates : list float) (lat lon : float)
    (startRadial radial gate gateSize x : Z) (s s' : sweep_state) :
  store_vertices coordinates lat lon startRadial radial gate gateSize s
  = Done s' ->
  bin_in_table coordinates startRadial
    {| bin_radial := radial; bin_gate := gate; bin_gateSize := gateSize;
       bin_value := x |} = true.
Proof.
  unfold bin_in_table, bin_lookups, store_vertices.
  cbn [bin_gate bin_radial bin_gateSize].
  destruct (0 <? gate); intros H;
    repeat match goal with
           | H : push_coordinate _ _ _ ≫= _ = Done _ |- _ =>
               apply bind_Done_inv in H as (? & ?%push_coordinate_read & H)
           | H : push_vertex _ _ ≫= _ = Done _ |- _ =>
               apply bind_Done_inv in H as (? & _ & H)
           | H : push_coordinate _ _ _ = Done _ |- _ =>
               apply push_coordinate_read in H
           end;
    cbn [forallb fst snd]; unfold coordinate_offset;
    repeat (apply andb_true_intro; split); try reflexivity;
    first [apply Z.leb_le | apply Z.ltb_lt]; lia.
Qed.

Lemma gate_body_reads (coordinates : list float) (lat lon : float)
    (snrThreshold startRadial : Z) (m : MomentDataBlock)
    (radial gate i : Z) (s s' : sweep_state) :
  gate_body coordinates lat lon snrThreshold startRadial m radial gate i
            (gate_size m) s = Done s' ->
  0 <= i < Z.of_nat (length (data_moments m))
  /\ forallb (bin_in_table coordinates startRadial)
             (option_list (bin_at snrThreshold m radial gate i)) = true.
Proof.
  unfold gate_body, bin_at, sample_at. intros H.
  destruct (data_word_size m =? 8);
    apply bind_Done_inv in H as (x & Hx & H);
    apply vec_at_Done in Hx as [H0 Hx]; rewrite Hx;
    pose proof (lookup_lt_Some _ _ _ Hx);
    cbn [fmap option_fmap option_map];
    (split; [lia |]);
    match type of H with
    | (if ?c then _ else _) = _ => destruct c; [reflexivity |]
    end;
    apply bind_Done_inv in H as (s1 & _ & H);
    cbn [option_list option_rect forallb];
    erewrite store_vertices_reads by exact H; reflexivity.
Qed.

Lemma gate_loop_reads (coordinates : list float) (lat lon : float)
    (snrThreshold startRadial : Z) (m : MomentDataBlock)
    (radial endGate : Z) :
  endGate <= 65535 ->
  forall (fuel : nat) (gate i : Z) (s s' : sweep_state),
    let n := Z.to_nat ((endGate - gate) / gate_size m) in
    0 <= i <= gate ->
    gate_loop coordinates lat lon snrThreshold startRadial fuel m radial
              (gate_size m) endGate gate i s = Done s' ->
    (n = 0%nat \/ i + Z.of_nat n <= Z.of_nat (length (data_moments m)))
    /\ forallb (bin_in_table coordinates startRadial)
               (bins_from snrThreshold m radial n gate i) = true.
Proof.
  intros Hend. pose proof (gate_size_pos m) as Hsz.
  induction fuel as [|fuel IH]; intros gate i s s' n Hi H; [discriminate |].
  cbn [gate_loop] in H. subst n.
  destruct (Z.leb_spec (gate + gate_size m) endGate) as [Hle|Hgt].
  - rewrite (gate_count_step (gate_size m) gate endGate) by lia.
    apply bind_Done_inv in H as (s1 & Hbody & H).
    apply gate_body_reads in Hbody as [Hdata Htable].
    rewrite (to_u16_small (gate + gate_size m)) in H by lia.
    rewrite (to_u16_small (i + 1)) in H by lia.
    apply IH in H as [Hn Hrest]; [| lia].
    split; [right; lia |].
    cbn [bins_from]. rewrite forallb_app, Htable, Hrest. reflexivity.
  - rewrite (gate_count_stop (gate_size m) gate endGate) by lia.
    split; [left; reflexivity | reflexivity].
Qed.

Lemma radial_body_reads (coordinates : list float) (lat lon : float)
    (snrThreshold startRadial : Z) (dataBlockType : DataBlockType)
    (momentData0 : MomentDataBlock) (gates : Z) (fuel : nat) (radial : Z)
    (radialData : DigitalRadarData) (s s' : sweep_state) :
  radial_body coordinates lat lon snrThreshold startRadial dataBlockType
              momentData0 gates fuel radial radialData s = Done s' ->
  radial_readable coordinates snrThreshold startRadial dataBlockType
                  momentData0 gates radial radialData = true.
Proof.
  unfold radial_body, radial_readable. intros H.
  destruct (moment_data_block radialData dataBlockType) as [m|];
    [| discriminate].
  cbn [deref mbind result_bind bind] in H.
  destruct (data_word_size momentData0 =? data_word_size m); cbn [negb] in H;
    [| reflexivity].
  apply (gate_loop_reads coordinates lat lon snrThreshold startRadial m
           radial (end_gate gates m)) in H as [Hn Htable].
  - fold (start_gate m) (gate_count gates m) in Hn, Htable.
    rewrite Htable, andb_true_r. apply Z.leb_le. lia.
  - apply end_gate_range.
  - pose proof (start_gate_range m). unfold start_gate in *. lia.
Qed.

Lemma radial_loop_reads (coordinates : list float) (lat lon : float)
    (snrThreshold startRadial : Z) (dataBlockType : DataBlockType)
    (momentData0 : MomentDataBlock) (gates : Z)
    (radarData : list DigitalRadarData) :
  Z.of_nat (length radarData) <= 65535 ->
  forall (fuel : nat) (k : nat) (s s' : sweep_state),
    radial_loop coordinates lat lon snrThreshold startRadial dataBlockType
                momentData0 gates radarData fuel (Z.of_nat k) s = Done s' ->
    sweep_readable_from coordinates snrThreshold startRadial dataBlockType
                        momentData0 gates (Z.of_nat k) (drop k radarData)
    = true.
Proof.
  intros Hlen. induction fuel as [|fuel IH]; intros k s s' H;
    [discriminate |].
  cbn [radial_loop] in H.
  destruct (Z.ltb_spec (Z.of_nat k) (Z.of_nat (length radarData))).
  - apply bind_Done_inv in H as (rd & Hrd & H).
    apply bind_Done_inv in H as (s1 & Hbody & H).
    apply vec_at_Done in Hrd as [_ Hrd]. rewrite Nat2Z.id in Hrd.
    rewrite (drop_S _ _ _ Hrd). cbn [sweep_readable_from].
    apply radial_body_reads in Hbody. rewrite Hbody.
    rewrite to_u16_small in H by lia.
    replace (Z.of_nat k + 1) with (Z.of_nat (S k)) in * by lia.
    apply IH in H. exact H.
  - rewrite drop_ge by lia. reflexivity.
Qed.

(** *** Outcomes of [ComputeSweep] *)

Lemma ComputeSweep_outcome (fuel : nat) (p : Level2ProductViewImpl) :
  Z.of_nat (length (radar_data p)) <= 65535 ->
  ComputeSweep fuel p <> Fault OutOfRangeWrite
  /\ ((length (radar_data p) + Z.to_nat (to_u16 MAX_DATA_MOMENT_GATES) + 1
       < fuel)%nat ->
      ComputeSweep fuel p <> OutOfFuel).
Proof.
  intros Hlen. unfold ComputeSweep. fold (radar_data p).
  destruct (decide (dataBlockType_ p = Unknown));
    [split; [| intros _]; discriminate |].
  fold (sweep_coordinates p).
  destruct (radar_data p) as [|radarData0 rest] eqn:Hdata;
    [split; [| intros _]; discriminate |].
  cbn [momentDataBlock0_ set_momentDataBlock0 dataBlockType_ product_
       radarProductManager_].
  destruct (moment_data_block radarData0 (dataBlockType_ p))
    as [momentData0|]; [| split; [| intros _]; discriminate].
  destruct (volume_data_block radarData0) as [v0|];
    cbn [deref mbind result_bind bind];
    [| split; [| intros _]; discriminate].
  cbn [latitude_ longitude_ set_origin dataBlockType_ dataMoments8_
       dataMoments16_ set_momentDataBlock0].
  set (radarData := radarData0 :: rest) in *.
  set (radials := Z.of_nat (length radarData)) in *.
  set (gates := to_u32 (number_of_data_moment_gates momentData0)) in *.
  pose proof (to_u32_nonneg (number_of_data_moment_gates momentData0)) as Hg0.
  pose proof (to_u32_lt (number_of_data_moment_gates momentData0)) as Hg1.
  fold gates in Hg0, Hg1.
  destruct (sweep_buffer_sizes radials gates) as [Hsv Hsm];
    [unfold radials; lia | lia |].
  assert (Hlut : forall q, UpdateColorTable q <> Fault OutOfRangeWrite
                           /\ UpdateColorTable q <> OutOfFuel).
  { intros q. destruct (UpdateColorTable_frame q) as (q' & -> & _).
    split; discriminate. }
  destruct (data_word_size momentData0 =? 8) eqn:Hw8;
    (split;
     [ apply bind_writes_in_range;
       [ match goal with
         | |- radial_loop ?c ?la ?lo ?t ?sr ?dbt ?m0 ?g ?rd ?f _ ?s0 <> _ =>
             apply (radial_loop_in_range c la lo t sr dbt m0 g rd Hg0 Hlen
                      f 0%nat s0)
         end;
         [ cbn [vertices_buf vIndex]; rewrite length_replicate, Hsv;
           unfold radials; nia
         | rewrite Hw8;
           cbn [moments_buf dataMoments8_buf dataMoments16_buf mIndex];
           rewrite length_resize, Hsm; unfold radials; nia ]
       | intros s _; cbv beta iota zeta; apply Hlut ]
     | intros Hfuel; apply bind_settled;
       [ match goal with
         | |- radial_loop ?c ?la ?lo ?t ?sr ?dbt ?m0 ?g ?rd ?f _ ?s0 <> _ =>
             apply (radial_loop_settled c la lo t sr dbt m0 g rd Hlen
                      f 0%nat s0)
         end; lia
       | intros s _; cbv beta iota zeta; apply Hlut ] ]).
Qed.

(** X1: whatever the radials and the coordinate table hold, a sweep of at
    most 65535 radials never stores a vertex or a raw value outside the
    buffers [ComputeSweep] has sized before its loops: no run, with any
    fuel, faults on a write. *)
Theorem sweep_writes_stay_in_buffers (fuel : nat)
    (p : Level2ProductViewImpl) :
  Z.of_nat (length (radar_data p)) <= 65535 ->
  ComputeSweep fuel p <> Fault OutOfRangeWrite.
Proof. intros Hlen. apply ComputeSweep_outcome. exact Hlen. Qed.

(** X2: [ComputeSweep] comes to an end on every sweep of at most 65535
    radials, with a sweep or with a fault: fuel for one round per radial
    and [MAX_DATA_MOMENT_GATES] (as 16 bits) rounds of the gate loop is
    never used up. *)
Theorem sweep_is_never_cut_short (fuel : nat) (p : Level2ProductViewImpl) :
  Z.of_nat (length (radar_data p)) <= 65535 ->
  (length (radar_data p) + Z.to_nat (to_u16 MAX_DATA_MOMENT_GATES) + 1
   < fuel)%nat ->
  ComputeSweep fuel p <> OutOfFuel.
Proof. intros Hlen. apply ComputeSweep_outcome. exact Hlen. Qed.

Lemma ComputeSweep_reads (fuel : nat) (p p' : Level2ProductViewImpl)
    (radarData0 : DigitalRadarData) (rest : list DigitalRadarData)
    (momentData0 : MomentDataBlock) :
  dataBlockType_ p <> Unknown ->
  radar_data p = radarData0 :: rest ->
  moment_data_block radarData0 (dataBlockType_ p) = Some momentData0 ->
  ComputeSweep fuel p = Done p' ->
  sweep_readable p radarData0 momentData0 (radar_data p) = true.
Proof.
  intros Hknown Hdata Hblock H.
  destruct (ComputeSweep_Done _ _ _ _ _ _ Hknown Hdata Hblock H)
    as (v0 & _ & Hlen & _).
  cbn zeta in Hlen.
  unfold ComputeSweep in H. fold (radar_data p) in H.
  destruct (decide (dataBlockType_ p = Unknown)); [contradiction |].
  fold (sweep_coordinates p) in H. rewrite Hdata in *.
  cbn [momentDataBlock0_ set_momentDataBlock0 dataBlockType_ product_
       radarProductManager_] in H.
  rewrite Hblock in H.
  apply bind_Done_inv in H as (volumeData0 & _ & H).
  cbn [latitude_ longitude_ set_origin dataBlockType_ dataMoments8_
       dataMoments16_] in H.
  unfold sweep_readable.
  destruct (data_word_size momentData0 =? 8);
    apply bind_Done_inv in H as (s & Hloop & _);
    apply (radial_loop_reads _ _ _ _ _ _ _ _ _ Hlen _ 0%nat) in Hloop;
    rewrite drop_0 in Hloop; exact Hloop.
Qed.

(** X3: the condition under which a sweep is synthesized.  For a sweep of
    at most 65535 radials whose first radial carries the moment block and
    the volume block, and with fuel for the loops, [ComputeSweep] ends with
    a sweep exactly when every radial carries the moment block and every
    sample and coordinate-table entry the loops address exists. *)
Theorem sweep_ends_iff_readable (fuel : nat) (p : Level2ProductViewImpl)
    (radarData0 : DigitalRadarData) (rest : list DigitalRadarData)
    (momentData0 : MomentDataBlock) :
  dataBlockType_ p <> Unknown ->
  radar_data p = radarData0 :: rest ->
  moment_data_block radarData0 (dataBlockType_ p) = Some momentData0 ->
  is_Some (volume_data_block radarData0) ->
  Z.of_nat (length (radar_data p)) <= 65535 ->
  (length (radar_data p) + Z.to_nat (to_u16 MAX_DATA_MOMENT_GATES) + 1
   < fuel)%nat ->
  (exists p', ComputeSweep fuel p = Done p')
  <-> sweep_readable p radarData0 momentData0 (radar_data p) = true.
Proof.
  intros Hknown Hdata Hblock Hvol Hlen Hfuel. split.
  - intros [p' Hrun]. eapply ComputeSweep_reads; eassumption.
  - intros Hread. eapply ComputeSweep_ends; eassumption.
Qed.

(** X4: the radial loop counts in 16 bits.  On a sweep of 65536 radials or
    more whose first radial carries the moment block, the counter never
    reaches the number of radials, and no run of [ComputeSweep], with any
    fuel, ends with a sweep. *)
Theorem sweep_of_65536_radials_never_ends (fuel : nat)
    (p p' : Level2ProductViewImpl) (radarData0 : DigitalRadarData)
    (rest : list DigitalRadarData) (momentData0 : MomentDataBlock) :
  dataBlockType_ p <> Unknown ->
  radar_data p = radarData0 :: rest ->
  moment_data_block radarData0 (dataBlockType_ p) = Some momentData0 ->
  65536 <= Z.of_nat (length (radar_data p)) ->
  ComputeSweep fuel p <> Done p'.
Proof.
  intros Hknown Hdata Hblock Hlen Hrun.
  destruct (ComputeSweep_Done _ _ _ _ _ _ Hknown Hdata Hblock Hrun)
    as (v0 & _ & Hle & _).
  cbn zeta in Hle. rewrite Hdata in Hlen. lia.
Qed.

(** *** The colour table over the life of a view *)

Lemma float_eqb_refl (x : float) :
  Float32.isnan x = false -> Float32.eqb x x = true.
Proof.
  unfold Float32.eqb, SFeqb.
  destruct x as [s|s| |s m e]; cbn; try reflexivity; try discriminate.
  - destruct s; reflexivity.
  - intros _. rewrite Z.compare_refl, Pos.compare_cont_refl.
    destruct s; reflexivity.
Qed.

Lemma float_eqb_nan (x y : float) :
  Float32.isnan y = true -> Float32.eqb x y = false.
Proof.
  unfold Float32.eqb, SFeqb. destruct y; try discriminate.
  intros _. destruct x; reflexivity.
Qed.

(** A run of [ComputeSweep] that gets past the early returns and ends has
    ended in [UpdateColorTable], called on the view with the new sweep. *)
Lemma ComputeSweep_Done_lut (fuel : nat) (p p' : Level2ProductViewImpl)
    (radarData0 : DigitalRadarData) (rest : list DigitalRadarData)
    (momentData0 : MomentDataBlock) :
  dataBlockType_ p <> Unknown ->
  radar_data p = radarData0 :: rest ->
  moment_data_block radarData0 (dataBlockType_ p) = Some momentData0 ->
  ComputeSweep fuel p = Done p' ->
  exists q,
    UpdateColorTable q = Done p'
    /\ momentDataBlock0_ q = Some momentData0
    /\ product_ q = product_ p
    /\ colorTable_ q = colorTable_ p
    /\ colorTableLut_ q = colorTableLut_ p
    /\ savedColorTable_ q = savedColorTable_ p
    /\ savedScale_ q = savedScale_ p
    /\ savedOffset_ q = savedOffset_ p
    /\ sweepTime_ q
       = TimePoint (modified_julian_date radarData0)
                   (collection_time radarData0)
    /\ trace_ q
       = trace_ p
         ++ sweep_warnings_from (dataBlockType_ p) momentData0 0
                                (radarData0 :: rest)
         ++ [SweepComputed].
Proof.
  intros Hknown Hdata Hblock H.
  destruct (ComputeSweep_Done _ _ _ _ _ _ Hknown Hdata Hblock H)
    as (v0 & _ & Hlen & _).
  cbn zeta in Hlen.
  unfold ComputeSweep in H. fold (radar_data p) in H.
  destruct (decide (dataBlockType_ p = Unknown)); [contradiction |].
  fold (sweep_coordinates p) in H. rewrite Hdata in H.
  cbn [momentDataBlock0_ set_momentDataBlock0 dataBlockType_ product_
       radarProductManager_] in H.
  rewrite Hblock in H.
  apply bind_Done_inv in H as (volumeData0 & _ & H).
  cbn [latitude_ longitude_ set_origin dataBlockType_ dataMoments8_
       dataMoments16_] in H.
  destruct (data_word_size momentData0 =? 8);
    apply bind_Done_inv in H as (s & Hloop & H);
    apply (radial_loop_Done _ _ _ _ _ _ _ _ _ Hlen _ 0%nat) in Hloop;
    cbn zeta in Hloop; rewrite drop_0 in Hloop;
    destruct Hloop as (_ & _ & _ & Hws);
    cbn [warnings app] in Hws; change (Z.of_nat 0) with 0 in Hws;
    match type of H with
    | UpdateColorTable ?q = _ => exists q
    end;
    (split; [exact H |]); cbn; rewrite Hws; tauto.
Qed.

Lemma UpdateColorTable_settles (p p' : Level2ProductViewImpl) :
  (forall m, momentDataBlock0_ p = Some m ->
             Float32.isnan (scale m) = false
             /\ Float32.isnan (offset m) = false) ->
  UpdateColorTable p = Done p' ->
  UpdateColorTable p' = Done p'.
Proof.
  intros Hnan Hrun.
  destruct (lut_inputs_ready p) eqn:Hready.
  - destruct (lut_key_saved p) eqn:Hkey.
    + rewrite UpdateColorTable_hit in Hrun by assumption.
      injection Hrun as <-. apply UpdateColorTable_hit; assumption.
    + destruct (UpdateColorTable_miss p Hready Hkey)
        as (m & a & lut' & Hm & Ha & Hrun' & _).
      rewrite Hrun' in Hrun. injection Hrun as <-.
      destruct (Hnan m Hm) as [Hscale Hoffset].
      apply UpdateColorTable_hit.
      * unfold lut_inputs_ready in *. cbn. exact Hready.
      * unfold lut_key_saved. cbn. rewrite Hm, Ha.
        rewrite bool_decide_eq_true_2 by reflexivity.
        rewrite !float_eqb_refl by assumption. reflexivity.
  - rewrite UpdateColorTable_not_ready in Hrun by assumption.
    injection Hrun as <-. apply UpdateColorTable_not_ready. exact Hready.
Qed.

(** X5: [UpdateColorTable] settles.  Unless the scale or the offset of the
    reference block is a NaN, a second call right after a first one changes
    nothing: no rebuild and no second "colour table updated" signal. *)
Theorem lut_update_is_idempotent (p p' : Level2ProductViewImpl) :
  (forall m, momentDataBlock0_ p = Some m ->
             Float32.isnan (scale m) = false
             /\ Float32.isnan (offset m) = false) ->
  UpdateColorTable p = Done p' ->
  UpdateColorTable p' = Done p'.
Proof. apply UpdateColorTable_settles. Qed.

(** X6: the saved key is compared with [==] on floats, under which a NaN
    differs from itself.  When the scale or the offset of the reference
    block is a NaN and a valid colour table is loaded, every call of
    [UpdateColorTable] rebuilds the table and raises the signal, and leaves
    the view in a state where the next call does so again. *)
Theorem lut_rebuilt_on_every_call_with_nan (p : Level2ProductViewImpl)
    (m : MomentDataBlock) :
  lut_inputs_ready p = true ->
  momentDataBlock0_ p = Some m ->
  Float32.isnan (scale m) || Float32.isnan (offset m) = true ->
  exists p',
    UpdateColorTable p = Done p'
    /\ trace_ p' = trace_ p ++ [ColorTableUpdated]
    /\ lut_inputs_ready p' = true
    /\ momentDataBlock0_ p' = Some m.
Proof.
  intros Hready Hm Hnan.
  assert (Hkey : lut_key_saved p = false).
  { unfold lut_key_saved. rewrite Hm.
    apply orb_prop in Hnan as [Hnan|Hnan].
    - rewrite (float_eqb_nan _ _ Hnan). apply andb_false_r.
    - rewrite (float_eqb_nan _ _ Hnan).
      rewrite andb_false_r. reflexivity. }
  destruct (UpdateColorTable_miss p Hready Hkey)
    as (m' & a & lut' & Hm' & Ha & Hrun & _).
  eexists. split; [exact Hrun |]. cbn.
  split; [reflexivity |]. split; [| exact Hm].
  unfold lut_inputs_ready in *. cbn. exact Hready.
Qed.

(** X7: [ComputeSweep] ends with [UpdateColorTable], so a completed sweep
    leaves the colour table in step with its reference block: unless the
    scale or the offset of the first radial's moment block is a NaN, a
    further [UpdateColorTable] changes nothing. *)
Theorem sweep_leaves_lut_in_step (fuel : nat)
    (p p' : Level2ProductViewImpl) (radarData0 : DigitalRadarData)
    (rest : list DigitalRadarData) (momentData0 : MomentDataBlock) :
  dataBlockType_ p <> Unknown ->
  radar_data p = radarData0 :: rest ->
  moment_data_block radarData0 (dataBlockType_ p) = Some momentData0 ->
  Float32.isnan (scale momentData0) = false ->
  Float32.isnan (offset momentData0) = false ->
  ComputeSweep fuel p = Done p' ->
  momentDataBlock0_ p' = Some momentData0
  /\ UpdateColorTable p' = Done p'
  /\ (lut_inputs_ready p' = true -> lut_key_saved p' = true).
Proof.
  intros Hknown Hdata Hblock Hscale Hoffset Hrun.
  destruct (ComputeSweep_Done_lut _ _ _ _ _ _ Hknown Hdata Hblock Hrun)
    as (q & Hq & Hm & _).
  assert (Hm' : momentDataBlock0_ p' = Some momentData0).
  { destruct (UpdateColorTable_frame q) as (q' & Hq' & _ & _ & _ & Hfm & _).
    rewrite Hq in Hq'. injection Hq' as <-. rewrite Hfm. exact Hm. }
  assert (Hidem : UpdateColorTable p' = Done p').
  { apply (UpdateColorTable_settles q); [| exact Hq].
    intros m. rewrite Hm. intros [= <-]. split; assumption. }
  split; [exact Hm' |]. split; [exact Hidem |].
  intros Hready. destruct (lut_key_saved p') eqn:Hkey; [reflexivity |].
  destruct (UpdateColorTable_miss p' Hready Hkey)
    as (m' & a & lut' & _ & _ & Hmiss & _).
  rewrite Hmiss in Hidem. injection Hidem as Hidem.
  apply (f_equal trace_) in Hidem. cbn in Hidem.
  apply (f_equal length) in Hidem. rewrite length_app in Hidem.
  cbn in Hidem. lia.
Qed.

(** X8: the colour table over the first sweep of a view.  A colour table
    loaded into a freshly constructed view is only stored: there is no
    reference block yet, and [color_table] still hands out the base class's
    table.  The first completed sweep then builds the table for the
    product's range of raw values, from the scale and offset of the first
    radial's moment block, and raises "colour table updated" once, after
    "sweep computed"; from then on [color_table] hands out the built
    table. *)
Theorem first_sweep_builds_lut (product : Level2Product)
    (mgr : RadarProductManager) (s o : float) (a : address)
    (base : list rgba8_pixel_t) (fuel : nat) (p' : Level2ProductViewImpl)
    (radarData0 : DigitalRadarData) (rest : list DigitalRadarData)
    (momentData0 : MomentDataBlock) :
  let p0 := new_Level2ProductViewImpl product mgr s o in
  let p1 := set_colorTable (Some a) p0 in
  let rangeMin := (product_range product).1 in
  let rangeMax := (product_range product).2 in
  is_Some (blockTypes_ product) ->
  IsValid (colorTables a) = true ->
  radar_data p0 = radarData0 :: rest ->
  moment_data_block radarData0 (dataBlockType_ p0) = Some momentData0 ->
  ComputeSweep fuel p1 = Done p' ->
  LoadColorTable (Some a) p0 = Done p1
  /\ color_table base p1 = base
  /\ color_table base p' = colorTableLut_ p'
  /\ Z.of_nat (length (colorTableLut_ p')) = rangeMax - rangeMin + 1
  /\ (forall i, rangeMin <= i < rangeMax ->
        colorTableLut_ p' !! Z.to_nat (i - rangeMin)
        = Some (Color (colorTables a)
                  (Float32.div
                     (Float32.sub (Float32.of_Z i) (offset momentData0))
                     (scale momentData0))))
  /\ trace_ p'
     = sweep_warnings_from (dataBlockType_ p0) momentData0 0
                           (radarData0 :: rest)
       ++ [SweepComputed; ColorTableUpdated].
Proof.
  intros p0 p1 rangeMin rangeMax [t Ht] Hvalid Hdata Hblock Hrun.
  assert (Hknown : dataBlockType_ p1 <> Unknown).
  { cbn. rewrite Ht. destruct product; cbn in Ht; congruence. }
  split; [reflexivity |]. split; [reflexivity |].
  destruct (ComputeSweep_Done_lut fuel p1 p' radarData0 rest momentData0
              Hknown Hdata Hblock Hrun)
    as (q & Hq & Hm & Hprod & Hct & Hlut & Hsaved & _ & _ & _ & Htrace).
  cbn [colorTable_ set_colorTable p1] in Hct.
  assert (Hready : lut_inputs_ready q = true)
    by (unfold lut_inputs_ready; rewrite Hm, Hct; exact Hvalid).
  assert (Hkey : lut_key_saved q = false).
  { unfold lut_key_saved. rewrite Hm, Hsaved, Hct. cbn.
    rewrite bool_decide_eq_false_2 by discriminate. reflexivity. }
  destruct (UpdateColorTable_miss q Hready Hkey)
    as (m & a' & lut' & Hm' & Ha' & Hmiss & Hlen & Hset & _).
  cbn zeta in Hlen, Hset. rewrite Hm in Hm'. injection Hm' as <-.
  rewrite Hct in Ha'. injection Ha' as <-. rewrite Hprod in Hlen, Hset.
  change (product_ p1) with product in Hlen, Hset.
  fold rangeMin rangeMax in Hlen, Hset.
  rewrite Hmiss in Hq. injection Hq as <-.
  cbn [colorTableLut_ record_events set_lut trace_].
  pose proof (product_range_ordered product) as Hord.
  fold rangeMin rangeMax in Hord.
  split.
  { unfold color_table. cbn [colorTableLut_ record_events set_lut].
    destruct (decide (length lut' = 0%nat)); [lia | reflexivity]. }
  split; [exact Hlen |]. split; [exact Hset |].
  rewrite Htrace. cbn [trace_ set_colorTable p1 p0 new_Level2ProductViewImpl].
  rewrite Ht. cbn [app dataBlockType_ set_colorTable].
  rewrite <- app_assoc. reflexivity.
Qed.

(** X9: the reference block is replaced before it is checked.  When the
    first radial lacks the moment block, [ComputeSweep] returns with the
    previous sweep kept but with no reference block: the colour table built
    so far stays, and a colour table loaded afterwards is only stored, with
    no rebuild and no signal, until a later sweep succeeds. *)
Theorem failed_sweep_drops_reference_block (fuel : nat)
    (p : Level2ProductViewImpl) (radarData0 : DigitalRadarData)
    (rest : list DigitalRadarData) (c : option address) :
  dataBlockType_ p <> Unknown ->
  radar_data p = radarData0 :: rest ->
  moment_data_block radarData0 (dataBlockType_ p) = None ->
  exists p',
    ComputeSweep fuel p = Done p'
    /\ momentDataBlock0_ p' = None
    /\ colorTableLut_ p' = colorTableLut_ p
    /\ LoadColorTable c p' = Done (set_colorTable c p').
Proof.
  intros Hknown Hdata Hblock. unfold ComputeSweep. fold (radar_data p).
  destruct (decide (dataBlockType_ p = Unknown)); [contradiction |].
  rewrite Hdata.
  cbn [momentDataBlock0_ set_momentDataBlock0 dataBlockType_ product_
       radarProductManager_].
  rewrite Hblock. eexists. split; [reflexivity |].
  split; [reflexivity |]. split; [reflexivity |].
  unfold LoadColorTable. apply UpdateColorTable_not_ready. reflexivity.
Qed.

(** *** What the accessors hand out after a sweep *)

Lemma ComputeSweep_sweep_time (fuel : nat) (p p' : Level2ProductViewImpl)
    (radarData0 : DigitalRadarData) (rest : list DigitalRadarData)
    (momentData0 : MomentDataBlock) :
  dataBlockType_ p <> Unknown ->
  radar_data p = radarData0 :: rest ->
  moment_data_block radarData0 (dataBlockType_ p) = Some momentData0 ->
  ComputeSweep fuel p = Done p' ->
  sweepTime_ p'
  = TimePoint (modified_julian_date radarData0) (collection_time radarData0).
Proof.
  intros Hknown Hdata Hblock Hrun.
  destruct (ComputeSweep_Done_lut _ _ _ _ _ _ Hknown Hdata Hblock Hrun)
    as (q & Hq & _ & _ & _ & _ & _ & _ & _ & Htime & _).
  destruct (UpdateColorTable_frame q)
    as (q' & Hq' & _ & _ & _ & _ & _ & _ & Hft & _).
  rewrite Hq in Hq'. injection Hq' as <-. rewrite Hft. exact Htime.
Qed.

(** X10: [GetMomentData] after a completed sweep.  The buffer holds the raw
    values of the rendered bins, and the size in bytes is the number of
    values times the component size.  The component size is chosen by
    which buffer is empty, not by the word size: it is 1 for an 8-bit sweep
    that rendered a bin and 2 otherwise, also for an 8-bit sweep none of
    whose bins reached the threshold. *)
Theorem moment_data_after_sweep (fuel : nat)
    (p p' : Level2ProductViewImpl) (radarData0 : DigitalRadarData)
    (rest : list DigitalRadarData) (momentData0 : MomentDataBlock) :
  dataBlockType_ p <> Unknown ->
  radar_data p = radarData0 :: rest ->
  moment_data_block radarData0 (dataBlockType_ p) = Some momentData0 ->
  ComputeSweep fuel p = Done p' ->
  let bins := sweep_bins (dataBlockType_ p) momentData0 (radar_data p) in
  let componentSize :=
    match bins with
    | [] => 2
    | _ :: _ => if data_word_size momentData0 =? 8 then 1 else 2
    end in
  GetMomentData p'
  = (flat_map bin_values bins,
     Z.of_nat (length (flat_map bin_values bins)) * componentSize,
     componentSize).
Proof.
  intros Hknown Hdata Hblock Hrun. cbn zeta. rewrite Hdata.
  destruct (ComputeSweep_Done _ _ _ _ _ _ Hknown Hdata Hblock Hrun)
    as (v0 & _ & _ & _ & _ & Hms & _).
  cbn zeta in Hms. unfold GetMomentData.
  destruct (sweep_bins (dataBlockType_ p) momentData0 (radarData0 :: rest))
    as [|b bins] eqn:Hbins.
  - cbn [flat_map] in *.
    destruct (data_word_size momentData0 =? 8); destruct Hms as [-> ->];
      reflexivity.
  - assert (Hpos : (0 < length (flat_map bin_values (b :: bins)))%nat).
    { cbn [flat_map]. rewrite length_app, length_bin_values.
      unfold vertex_count. destruct (0 <? bin_gate b); lia. }
    destruct (data_word_size momentData0 =? 8); destruct Hms as [-> ->].
    + destruct (decide (0 < length (flat_map bin_values (b :: bins)))%nat);
        [reflexivity | contradiction].
    + reflexivity.
Qed.

(** X11: [sweep_time] after a completed sweep is the date and time of day
    of the FIRST radial, whatever the later radials carry: day 1 of the
    radar's date count is the day of the epoch, and the time of day is
    added in milliseconds. *)
Theorem sweep_time_of_first_radial (fuel : nat)
    (p p' : Level2ProductViewImpl) (radarData0 : DigitalRadarData)
    (rest : list DigitalRadarData) (momentData0 : MomentDataBlock) :
  dataBlockType_ p <> Unknown ->
  radar_data p = radarData0 :: rest ->
  moment_data_block radarData0 (dataBlockType_ p) = Some momentData0 ->
  ComputeSweep fuel p = Done p' ->
  sweep_time p'
  = (modified_julian_date radarData0 - 1) * 86400000
    + collection_time radarData0.
Proof.
  intros Hknown Hdata Hblock Hrun. unfold sweep_time.
  rewrite (ComputeSweep_sweep_time _ _ _ _ _ _ Hknown Hdata Hblock Hrun).
  unfold TimePoint. lia.
Qed.

(** X12: a sweep does not depend on what the view held before.  The
    raw-value buffer is resized without being cleared, and the vertex
    buffer is reused; all the same, two views of the same product and
    manager, whatever their buffers, colour tables and saved keys, end
    alike: when one synthesizes a sweep so does the other, with the same
    vertices, raw values, origin and sweep time. *)
Theorem sweep_ignores_previous_state (fuel : nat)
    (p q p' : Level2ProductViewImpl) (radarData0 : DigitalRadarData)
    (rest : list DigitalRadarData) (momentData0 : MomentDataBlock) :
  dataBlockType_ q = dataBlockType_ p ->
  radarProductManager_ q = radarProductManager_ p ->
  dataBlockType_ p <> Unknown ->
  radar_data p = radarData0 :: rest ->
  moment_data_block radarData0 (dataBlockType_ p) = Some momentData0 ->
  (length (radar_data p) + Z.to_nat (to_u16 MAX_DATA_MOMENT_GATES) + 1
   < fuel)%nat ->
  ComputeSweep fuel p = Done p' ->
  exists q',
    ComputeSweep fuel q = Done q'
    /\ vertices q' = vertices p'
    /\ GetMomentData q' = GetMomentData p'
    /\ latitude_ q' = latitude_ p' /\ longitude_ q' = longitude_ p'
    /\ sweep_time q' = sweep_time p'.
Proof.
  intros Hdbt Hmgr Hknown Hdata Hblock Hfuel Hrun.
  pose proof (ComputeSweep_reads _ _ _ _ _ _ Hknown Hdata Hblock Hrun)
    as Hread.
  pose proof (ComputeSweep_sweep_time _ _ _ _ _ _ Hknown Hdata Hblock Hrun)
    as Htime.
  destruct (ComputeSweep_Done _ _ _ _ _ _ Hknown Hdata Hblock Hrun)
    as (v0 & Hv0 & Hlen & _ & Hvs & Hms & _ & _ & _ & Hlat & Hlon & _).
  cbn zeta in Hlen, Hvs, Hms.
  assert (Hdata' : radar_data q = radar_data p)
    by (unfold radar_data; rewrite Hdbt, Hmgr; reflexivity).
  assert (Hcoord : sweep_coordinates q = sweep_coordinates p)
    by (unfold sweep_coordinates; rewrite Hdata', Hmgr; reflexivity).
  assert (Hknown' : dataBlockType_ q <> Unknown) by (rewrite Hdbt; exact Hknown).
  assert (Hblock' : moment_data_block radarData0 (dataBlockType_ q)
                    = Some momentData0) by (rewrite Hdbt; exact Hblock).
  destruct (ComputeSweep_ends fuel q radarData0 rest momentData0)
    as [q' Hrun']; try assumption.
  - rewrite Hdata'. exact Hdata.
  - rewrite Hv0. eauto.
  - rewrite Hdata', Hdata. exact Hlen.
  - unfold sweep_readable in *. rewrite Hdata', Hcoord, Hdbt. exact Hread.
  - rewrite Hdata'. exact Hfuel.
  - exists q'. split; [exact Hrun' |].
    rewrite Hdata in Hdata'.
    pose proof (ComputeSweep_sweep_time _ _ _ _ _ _ Hknown' Hdata' Hblock'
                  Hrun') as Htime'.
    destruct (ComputeSweep_Done _ _ _ _ _ _ Hknown' Hdata' Hblock' Hrun')
      as (v0' & Hv0' & _ & _ & Hvs' & Hms' & _ & _ & _ & Hlat' & Hlon' & _).
    cbn zeta in Hvs', Hms'. rewrite Hv0 in Hv0'. injection Hv0' as <-.
    rewrite Hcoord, Hdbt in *.
    unfold vertices, sweep_time, GetMomentData.
    assert (dataMoments8_ q' = dataMoments8_ p'
            /\ dataMoments16_ q' = dataMoments16_ p') as [-> ->]
      by (destruct (data_word_size momentData0 =? 8);
          destruct Hms as [-> ->]; destruct Hms' as [-> ->];
          split; reflexivity).
    repeat split; congruence.
Qed.

(** X13: loading a colour table never disturbs the sweep.  [LoadColorTable]
    always returns (the table's elements it writes all exist), stores the
    pointer it is given, and leaves the vertices, the raw values, the
    origin, the sweep time and the reference block as they were. *)
Theorem color_table_load_keeps_sweep (c : option address)
    (p : Level2ProductViewImpl) :
  exists p',
    LoadColorTable c p = Done p'
    /\ colorTable_ p' = c
    /\ vertices p' = vertices p
    /\ GetMomentData p' = GetMomentData p
    /\ latitude_ p' = latitude_ p /\ longitude_ p' = longitude_ p
    /\ sweep_time p' = sweep_time p
    /\ momentDataBlock0_ p' = momentDataBlock0_ p.
Proof.
  unfold LoadColorTable. set (p1 := set_colorTable c p).
  assert (Hcases : UpdateColorTable p1 = Done p1
                   \/ exists lut' a sc off,
                        UpdateColorTable p1
                        = Done (record_events [ColorTableUpdated]
                                  (set_lut lut' a sc off p1))).
  { destruct (lut_inputs_ready p1) eqn:Hready.
    - destruct (lut_key_saved p1) eqn:Hkey.
      + left. apply UpdateColorTable_hit; assumption.
      + right. destruct (UpdateColorTable_miss p1 Hready Hkey)
          as (m & a & lut' & _ & _ & Hrun & _). eauto.
    - left. apply UpdateColorTable_not_ready. exact Hready. }
  destruct Hcases as [Hrun|(lut' & a & sc & off & Hrun)];
    eexists; (split; [exact Hrun |]); cbn; tauto.
Qed.

(** *** A radial that starts behind the origin *)

Lemma start_gate_behind_origin (m : MomentDataBlock) :
  starts_behind_origin m = true -> 65405 <= start_gate m.
Proof.
  unfold starts_behind_origin, start_gate. intros H%Z.leb_le.
  pose proof (to_u16_range (data_moment_range_raw m)) as Hr.
  pose proof (to_u16_range
                (to_u16 (data_moment_range_sample_interval_raw m) ÷ 2)) as Hh.
  pose proof (to_u16_range (data_moment_range_sample_interval_raw m)) as Hi.
  set (range := to_u16 (data_moment_range_raw m)) in *.
  set (interval := to_u16 (data_moment_range_sample_interval_raw m)) in *.
  assert (Hhalf : to_u16 (interval ÷ 2) <= 32767).
  { rewrite Z.quot_div_nonneg by lia.
    rewrite to_u16_small; Z.to_euclidean_division_equations; lia. }
  set (half := to_u16 (interval ÷ 2)) in *.
  assert (Hq : -131 <= (range - half) ÷ 250 <= -1).
  { rewrite <- (Z.opp_involutive (range - half)), Z.quot_opp_l by lia.
    rewrite Z.quot_div_nonneg by lia.
    Z.to_euclidean_division_equations; lia. }
  unfold to_u16.
  replace ((range - half) ÷ 250)
    with (((range - half) ÷ 250 + 65536) + (-1) * 2 ^ 16) by lia.
  rewrite Z.mod_add by lia. rewrite Z.mod_small by lia. lia.
Qed.

Lemma radial_bins_behind_origin (snrThreshold : Z)
    (dataBlockType : DataBlockType) (momentData0 : MomentDataBlock)
    (gates radial : Z) (radialData : DigitalRadarData) :
  to_u16 MAX_DATA_MOMENT_GATES <= 65405 ->
  (forall m, moment_data_block radialData dataBlockType = Some m ->
             starts_behind_origin m = true) ->
  radial_bins snrThreshold dataBlockType momentData0 gates radial radialData
  = [].
Proof.
  intros Hmax Hbehind. unfold radial_bins.
  destruct (moment_data_block radialData dataBlockType) as [m|];
    [| reflexivity].
  destruct (data_word_size momentData0 =? data_word_size m); [| reflexivity].
  pose proof (start_gate_behind_origin m (Hbehind m eq_refl)) as Hstart.
  pose proof (gate_size_pos m) as Hsz.
  assert (Hend : end_gate gates m <= 65405) by (unfold end_gate; lia).
  unfold gate_count.
  rewrite (gate_count_stop (gate_size m) (start_gate m) (end_gate gates m))
    by lia.
  reflexivity.
Qed.

Lemma sweep_bins_from_behind_origin (snrThreshold : Z)
    (dataBlockType : DataBlockType) (momentData0 : MomentDataBlock)
    (gates : Z) (radarData : list DigitalRadarData) :
  to_u16 MAX_DATA_MOMENT_GATES <= 65405 ->
  Forall (fun r => forall m,
            moment_data_block r dataBlockType = Some m ->
            starts_behind_origin m = true)
         radarData ->
  forall radial,
    sweep_bins_from snrThreshold dataBlockType momentData0 gates radial
                    radarData = [].
Proof.
  intros Hmax Hall.
  induction Hall as [|r rs Hr _ IH]; intros radial; cbn [sweep_bins_from];
    [reflexivity |].
  rewrite radial_bins_behind_origin by assumption. apply IH.
Qed.

(** X14: the start gate is kept in 16 bits.  For a radial whose first gate
    lies 250 m or more short of half a gate interval the quotient is
    negative and wraps to 65405 or more, beyond any end gate (the table
    having at most 65405 gate columns), so the radial renders nothing: a
    completed sweep all of whose radials are such has no vertex and no raw
    value. *)
Theorem sweep_behind_origin_is_empty (fuel : nat)
    (p p' : Level2ProductViewImpl) (radarData0 : DigitalRadarData)
    (rest : list DigitalRadarData) (momentData0 : MomentDataBlock) :
  to_u16 MAX_DATA_MOMENT_GATES <= 65405 ->
  dataBlockType_ p <> Unknown ->
  radar_data p = radarData0 :: rest ->
  moment_data_block radarData0 (dataBlockType_ p) = Some momentData0 ->
  Forall (fun r => forall m,
            moment_data_block r (dataBlockType_ p) = Some m ->
            starts_behind_origin m = true)
         (radar_data p) ->
  ComputeSweep fuel p = Done p' ->
  vertices p' = [] /\ raw_values p' = [].
Proof.
  intros Hmax Hknown Hdata Hblock Hall Hrun.
  destruct (ComputeSweep_Done _ _ _ _ _ _ Hknown Hdata Hblock Hrun)
    as (v0 & _ & _ & _ & Hvs & Hms & _).
  cbn zeta in Hvs, Hms. apply raw_values_after_sweep in Hms.
  rewrite Hdata in Hall.
  assert (Hbins : sweep_bins (dataBlockType_ p) momentData0
                             (radarData0 :: rest) = []).
  { unfold sweep_bins. apply sweep_bins_from_behind_origin; assumption. }
  unfold vertices. rewrite Hvs, Hms, Hbins. split; reflexivity.
Qed.

(** *** The first radial *)

(** X15: the volume block of the first radial is used unchecked.  When the
    first radial carries the moment block and no volume block,
    [ComputeSweep] dereferences the null block, whatever the fuel: it
    neither returns early nor synthesizes a sweep. *)
Theorem sweep_without_volume_block_faults (fuel : nat)
    (p : Level2ProductViewImpl) (radarData0 : DigitalRadarData)
    (rest : list DigitalRadarData) (momentData0 : MomentDataBlock) :
  dataBlockType_ p <> Unknown ->
  radar_data p = radarData0 :: rest ->
  moment_data_block radarData0 (dataBlockType_ p) = Some momentData0 ->
  volume_data_block radarData0 = None ->
  ComputeSweep fuel p = Fault NullDereference.
Proof.
  intros Hknown Hdata Hblock Hvol. unfold ComputeSweep. fold (radar_data p).
  destruct (decide (dataBlockType_ p = Unknown)); [contradiction |].
  rewrite Hdata.
  cbn [momentDataBlock0_ set_momentDataBlock0 dataBlockType_ product_
       radarProductManager_].
  rewrite Hblock, Hvol. reflexivity.
Qed.

(** X16: the multiplier that turns the first radial's azimuth into its
    slot of the coordinate table is 2 or 1, whatever the spacing code: 2
    for a code that reads, as a signed byte, 1 or less (the half-degree
    code 1, but also 0 and the codes 128 to 255, which read negative), and
    1 for every other code.  The division is never by zero. *)
Theorem radial_multiplier_is_2_or_1 (r : DigitalRadarData) :
  radial_multiplier r
  = Float32.of_Z (if to_i8 (azimuth_resolution_spacing r) <=? 1 then 2 else 1).
Proof.
  unfold radial_multiplier, clamp.
  set (spacing := to_i8 (azimuth_resolution_spacing r)).
  destruct (Z.ltb_spec spacing 1) as [Hlt|Hge].
  - destruct (Z.leb_spec spacing 1); [| lia]. vm_compute. reflexivity.
  - destruct (Z.ltb_spec 2 spacing) as [Hgt|Hle].
    + destruct (Z.leb_spec spacing 1); [lia |]. vm_compute. reflexivity.
    + assert (Hcases : spacing = 1 \/ spacing = 2) by lia.
      destruct Hcases as [-> | ->]; vm_compute; reflexivity.
Qed.

(** *** Radial slots and the table the sweep selects *)

Lemma sweep_readable_from_bins (coordinates : list float)
    (snrThreshold startRadial : Z) (dataBlockType : DataBlockType)
    (momentData0 : MomentDataBlock) (gates : Z) (b : bin) :
  forall (radarData : list DigitalRadarData) (radial : Z),
    sweep_readable_from coordinates snrThreshold startRadial dataBlockType
                        momentData0 gates radial radarData = true ->
    b ∈ sweep_bins_from snrThreshold dataBlockType momentData0 gates radial
                        radarData ->
    bin_in_table coordinates startRadial b = true.
Proof.
  induction radarData as [|r radarData IH]; intros radial Hread Hb;
    cbn [sweep_readable_from sweep_bins_from] in *.
  - apply elem_of_nil in Hb. contradiction.
  - apply andb_prop in Hread as [Hr Hrest].
    apply elem_of_app in Hb as [Hb|Hb]; [| exact (IH _ Hrest Hb)].
    unfold radial_readable in Hr. unfold radial_bins in Hb.
    destruct (moment_data_block r dataBlockType) as [m|]; [| discriminate].
    destruct (data_word_size momentData0 =? data_word_size m).
    + apply andb_prop in Hr as [_ Hr].
      rewrite forallb_forall in Hr. apply Hr, list_elem_of_In. exact Hb.
    + apply elem_of_nil in Hb. contradiction.
Qed.

(** On a run that ends, every lookup has stayed inside the table: a table
    of [slots] radial slots is addressed at slots below [slots] only. *)
Lemma lookups_inside_table (fuel : nat) (slots : Z)
    (p p' : Level2ProductViewImpl) (radarData0 : DigitalRadarData)
    (rest : list DigitalRadarData) (momentData0 : MomentDataBlock) :
  0 < MAX_RADIALS ->
  0 < MAX_DATA_MOMENT_GATES ->
  table_of_slots slots (sweep_coordinates p) ->
  dataBlockType_ p <> Unknown ->
  radar_data p = radarData0 :: rest ->
  moment_data_block radarData0 (dataBlockType_ p) = Some momentData0 ->
  ComputeSweep fuel p = Done p' ->
  forall (b : bin) (sc : Z * Z),
    b ∈ sweep_bins (dataBlockType_ p) momentData0 (radar_data p) ->
    sc ∈ bin_lookups (start_radial radarData0) b ->
    0 <= sc.1 < slots.
Proof.
  intros Hmax Hgates Htable Hknown Hdata Hblock Hrun b sc Hb Hsc.
  destruct (lookup_slots_of_sweep _ _ _ _ _ _ Hknown Hdata Hblock Hrun)
    as (_ & _ & Hall).
  cbn zeta in Hall. rewrite Forall_forall in Hall.
  destruct (Hall b Hb) as (r & _ & _ & Hlook).
  rewrite Forall_forall in Hlook. destruct (Hlook sc Hsc) as [Hslot Hcol].
  assert (H0 : 0 <= sc.1)
    by (destruct Hslot as [-> | ->]; apply Z.mod_pos_bound; exact Hmax).
  split; [exact H0 |].
  pose proof (ComputeSweep_reads _ _ _ _ _ _ Hknown Hdata Hblock Hrun)
    as Hread.
  unfold sweep_readable in Hread. unfold sweep_bins in Hb.
  pose proof (sweep_readable_from_bins _ _ _ _ _ _ _ _ _ Hread Hb) as Hin.
  unfold bin_in_table in Hin. rewrite forallb_forall in Hin.
  apply list_elem_of_In in Hsc. apply Hin in Hsc.
  apply andb_prop in Hsc as [_ Hsc%Z.ltb_lt].
  unfold table_of_slots in Htable. unfold coordinate_offset in Hsc.
  nia.
Qed.

Lemma mod_within_slots (x : Z) (size : RadialSize) :
  x mod 720 < radial_slots size -> x mod 720 = x mod radial_slots size.
Proof.
  destruct size; cbn [radial_slots]; intros H; [reflexivity |].
  Z.to_euclidean_division_equations. lia.
Qed.


End View.

(** ** The properties on sample sweeps *)

Local Abbreviation sample_sweep :=
  (ComputeSweep Sample.MAX_RADIALS Sample.MAX_DATA_MOMENT_GATES
                Sample.color_tables).

Lemma completed_Done (r : result Level2ProductViewImpl)
    (p : Level2ProductViewImpl) :
  Sample.ends r = true -> r = Done (Sample.completed r p).
Proof. destruct r; cbn; [reflexivity | discriminate | discriminate]. Qed.

(** C1 fails as stated: the second radial's own threshold is 100, and its
    sample 50 is emitted all the same (three times, for the three vertices
    of its bin at gate 0). *)
Lemma C1_threshold_is_not_per_radial :
  let p := Sample.view Reflectivity Sample.slots_table Sample.two_thresholds in
  let run := sample_sweep 4 p in
  Sample.ends run = true
  /\ raw_values (Sample.completed run p) = [60; 60; 60; 50; 50; 50]
  /\ snr_threshold (Sample.block 8 100 1 125 250 [50]) = 100
  /\ snr_threshold (Sample.block 8 0 1 125 250 [60]) = 0.
Proof. vm_compute. repeat split. Qed.

Lemma C1_threshold_of_first_radial_witness :
  let p := Sample.view Reflectivity Sample.slots_table Sample.two_thresholds in
  let p' := Sample.completed (sample_sweep 4 p) p in
  let momentData0 := Sample.block 8 0 1 125 250 [60] in
  (dataBlockType_ p <> Unknown /\ sample_sweep 4 p = Done p')
  /\ Forall (fun v => snr_threshold momentData0 <= v) (raw_values p').
Proof.
  intros p p' momentData0.
  assert (Hknown : dataBlockType_ p <> Unknown) by discriminate.
  assert (Hrun : sample_sweep 4 p = Done p')
    by (apply completed_Done; vm_compute; reflexivity).
  split; [split; assumption |].
  exact (proj2 (proj2
    (C1_threshold_of_first_radial
       Sample.MAX_RADIALS Sample.MAX_DATA_MOMENT_GATES Sample.color_tables
       4 p p'
       (Sample.radial 0 1 (Some momentData0))
       [Sample.radial 0 1 (Some (Sample.block 8 100 1 125 250 [50]))]
       momentData0 Hknown eq_refl eq_refl Hrun))).
Defined.

Lemma C3_buffer_lengths_witness :
  let p := Sample.view Reflectivity Sample.slots_table Sample.one_radial in
  let p' := Sample.completed (sample_sweep 4 p) p in
  (dataBlockType_ p <> Unknown /\ sample_sweep 4 p = Done p')
  /\ Z.of_nat (length (vertices p')) mod 2 = 0
  /\ Z.of_nat (length (vertices p'))
     <= Z.of_nat (length (radar_data p))
        * to_u32 (number_of_data_moment_gates Sample.near_block)
        * VERTICES_PER_BIN * VALUES_PER_VERTEX
  /\ Z.of_nat (length (raw_values p')) = Z.of_nat (length (vertices p')) / 2.
Proof.
  intros p p'.
  assert (Hknown : dataBlockType_ p <> Unknown) by discriminate.
  assert (Hrun : sample_sweep 4 p = Done p')
    by (apply completed_Done; vm_compute; reflexivity).
  split; [split; assumption |].
  exact (C3_buffer_lengths
           Sample.MAX_RADIALS Sample.MAX_DATA_MOMENT_GATES Sample.color_tables
           4 p p' (Sample.radial 0 1 (Some Sample.near_block)) []
           Sample.near_block Hknown eq_refl eq_refl Hrun).
Defined.

Lemma C4_bin_shape_witness :
  let p := Sample.view Reflectivity Sample.slots_table Sample.one_radial in
  let p' := Sample.completed (sample_sweep 4 p) p in
  (dataBlockType_ p <> Unknown /\ sample_sweep 4 p = Done p')
  /\ (vertices p'
      = flat_map (bin_vertices Sample.MAX_RADIALS Sample.MAX_DATA_MOMENT_GATES
                    (sweep_coordinates p) (latitude_ p') (longitude_ p')
                    (start_radial (Sample.radial 0 1 (Some Sample.near_block))))
                 (sweep_bins Sample.MAX_DATA_MOMENT_GATES (dataBlockType_ p)
                             Sample.near_block
                             (radar_data p))
      /\ raw_values p'
         = flat_map bin_values
             (sweep_bins Sample.MAX_DATA_MOMENT_GATES (dataBlockType_ p)
                             Sample.near_block (radar_data p)))
  /\ Float32.lroundf <$> vertices p'
     = [35; -97; 0; 1; 3680; 3681;
        0; 1; 2; 3; 3680; 3681; 3680; 3681; 3682; 3683; 2; 3]
  /\ raw_values p' = [50; 50; 50; 60; 60; 60; 60; 60; 60].
Proof.
  intros p p'.
  assert (Hknown : dataBlockType_ p <> Unknown) by discriminate.
  assert (Hrun : sample_sweep 4 p = Done p')
    by (apply completed_Done; vm_compute; reflexivity).
  split; [split; assumption |].
  destruct (C4_bin_shape
              Sample.MAX_RADIALS Sample.MAX_DATA_MOMENT_GATES
              Sample.color_tables
              4 p p' (Sample.radial 0 1 (Some Sample.near_block)) []
              Sample.near_block Hknown eq_refl eq_refl Hrun)
    as (_ & Hvs & Hms & _).
  split; [split; assumption |].
  split; vm_compute; reflexivity.
Defined.

(** C5 fails as stated: with the 16-bit radial in the middle, the third
    radial's triangle is looked up at radial slots 2 and 3 (offsets 7360 and
    11040); on the same input without the 16-bit radial it is looked up at
    slots 1 and 2 (offsets 3680 and 7360).  The raw values agree. *)
Lemma C5_later_radials_move_with_removal :
  let p :=
    Sample.view Reflectivity Sample.slots_table Sample.mixed_word_sizes in
  let q :=
    Sample.view Reflectivity Sample.slots_table Sample.without_mismatch in
  let p' := Sample.completed (sample_sweep 8 p) p in
  let q' := Sample.completed (sample_sweep 8 q) q in
  Sample.ends (sample_sweep 8 p) = true
  /\ Sample.ends (sample_sweep 8 q) = true
  /\ Float32.lroundf <$> vertices p'
     = [35; -97; 0; 1; 3680; 3681; 35; -97; 7360; 7361; 11040; 11041]
  /\ Float32.lroundf <$> vertices q'
     = [35; -97; 0; 1; 3680; 3681; 35; -97; 3680; 3681; 7360; 7361]
  /\ raw_values p' = [60; 60; 60; 70; 70; 70]
  /\ raw_values q' = [60; 60; 60; 70; 70; 70].
Proof. vm_compute. repeat split. Qed.

Lemma C5_word_size_mismatch_witness :
  let p :=
    Sample.view Reflectivity Sample.slots_table Sample.mixed_word_sizes in
  (dataBlockType_ p <> Unknown
   /\ radar_data p
      = [Sample.radial 0 1 (Some Sample.first_block)]
        ++ Sample.radial 0 1 (Some Sample.wide_block)
           :: [Sample.radial 1 1 (Some Sample.last_block)]
   /\ data_word_size Sample.wide_block
      <> data_word_size Sample.first_block)
  /\ exists p', sample_sweep 1850 p = Done p'.
Proof.
  intros p.
  assert (Hknown : dataBlockType_ p <> Unknown) by discriminate.
  assert (Hne : data_word_size Sample.wide_block
                <> data_word_size Sample.first_block) by discriminate.
  split; [repeat split; [exact Hknown | exact Hne] |].
  refine (proj1 (proj2
    (C5_word_size_mismatch
       Sample.MAX_RADIALS Sample.MAX_DATA_MOMENT_GATES Sample.color_tables
       1850 p (Sample.radial 0 1 (Some Sample.first_block)) []
       (Sample.radial 0 1 (Some Sample.wide_block))
       [Sample.radial 1 1 (Some Sample.last_block)]
       Sample.first_block Sample.wide_block
       Hknown eq_refl eq_refl eq_refl Hne)) _ _ _ _ _).
  - eexists. reflexivity.
  - vm_compute. discriminate.
  - vm_compute. reflexivity.
  - vm_compute. reflexivity.
  - apply Nat.ltb_lt. vm_compute. reflexivity.
Defined.

Lemma C6_early_return_keeps_sweep_witness :
  let p := Sample.view Reflectivity [] [] in
  radar_data p = []
  /\ exists p',
       sample_sweep 0 p = Done p'
       /\ vertices_ p' = vertices_ p
       /\ dataMoments8_ p' = dataMoments8_ p
       /\ dataMoments16_ p' = dataMoments16_ p
       /\ raw_values p' = raw_values p
       /\ (trace_ p' = trace_ p
           \/ trace_ p'
              = trace_ p ++ [LogWarning (NoMomentData (product_ p))]).
Proof.
  intros p. split; [reflexivity |].
  exact (proj2 (C6_early_return_keeps_sweep
                  Sample.MAX_RADIALS Sample.MAX_DATA_MOMENT_GATES
                  Sample.color_tables)
               0%nat p (or_intror (or_introl eq_refl))).
Defined.



(** C2 holds for every raw value but the last: after a rebuild for a
    reflectivity view the table has 254 entries, entry 252 is the colour of
    raw value 254, and entry 253 is not the colour of raw value 255 but the
    zero pixel the resize put there.  [boost::irange(rangeMin, rangeMax)]
    ends before [rangeMax]. *)
Lemma C2_last_lut_entry_is_not_written :
  let p0 := Sample.view Reflectivity Sample.slots_table Sample.one_radial in
  let p := Sample.completed (sample_sweep 4 p0) p0 in
  let r := LoadColorTable Sample.color_tables (Some 1%positive) p in
  let lut := colorTableLut_ (Sample.completed r p) in
  Sample.ends (sample_sweep 4 p0) = true
  /\ Sample.ends r = true
  /\ product_range (product_ p) = (2, 255)
  /\ length lut = 254%nat
  /\ lut !! 252%nat = Some (254, 0, 0, 255)
  /\ Color (Sample.color_tables 1%positive)
       (Float32.div
          (Float32.sub (Float32.of_Z 255) (offset Sample.near_block))
          (scale Sample.near_block))
     = (255, 0, 0, 255)
  /\ lut !! 253%nat = Some (0, 0, 0, 0).
Proof. vm_compute. repeat split. Qed.

(** C8 fails as stated: with a colour table that is not valid the pointer
    differs from the saved one, and yet nothing is rebuilt and nothing is
    signalled. *)
Lemma C8_invalid_table_is_not_rebuilt :
  let p0 := Sample.view Reflectivity Sample.slots_table Sample.one_radial in
  let p := Sample.completed (sample_sweep 4 p0) p0 in
  let q := set_colorTable (Some 2%positive) p in
  Sample.ends (sample_sweep 4 p0) = true
  /\ momentDataBlock0_ q = Some Sample.near_block
  /\ IsValid (Sample.color_tables 2%positive) = false
  /\ colorTable_ q = Some 2%positive
  /\ savedColorTable_ q = None
  /\ LoadColorTable Sample.color_tables (Some 2%positive) p = Done q
  /\ colorTableLut_ q = []
  /\ trace_ q = [SweepComputed].
Proof.
  intros p0 p q.
  split; [vm_compute; reflexivity |].
  split; [vm_compute; reflexivity |].
  split; [reflexivity |].
  split; [reflexivity |].
  split; [vm_compute; reflexivity |].
  split; [apply UpdateColorTable_not_ready; vm_compute; reflexivity |].
  split; vm_compute; reflexivity.
Qed.

Lemma C8_lut_rebuilt_on_key_change_witness :
  let p0 := Sample.view Reflectivity Sample.slots_table Sample.one_radial in
  let p := Sample.completed (sample_sweep 4 p0) p0 in
  let q := set_colorTable (Some 1%positive) p in
  (lut_inputs_ready Sample.color_tables q = true /\ lut_key_saved q = false)
  /\ exists (m : MomentDataBlock) (a : address) (q' : Level2ProductViewImpl),
       momentDataBlock0_ q = Some m /\ colorTable_ q = Some a
       /\ UpdateColorTable Sample.color_tables q = Done q'
       /\ Z.of_nat (length (colorTableLut_ q'))
          = (product_range (product_ q)).2 - (product_range (product_ q)).1 + 1
       /\ trace_ q' = trace_ q ++ [ColorTableUpdated].
Proof.
  intros p0 p q.
  assert (Hready : lut_inputs_ready Sample.color_tables q = true)
    by (vm_compute; reflexivity).
  assert (Hkey : lut_key_saved q = false) by (vm_compute; reflexivity).
  split; [split; assumption |].
  destruct (proj2 (proj2 (C8_lut_rebuilt_on_key_change Sample.color_tables q))
              Hready Hkey)
    as (m & a & q' & Hm & Ha & Hrun & Hlen & _ & _ & _ & _ & Htr & _).
  exists m, a, q'. repeat split; assumption.
Defined.

(** C9 fails as stated: a threshold that rounds to -65536 is negative and
    becomes 0, not a value near 65536, and every gate is displayed. *)
Lemma C9_threshold_minus_65536_displays_all :
  let m := Sample.block 8 (-65536) 2 125 250 [5; 250] in
  let p :=
    Sample.view Reflectivity Sample.slots_table (Sample.with_offset (-65536)) in
  let run := sample_sweep 4 p in
  snr_threshold_rounded m = -65536
  /\ snr_threshold m = 0
  /\ Sample.ends run = true
  /\ raw_values (Sample.completed run p)
     = [5; 5; 5; 250; 250; 250; 250; 250; 250].
Proof. vm_compute. repeat split. Qed.

Lemma C9_negative_threshold_wraps_witness :
  let m := Sample.block 8 (-5) 2 125 250 [5; 250] in
  let p :=
    Sample.view Reflectivity Sample.slots_table (Sample.with_offset (-5)) in
  let p' := Sample.completed (sample_sweep 4 p) p in
  (dataBlockType_ p <> Unknown /\ sample_sweep 4 p = Done p'
   /\ -65280 <= snr_threshold_rounded m < 0 /\ data_word_size m = 8)
  /\ snr_threshold m = 65531
  /\ vertices p' = [] /\ raw_values p' = [].
Proof.
  intros m p p'.
  assert (Hknown : dataBlockType_ p <> Unknown) by discriminate.
  assert (Hrun : sample_sweep 4 p = Done p')
    by (apply completed_Done; vm_compute; reflexivity).
  assert (HT : -65280 <= snr_threshold_rounded m < 0)
    by (vm_compute; split; [discriminate | reflexivity]).
  split; [repeat split; solve [assumption | apply HT] |].
  destruct (C9_negative_threshold_wraps
              Sample.MAX_RADIALS Sample.MAX_DATA_MOMENT_GATES
              Sample.color_tables
              4 p p' (Sample.radial 0 1 (Some m)) [] m
              Hknown eq_refl eq_refl Hrun)
    as (_ & _ & _ & _ & Hnone).
  split; [vm_compute; reflexivity |].
  exact (proj2 (Hnone HT eq_refl)).
Defined.

Lemma C10_later_radial_without_block_witness :
  let p := Sample.view Reflectivity Sample.slots_table Sample.block_missing in
  (dataBlockType_ p <> Unknown
   /\ radar_data p
      = Sample.radial 0 1 (Some Sample.first_block)
        :: [] ++ Sample.radial 1 1 None :: []
   /\ moment_data_block (Sample.radial 1 1 None) (dataBlockType_ p) = None)
  /\ sample_sweep 1850 p = Fault NullDereference.
Proof.
  intros p.
  assert (Hknown : dataBlockType_ p <> Unknown) by discriminate.
  split; [repeat split; exact Hknown |].
  refine (proj2
    (C10_later_radial_without_block
       Sample.MAX_RADIALS Sample.MAX_DATA_MOMENT_GATES Sample.color_tables
       1850 p (Sample.radial 0 1 (Some Sample.first_block))
       [Sample.radial 1 1 None] Sample.first_block
       Hknown eq_refl eq_refl)
    [] (Sample.radial 1 1 None) [] eq_refl eq_refl _ _ _ _).
  - eexists. reflexivity.
  - vm_compute. discriminate.
  - vm_compute. reflexivity.
  - apply Nat.ltb_lt. vm_compute. reflexivity.
Defined.

(** ** Further properties on sample sweeps *)

Local Abbreviation sample_update := (UpdateColorTable Sample.color_tables).

(** With an empty coordinate table the run faults on its first look-up,
    a read. *)
Lemma sweep_writes_stay_in_buffers_witness :
  let p := Sample.view Reflectivity [] Sample.one_radial in
  Z.of_nat (length (radar_data p)) <= 65535
  /\ sample_sweep 4 p <> Fault OutOfRangeWrite
  /\ sample_sweep 4 p = Fault OutOfRangeRead.
Proof.
  intros p.
  assert (Hlen : Z.of_nat (length (radar_data p)) <= 65535)
    by (apply Z.leb_le; vm_compute; reflexivity).
  split; [exact Hlen |]. split; [| vm_compute; reflexivity].
  exact (sweep_writes_stay_in_buffers
           Sample.MAX_RADIALS Sample.MAX_DATA_MOMENT_GATES
           Sample.color_tables 4 p Hlen).
Defined.

Lemma sweep_is_never_cut_short_witness :
  let p := Sample.view Reflectivity [] Sample.one_radial in
  (Z.of_nat (length (radar_data p)) <= 65535
   /\ (length (radar_data p)
       + Z.to_nat (to_u16 Sample.MAX_DATA_MOMENT_GATES) + 1 < 2000)%nat)
  /\ sample_sweep 2000 p <> OutOfFuel.
Proof.
  intros p.
  assert (Hlen : Z.of_nat (length (radar_data p)) <= 65535)
    by (apply Z.leb_le; vm_compute; reflexivity).
  assert (Hfuel : (length (radar_data p)
                   + Z.to_nat (to_u16 Sample.MAX_DATA_MOMENT_GATES) + 1
                   < 2000)%nat)
    by (apply Nat.ltb_lt; vm_compute; reflexivity).
  split; [split; assumption |].
  exact (sweep_is_never_cut_short
           Sample.MAX_RADIALS Sample.MAX_DATA_MOMENT_GATES
           Sample.color_tables 2000 p Hlen Hfuel).
Defined.

Lemma sweep_ends_iff_readable_witness :
  let p := Sample.view Reflectivity Sample.slots_table Sample.one_radial in
  let radarData0 := Sample.radial 0 1 (Some Sample.near_block) in
  (dataBlockType_ p <> Unknown
   /\ is_Some (volume_data_block radarData0)
   /\ Z.of_nat (length (radar_data p)) <= 65535
   /\ (length (radar_data p)
       + Z.to_nat (to_u16 Sample.MAX_DATA_MOMENT_GATES) + 1 < 2000)%nat)
  /\ ((exists p', sample_sweep 2000 p = Done p')
      <-> sweep_readable Sample.MAX_RADIALS Sample.MAX_DATA_MOMENT_GATES
            p radarData0 Sample.near_block (radar_data p) = true).
Proof.
  intros p radarData0.
  assert (Hknown : dataBlockType_ p <> Unknown) by discriminate.
  assert (Hvol : is_Some (volume_data_block radarData0))
    by (eexists; reflexivity).
  assert (Hlen : Z.of_nat (length (radar_data p)) <= 65535)
    by (apply Z.leb_le; vm_compute; reflexivity).
  assert (Hfuel : (length (radar_data p)
                   + Z.to_nat (to_u16 Sample.MAX_DATA_MOMENT_GATES) + 1
                   < 2000)%nat)
    by (apply Nat.ltb_lt; vm_compute; reflexivity).
  split; [split; [exact Hknown | split; [exact Hvol | split; assumption]] |].
  exact (sweep_ends_iff_readable
           Sample.MAX_RADIALS Sample.MAX_DATA_MOMENT_GATES
           Sample.color_tables 2000 p radarData0 [] Sample.near_block
           Hknown eq_refl eq_refl Hvol Hlen Hfuel).
Defined.

Lemma sweep_of_65536_radials_never_ends_witness :
  let p :=
    Sample.view Reflectivity Sample.slots_table Sample.too_many_radials in
  (dataBlockType_ p <> Unknown
   /\ 65536 <= Z.of_nat (length (radar_data p)))
  /\ forall fuel p', sample_sweep fuel p <> Done p'.
Proof.
  intros p.
  assert (Hknown : dataBlockType_ p <> Unknown) by discriminate.
  assert (Hlen : 65536 <= Z.of_nat (length (radar_data p)))
    by (apply Z.leb_le; vm_compute; reflexivity).
  split; [split; assumption |].
  intros fuel p'.
  exact (sweep_of_65536_radials_never_ends
           Sample.MAX_RADIALS Sample.MAX_DATA_MOMENT_GATES
           Sample.color_tables fuel p p'
           (Sample.radial 0 1 (Some Sample.first_block))
           (replicate (Z.to_nat 65535)
                      (Sample.radial 0 1 (Some Sample.first_block)))
           Sample.first_block Hknown eq_refl eq_refl Hlen).
Defined.

(** The first call builds the table and raises the signal; the second
    changes nothing. *)
Lemma lut_update_is_idempotent_witness :
  let p := Sample.loaded_view Sample.near_block 1%positive in
  let p' := Sample.completed (sample_update p) p in
  (sample_update p = Done p'
   /\ Float32.isnan (scale Sample.near_block) = false
   /\ Float32.isnan (offset Sample.near_block) = false)
  /\ trace_ p' = [ColorTableUpdated]
  /\ sample_update p' = Done p'.
Proof.
  intros p p'.
  assert (Hrun : sample_update p = Done p')
    by (apply completed_Done; vm_compute; reflexivity).
  split; [split; [exact Hrun | split; reflexivity] |].
  split; [vm_compute; reflexivity |].
  refine (lut_update_is_idempotent Sample.color_tables p p' _ Hrun).
  intros m [= <-]. split; reflexivity.
Defined.

Lemma lut_rebuilt_on_every_call_with_nan_witness :
  let p := Sample.loaded_view Sample.nan_block 1%positive in
  (lut_inputs_ready Sample.color_tables p = true
   /\ Float32.isnan (scale Sample.nan_block)
      || Float32.isnan (offset Sample.nan_block) = true)
  /\ exists p',
       sample_update p = Done p'
       /\ trace_ p' = trace_ p ++ [ColorTableUpdated]
       /\ lut_inputs_ready Sample.color_tables p' = true
       /\ momentDataBlock0_ p' = Some Sample.nan_block.
Proof.
  intros p. split; [split; reflexivity |].
  exact (lut_rebuilt_on_every_call_with_nan
           Sample.color_tables p Sample.nan_block eq_refl eq_refl eq_refl).
Defined.

Lemma sweep_leaves_lut_in_step_witness :
  let p :=
    set_colorTable (Some 1%positive)
      (Sample.view Reflectivity Sample.slots_table Sample.one_radial) in
  let p' := Sample.completed (sample_sweep 4 p) p in
  (dataBlockType_ p <> Unknown /\ sample_sweep 4 p = Done p'
   /\ Float32.isnan (scale Sample.near_block) = false
   /\ Float32.isnan (offset Sample.near_block) = false)
  /\ momentDataBlock0_ p' = Some Sample.near_block
  /\ sample_update p' = Done p'
  /\ (lut_inputs_ready Sample.color_tables p' = true ->
      lut_key_saved p' = true).
Proof.
  intros p p'.
  assert (Hknown : dataBlockType_ p <> Unknown) by discriminate.
  assert (Hrun : sample_sweep 4 p = Done p')
    by (apply completed_Done; vm_compute; reflexivity).
  split; [split; [exact Hknown | split; [exact Hrun | split; reflexivity]] |].
  exact (sweep_leaves_lut_in_step
           Sample.MAX_RADIALS Sample.MAX_DATA_MOMENT_GATES
           Sample.color_tables 4 p p'
           (Sample.radial 0 1 (Some Sample.near_block)) []
           Sample.near_block Hknown eq_refl eq_refl eq_refl eq_refl Hrun).
Defined.

Lemma first_sweep_builds_lut_witness :
  let mgr := Sample.manager Sample.slots_table Sample.one_radial in
  let p0 :=
    new_Level2ProductViewImpl Reflectivity mgr Float32.zero Float32.zero in
  let p1 := set_colorTable (Some 1%positive) p0 in
  let p' := Sample.completed (sample_sweep 4 p1) p1 in
  (is_Some (blockTypes_ Reflectivity)
   /\ IsValid (Sample.color_tables 1%positive) = true
   /\ sample_sweep 4 p1 = Done p')
  /\ LoadColorTable Sample.color_tables (Some 1%positive) p0 = Done p1
  /\ color_table [] p1 = []
  /\ color_table [] p' = colorTableLut_ p'
  /\ Z.of_nat (length (colorTableLut_ p')) = 254
  /\ trace_ p' = [SweepComputed; ColorTableUpdated].
Proof.
  intros mgr p0 p1 p'.
  assert (Hsome : is_Some (blockTypes_ Reflectivity))
    by (eexists; reflexivity).
  assert (Hrun : sample_sweep 4 p1 = Done p')
    by (apply completed_Done; vm_compute; reflexivity).
  split; [split; [exact Hsome | split; [reflexivity | exact Hrun]] |].
  destruct (first_sweep_builds_lut
              Sample.MAX_RADIALS Sample.MAX_DATA_MOMENT_GATES
              Sample.color_tables Reflectivity mgr Float32.zero Float32.zero
              1%positive [] 4 p'
              (Sample.radial 0 1 (Some Sample.near_block)) []
              Sample.near_block Hsome eq_refl eq_refl eq_refl Hrun)
    as (Hload & Hbase & Hlut & Hlen & _ & Htrace).
  split; [exact Hload |]. split; [exact Hbase |]. split; [exact Hlut |].
  split; [exact Hlen | exact Htrace].
Defined.

(** A view that holds the reference block of an earlier sweep. *)
Lemma failed_sweep_drops_reference_block_witness :
  let q :=
    set_momentDataBlock0 (Some Sample.near_block)
      (Sample.view Reflectivity [] Sample.no_block) in
  (dataBlockType_ q <> Unknown
   /\ momentDataBlock0_ q = Some Sample.near_block)
  /\ exists q',
       sample_sweep 4 q = Done q'
       /\ momentDataBlock0_ q' = None
       /\ colorTableLut_ q' = colorTableLut_ q
       /\ LoadColorTable Sample.color_tables (Some 1%positive) q'
          = Done (set_colorTable (Some 1%positive) q').
Proof.
  intros q.
  assert (Hknown : dataBlockType_ q <> Unknown) by discriminate.
  split; [split; [exact Hknown | reflexivity] |].
  exact (failed_sweep_drops_reference_block
           Sample.MAX_RADIALS Sample.MAX_DATA_MOMENT_GATES
           Sample.color_tables 4 q (Sample.radial 0 1 None) []
           (Some 1%positive) Hknown eq_refl eq_refl).
Defined.

(** An 8-bit sweep none of whose samples reaches the threshold: the
    component size handed out is 2. *)
Lemma moment_data_after_sweep_witness :
  let p := Sample.view Reflectivity Sample.slots_table Sample.all_below in
  let p' := Sample.completed (sample_sweep 4 p) p in
  (dataBlockType_ p <> Unknown /\ sample_sweep 4 p = Done p'
   /\ data_word_size Sample.all_below_block = 8)
  /\ GetMomentData p' = ([], 0, 2).
Proof.
  intros p p'.
  assert (Hknown : dataBlockType_ p <> Unknown) by discriminate.
  assert (Hrun : sample_sweep 4 p = Done p')
    by (apply completed_Done; vm_compute; reflexivity).
  split; [split; [exact Hknown | split; [exact Hrun | reflexivity]] |].
  exact (moment_data_after_sweep
           Sample.MAX_RADIALS Sample.MAX_DATA_MOMENT_GATES
           Sample.color_tables 4 p p'
           (Sample.radial 0 1 (Some Sample.all_below_block)) []
           Sample.all_below_block Hknown eq_refl eq_refl Hrun).
Defined.

Lemma sweep_time_of_first_radial_witness :
  let p := Sample.view Reflectivity Sample.slots_table Sample.one_radial in
  let p' := Sample.completed (sample_sweep 4 p) p in
  (dataBlockType_ p <> Unknown /\ sample_sweep 4 p = Done p')
  /\ sweep_time p' = (19000 - 1) * 86400000 + 1000.
Proof.
  intros p p'.
  assert (Hknown : dataBlockType_ p <> Unknown) by discriminate.
  assert (Hrun : sample_sweep 4 p = Done p')
    by (apply completed_Done; vm_compute; reflexivity).
  split; [split; assumption |].
  exact (sweep_time_of_first_radial
           Sample.MAX_RADIALS Sample.MAX_DATA_MOMENT_GATES
           Sample.color_tables 4 p p'
           (Sample.radial 0 1 (Some Sample.near_block)) []
           Sample.near_block Hknown eq_refl eq_refl Hrun).
Defined.

(** A fresh view and one that holds stale vertices and raw values. *)
Lemma sweep_ignores_previous_state_witness :
  let p := Sample.view Reflectivity Sample.slots_table Sample.one_radial in
  let q := set_buffers [Float32.zero] [9; 9; 9; 9; 9; 9; 9; 9; 9; 9; 9; 9] [] p in
  let p' := Sample.completed (sample_sweep 2000 p) p in
  (dataBlockType_ p <> Unknown /\ sample_sweep 2000 p = Done p'
   /\ (length (radar_data p)
       + Z.to_nat (to_u16 Sample.MAX_DATA_MOMENT_GATES) + 1 < 2000)%nat)
  /\ exists q',
       sample_sweep 2000 q = Done q'
       /\ vertices q' = vertices p'
       /\ GetMomentData q' = GetMomentData p'
       /\ latitude_ q' = latitude_ p' /\ longitude_ q' = longitude_ p'
       /\ sweep_time q' = sweep_time p'.
Proof.
  intros p q p'.
  assert (Hknown : dataBlockType_ p <> Unknown) by discriminate.
  assert (Hrun : sample_sweep 2000 p = Done p')
    by (apply completed_Done; vm_compute; reflexivity).
  assert (Hfuel : (length (radar_data p)
                   + Z.to_nat (to_u16 Sample.MAX_DATA_MOMENT_GATES) + 1
                   < 2000)%nat)
    by (apply Nat.ltb_lt; vm_compute; reflexivity).
  split; [split; [exact Hknown | split; assumption] |].
  exact (sweep_ignores_previous_state
           Sample.MAX_RADIALS Sample.MAX_DATA_MOMENT_GATES
           Sample.color_tables 2000 p q p'
           (Sample.radial 0 1 (Some Sample.near_block)) []
           Sample.near_block eq_refl eq_refl Hknown eq_refl eq_refl
           Hfuel Hrun).
Defined.

Lemma sweep_behind_origin_is_empty_witness :
  let p := Sample.view Reflectivity Sample.slots_table Sample.behind_origin in
  let p' := Sample.completed (sample_sweep 4 p) p in
  (to_u16 Sample.MAX_DATA_MOMENT_GATES <= 65405
   /\ dataBlockType_ p <> Unknown
   /\ starts_behind_origin Sample.behind_origin_block = true
   /\ sample_sweep 4 p = Done p')
  /\ vertices p' = [] /\ raw_values p' = [].
Proof.
  intros p p'.
  assert (Hmax : to_u16 Sample.MAX_DATA_MOMENT_GATES <= 65405)
    by (apply Z.leb_le; vm_compute; reflexivity).
  assert (Hknown : dataBlockType_ p <> Unknown) by discriminate.
  assert (Hrun : sample_sweep 4 p = Done p')
    by (apply completed_Done; vm_compute; reflexivity).
  split;
    [split; [exact Hmax | split; [exact Hknown | split; [reflexivity | exact Hrun]]] |].
  refine (sweep_behind_origin_is_empty
            Sample.MAX_RADIALS Sample.MAX_DATA_MOMENT_GATES
            Sample.color_tables 4 p p'
            (Sample.radial 0 1 (Some Sample.behind_origin_block)) []
            Sample.behind_origin_block Hmax Hknown eq_refl eq_refl _ Hrun).
  repeat constructor. intros m [= <-]. reflexivity.
Defined.

Lemma sweep_without_volume_block_faults_witness :
  let p := Sample.view Reflectivity Sample.slots_table Sample.no_volume in
  (dataBlockType_ p <> Unknown
   /\ volume_data_block Sample.volume_missing = None)
  /\ sample_sweep 4 p = Fault NullDereference.
Proof.
  intros p.
  assert (Hknown : dataBlockType_ p <> Unknown) by discriminate.
  split; [split; [exact Hknown | reflexivity] |].
  exact (sweep_without_volume_block_faults
           Sample.MAX_RADIALS Sample.MAX_DATA_MOMENT_GATES
           Sample.color_tables 4 p Sample.volume_missing []
           Sample.first_block Hknown eq_refl eq_refl eq_refl).
Defined.

